(** * Demo HTTP services for an observability agent: handlers and their properties

    The repository holds several independent Flask/http.server applications.
    Each application is embedded below in a module of its own:

    - [AppWithoutInst]          : src/app-without-inst.py
    - [LocalDeployment]         : src/local-deployment/app/app-without-instrumentation.py
    - [AppDemo]                 : src/app-demo/app.py
    - [AppWithInstrumentation]  : src/local-deployment/app/app-with-instrumentation.py
    - [GkeApp]                  : src/gke-app.py
    - [App]                     : src/app.py
    - [AppDb]                   : src/app.py, the tables of test.db

    [Py] holds what the applications take from Python and Flask, [Shop] the
    rows that the two in-memory applications share.

    Handlers are programs in a state-and-exception monad [M St A].  The state
    has two parts: the application's own store [St] (module-level lists,
    dictionaries, the SQLite file) and the environment [env] shared by all
    applications (a clock that advances by [time.sleep], the source of
    randomness, the emitted log lines and span events).

    Python floats are rendered as exact rationals ([Q]); the properties below
    are about order, identity and range of values, and [round] is the rounding
    of rationals. *)

From Stdlib Require Import ZArith QArith Qround Lqa Lia List String Ascii.
From stdpp Require Import base option list gmap strings pretty.

Set Default Proof Using "Type".
Set Warnings "-register-all".

(* ===================================================================== *)
(** * Python runtime                                                      *)
(* ===================================================================== *)

Module Py.

(** Exceptions that the modelled code can raise. *)
Inductive exn :=
| ValueError (msg : string)
| TypeError (msg : string)
| KeyError (key : string)
| IndexError (msg : string)
| AttributeError (msg : string)
| StopIteration
| OperationalError (msg : string)   (* sqlite3.OperationalError *)
| InterfaceError (msg : string)     (* sqlite3.InterfaceError *)
| NotFound                          (* werkzeug.exceptions.NotFound *)
| MethodNotAllowed                  (* werkzeug.exceptions.MethodNotAllowed *)
| PlainException (msg : string).    (* Exception(msg) *)

(** [type(e).__name__] *)
Definition exn_name (e : exn) : string :=
  match e with
  | ValueError _ => "ValueError"
  | TypeError _ => "TypeError"
  | KeyError _ => "KeyError"
  | IndexError _ => "IndexError"
  | AttributeError _ => "AttributeError"
  | StopIteration => "StopIteration"
  | OperationalError _ => "OperationalError"
  | InterfaceError _ => "InterfaceError"
  | NotFound => "NotFound"
  | MethodNotAllowed => "MethodNotAllowed"
  | PlainException _ => "Exception"
  end.

(** [str(e)] *)
Definition exn_str (e : exn) : string :=
  match e with
  | ValueError m | TypeError m | AttributeError m | IndexError m
  | OperationalError m | InterfaceError m | PlainException m => m
  | KeyError k => "'" ++ k ++ "'"
  | StopIteration => ""
  | NotFound => "404 Not Found: The requested URL was not found on the server."
  | MethodNotAllowed => "405 Method Not Allowed: The method is not allowed for the requested URL."
  end.

Inductive result (A : Type) :=
| Ok (a : A)
| Raise (e : exn).
Arguments Ok {A} a.
Arguments Raise {A} e.

(** Values that a decoded JSON request carries in its fields.  Booleans and
    non-integer numbers are left out, so that Python's [==] on these values is
    structural equality. *)
Inductive value :=
| VNone
| VInt (z : Z)
| VStr (s : string)
| VList (l : list Z).

#[global] Instance value_eq_dec : EqDecision value.
Proof. solve_decision. Defined.

(** [a == b] *)
Definition py_eq (a b : value) : bool := bool_decide (a = b).

(** [iter(v)]: lists yield their elements, strings their characters, the rest
    is not iterable. *)
Definition py_iter (v : value) : result (list value) :=
  match v with
  | VList l => Ok (map VInt l)
  | VStr s => Ok (map (fun c => VStr (String c EmptyString)) (list_ascii_of_string s))
  | VInt _ => Raise (TypeError "'int' object is not iterable")
  | VNone => Raise (TypeError "'NoneType' object is not iterable")
  end.

(** A decoded request body: [None] is Python's [None] (a JSON [null]),
    [Some m] a dict. *)
Definition body := option (gmap string value).

(** [not d] for a dict or [None]. *)
Definition falsy (b : body) : bool :=
  match b with
  | None => true
  | Some m => bool_decide (m = ∅)
  end.

(** ['k' in d]; only reached for a truthy dict in the code below. *)
Definition has_key (k : string) (b : body) : bool :=
  match b with
  | None => false
  | Some m => bool_decide (is_Some (m !! k))
  end.

(** Pieces of an f-string. *)
Inductive piece :=
| Lit (s : string)
| FInt (z : Z)              (* {n} and {n:,} *)
| FFloat (q : Q)            (* {x} *)
| FFixed (digits : nat) (q : Q)   (* {x:.3f} *)
| FVal (v : value)
| FOpt (v : option value).  (* {d.get(k)} *)
Definition text := list piece.

Inductive level := INFO | WARNING | ERROR.

(** What a handler does to the outside world, in order. *)
Inductive event :=
| Logged (lvl : level) (msg : text)        (* logger.info / warning / error *)
| SpanEvent (span : text) (msg : text)    (* span.add_event *)
| Slept (d : Q).                          (* time.sleep *)

(** One draw of [random.random()]: a number in [0, 1). *)
Definition in_unit (q : Q) : bool := Qle_bool 0 q && negb (Qle_bool 1 q).

Record sample := Sample { sample_val : Q; sample_ok : in_unit sample_val = true }.

Record env := Env {
  clock : Q;                 (* seconds spent in time.sleep so far *)
  entropy : nat -> sample;   (* the values random.random() will return *)
  cursor : nat;              (* how many of them were consumed *)
  trace : list event
}.

Definition M (St A : Type) : Type := St -> env -> result A * St * env.

Definition ret {St A} (a : A) : M St A := fun st en => (Ok a, st, en).

Definition bind {St A B} (m : M St A) (k : A -> M St B) : M St B :=
  fun st en =>
    match m st en with
    | (Ok a, st', en') => k a st' en'
    | (Raise e, st', en') => (Raise e, st', en')
    end.

Declare Scope py_scope.
Delimit Scope py_scope with py.
Notation "x <- m ;; k" := (bind m (fun x => k))
  (at level 100, m at next level, right associativity) : py_scope.
Notation "m ;; k" := (bind m (fun _ => k))
  (at level 100, right associativity) : py_scope.
Local Open Scope py_scope.

Definition raise {St A} (e : exn) : M St A := fun st en => (Raise e, st, en).

(** [try: m  except Exception as e: h e] *)
Definition try_except {St A} (m : M St A) (h : exn -> M St A) : M St A :=
  fun st en =>
    match m st en with
    | (Ok a, st', en') => (Ok a, st', en')
    | (Raise e, st', en') => h e st' en'
    end.

Definition of_result {St A} (r : result A) : M St A :=
  match r with Ok a => ret a | Raise e => raise e end.

Definition get {St} : M St St := fun st en => (Ok st, st, en).

Definition modify {St} (f : St -> St) : M St unit := fun st en => (Ok tt, f st, en).

Definition emit {St} (ev : event) : M St unit :=
  fun st en =>
    (Ok tt, st, {| clock := clock en; entropy := entropy en;
                   cursor := cursor en; trace := trace en ++ [ev] |}).

(** [logger.info(msg)], [logger.warning(msg)], [logger.error(msg)] *)
Definition log {St} (lvl : level) (msg : text) : M St unit := emit (Logged lvl msg).

(** [span.add_event(msg)] on the span opened under the name [span] *)
Definition add_event {St} (span msg : text) : M St unit := emit (SpanEvent span msg).

(** [random.random()] *)
Definition random {St} : M St Q :=
  fun st en =>
    (Ok (sample_val (entropy en (cursor en))), st,
     {| clock := clock en; entropy := entropy en;
        cursor := S (cursor en); trace := trace en |}).

(** [random.uniform(a, b)], which the library computes as
    [a + (b - a) * random()]. *)
Definition uniform {St} (a b : Q) : M St Q :=
  r <- random ;; ret (a + (b - a) * r)%Q.

(** [time.sleep(d)]; a negative length raises [ValueError]. *)
Definition sleep {St} (d : Q) : M St unit :=
  fun st en =>
    if Qle_bool 0 d
    then (Ok tt, st, {| clock := (clock en + d)%Q; entropy := entropy en;
                        cursor := cursor en; trace := trace en ++ [Slept d] |})
    else (Raise (ValueError "sleep length must be non-negative"), st, en).

(** [time.time()] and [datetime.now()] read the clock. *)
Definition now {St} : M St Q := fun st en => (Ok (clock en), st, en).

(** [for x in l: acc = body(acc, x)] *)
Fixpoint for_fold {St A B} (l : list A) (acc : B) (body : B -> A -> M St B) : M St B :=
  match l with
  | [] => ret acc
  | x :: l' => acc' <- body acc x ;; for_fold l' acc' body
  end.

(** [for x in l: body(x)] *)
Definition for_each {St A} (l : list A) (body : A -> M St unit) : M St unit :=
  for_fold l tt (fun _ x => body x).

(** Requests served by threads: each caller is at some place of its view, and
    the callers run, one uninterrupted stretch at a time, in the order the
    scheduler picks them. *)
Fixpoint run_schedule {St C} (advance : C -> M St C) (schedule : list nat)
    (pool : list C) : M St (list C) :=
  match schedule with
  | [] => ret pool
  | i :: rest =>
      match pool !! i with
      | Some c => c' <- advance c ;; run_schedule advance rest (<[i := c']> pool)
      | None => run_schedule advance rest pool
      end
  end.

(** [d[k]] *)
Definition getitem (b : body) (k : string) : result value :=
  match b with
  | None => Raise (TypeError "'NoneType' object is not subscriptable")
  | Some m =>
      match m !! k with
      | Some v => Ok v
      | None => Raise (KeyError k)
      end
  end.

(** [d.get(k)] *)
Definition dict_get (b : body) (k : string) : result (option value) :=
  match b with
  | None => Raise (AttributeError "'NoneType' object has no attribute 'get'")
  | Some m => Ok (m !! k)
  end.

(** [bool(v)] *)
Definition truthy (v : value) : bool :=
  match v with
  | VNone => false
  | VInt z => negb (z =? 0)%Z
  | VStr s => negb (String.eqb s "")
  | VList l => match l with [] => false | _ => true end
  end.

(** [next((i for i, x in enumerate(l) if f(x)), None)]: the position of the
    object that [next(x for x in l if f(x))] returns.  A Python variable bound
    to a dict that sits in a list is a reference; it is rendered by the
    position of the dict in the list, so that writes through the variable
    reach the list. *)
Fixpoint next_index {A} (f : A -> bool) (l : list A) : option nat :=
  match l with
  | [] => None
  | x :: l' => if f x then Some 0%nat else S <$> next_index f l'
  end.

(** [random.randint(a, b)]: an integer of [a..b], here read off the same
    generator as [random.random()]. *)
Definition randint {St} (a b : Z) : M St Z :=
  r <- random ;; ret (a + Qfloor (r * inject_Z (b - a + 1)))%Z.

(** [range(n)] *)
Definition range (n : Z) : list Z := map Z.of_nat (seq 0 (Z.to_nat n)).

(** [int(s)] for a string in base 10: blanks around, a sign, then digits,
    where single underscores may separate digits. *)
Definition is_space (c : ascii) : bool :=
  let n := nat_of_ascii c in ((9 <=? n) && (n <=? 13) || (n =? 32))%nat.

Definition digit_of (c : ascii) : option Z :=
  let n := nat_of_ascii c in
  if ((48 <=? n) && (n <=? 57))%nat then Some (Z.of_nat (n - 48)) else None.

Fixpoint lstrip (l : list ascii) : list ascii :=
  match l with
  | c :: l' => if is_space c then lstrip l' else l
  | [] => []
  end.

Definition strip (l : list ascii) : list ascii := rev (lstrip (rev (lstrip l))).

Fixpoint digits (acc : Z) (after_digit : bool) (l : list ascii) : option Z :=
  match l with
  | [] => if after_digit then Some acc else None
  | c :: l' =>
      match digit_of c with
      | Some d => digits (10 * acc + d) true l'
      | None =>
          if Ascii.eqb c "_" && after_digit then digits acc false l' else None
      end
  end.

Definition py_int (s : string) : result Z :=
  let parsed :=
    match strip (list_ascii_of_string s) with
    | "-"%char :: l => Z.opp <$> digits 0 false l
    | "+"%char :: l => digits 0 false l
    | l => digits 0 false l
    end in
  match parsed with
  | Some z => Ok z
  | None => Raise (ValueError ("invalid literal for int() with base 10: '" ++ s ++ "'"))
  end.

(** [l[ref]] for a list [l] of the store. *)
Definition deref {St A} (l : St -> list A) (ref : nat) : M St A :=
  st <- get ;;
  match l st !! ref with
  | Some x => ret x
  | None => raise (IndexError "list index out of range")
  end.

(** JSON documents sent back by [jsonify]. *)
Inductive json :=
| JNull
| JBool (b : bool)
| JInt (z : Z)
| JNum (q : Q)
| JRound (digits : nat) (q : Q)   (* round(x, digits) *)
| JStr (s : string)
| JText (t : text)                (* an f-string *)
| JTime (t : Q)                   (* datetime.now().isoformat() *)
| JArr (l : list json)
| JObj (fields : list (string * json)).

Definition json_of_value (v : value) : json :=
  match v with
  | VNone => JNull
  | VInt z => JInt z
  | VStr s => JStr s
  | VList l => JArr (map JInt l)
  end.

(** Lookup in a dict display, fields in the order they are written. *)
Fixpoint assoc (k : string) (fields : list (string * json)) : option json :=
  match fields with
  | [] => None
  | (k', v) :: rest => if String.eqb k k' then Some v else assoc k rest
  end.

Definition field (k : string) (j : json) : option json :=
  match j with
  | JObj fields => assoc k fields
  | _ => None
  end.

(** What a view returns: [jsonify(x), code]; [jsonify(x)] alone means 200. *)
Record response := Response {
  resp_body : json;
  status : Z;
  headers : list (string * text)
}.

Definition jsonify (j : json) (code : Z) : response :=
  {| resp_body := j; status := code; headers := [] |}.

(** What Flask answers when a view raises and no error handler is
    registered. *)
Definition internal_server_error : json := JStr "Internal Server Error".

(** A view of an application that registers no error handler. *)
Definition serve {St} (view : M St response) : M St response :=
  try_except view (fun _ => ret (jsonify internal_server_error 500)).

End Py.

Import Py.
Local Open Scope py_scope.
Local Open Scope string_scope.
Local Open Scope list_scope.

(* ===================================================================== *)
(** * Rows of the in-memory lists                                         *)
(* ===================================================================== *)

(** src/app-without-inst.py and
    src/local-deployment/app/app-without-instrumentation.py declare the same
    three module-level lists [users], [orders], [products]; the dicts they
    hold have fixed keys and are rendered as records. *)
Module Shop.

Record user := User {
  user_id : Z;
  user_name : value;
  user_email : value;
  user_created_at : Q;
  user_status : string
}.

Record product := Product {
  product_id : Z;
  product_name : string;
  product_price : Q;
  product_stock : Z
}.

Record item := Item {
  item_product_id : value;
  item_name : string;
  item_price : Q
}.

Record order := Order {
  order_id : Z;
  order_user_id : value;
  order_user_name : value;
  order_items : list item;
  order_total_amount : Q;
  order_status : string;
  order_created_at : Q
}.

(** What a caller of [create_order] holds once its order is appended: the
    variables [order], [user], [total_amount] and [order_items]. *)
Record placed := Placed {
  placed_order : nat;
  placed_user : user;
  placed_total : Q;
  placed_items : list item
}.

Definition seed_products : list product :=
  [ {| product_id := 1; product_name := "Laptop"; product_price := 999.99; product_stock := 10 |};
    {| product_id := 2; product_name := "Phone"; product_price := 699.99; product_stock := 25 |};
    {| product_id := 3; product_name := "Tablet"; product_price := 399.99; product_stock := 15 |};
    {| product_id := 4; product_name := "Headphones"; product_price := 199.99; product_stock := 50 |} ].

(** [order['status'] = s] *)
Definition set_status (s : string) (o : order) : order :=
  {| order_id := order_id o; order_user_id := order_user_id o;
     order_user_name := order_user_name o; order_items := order_items o;
     order_total_amount := order_total_amount o; order_status := s;
     order_created_at := order_created_at o |}.

(** [product['stock'] -= 1] *)
Definition take_one (p : product) : product :=
  {| product_id := product_id p; product_name := product_name p;
     product_price := product_price p; product_stock := product_stock p - 1 |}.

(** [u['email'] == email] *)
Definition email_is (email : value) (u : user) : bool := py_eq (user_email u) email.

(** [u['id'] == uid] *)
Definition user_is (uid : value) (u : user) : bool := py_eq (VInt (user_id u)) uid.

(** [p['id'] == pid] *)
Definition product_is (pid : value) (p : product) : bool := py_eq (VInt (product_id p)) pid.

Definition json_of_user (u : user) : json :=
  JObj [("id", JInt (user_id u)); ("name", json_of_value (user_name u));
        ("email", json_of_value (user_email u));
        ("created_at", JTime (user_created_at u));
        ("status", JStr (user_status u))].

Definition json_of_item (i : item) : json :=
  JObj [("product_id", json_of_value (item_product_id i));
        ("name", JStr (item_name i)); ("price", JNum (item_price i))].

Definition json_of_order (o : order) : json :=
  JObj [("id", JInt (order_id o)); ("user_id", json_of_value (order_user_id o));
        ("user_name", json_of_value (order_user_name o));
        ("items", JArr (map json_of_item (order_items o)));
        ("total_amount", JNum (order_total_amount o));
        ("status", JStr (order_status o));
        ("created_at", JTime (order_created_at o))].

End Shop.

Import Shop.

(* ===================================================================== *)
(** * src/app-without-inst.py                                             *)
(* ===================================================================== *)

Module AppWithoutInst.

Record metrics := Metrics {
  total_requests : Z;
  total_errors : Z;
  response_times : list Q
}.

Record store := Store {
  users : list user;
  orders : list order;
  products : list product;
  app_metrics : metrics
}.

Definition initial : store :=
  {| users := []; orders := []; products := seed_products;
     app_metrics := {| total_requests := 0; total_errors := 0; response_times := [] |} |}.

(** [app_metrics['total_requests'] += 1] *)
Definition count_request (st : store) : store :=
  {| users := users st; orders := orders st; products := products st;
     app_metrics := {| total_requests := total_requests (app_metrics st) + 1;
                       total_errors := total_errors (app_metrics st);
                       response_times := response_times (app_metrics st) |} |}.

(** [app_metrics['total_errors'] += 1] *)
Definition count_error (st : store) : store :=
  {| users := users st; orders := orders st; products := products st;
     app_metrics := {| total_requests := total_requests (app_metrics st);
                       total_errors := total_errors (app_metrics st) + 1;
                       response_times := response_times (app_metrics st) |} |}.

Definition set_users (f : list user -> list user) (st : store) : store :=
  {| users := f (users st); orders := orders st; products := products st;
     app_metrics := app_metrics st |}.

Definition set_orders (f : list order -> list order) (st : store) : store :=
  {| users := users st; orders := f (orders st); products := products st;
     app_metrics := app_metrics st |}.

Definition set_products (f : list product -> list product) (st : store) : store :=
  {| users := users st; orders := orders st; products := f (products st);
     app_metrics := app_metrics st |}.

Definition json_of_metrics (m : metrics) : json :=
  JObj [("total_requests", JInt (total_requests m));
        ("total_errors", JInt (total_errors m));
        ("response_times", JArr (map JNum (response_times m)))].

Definition simulate_database_operation {St} (operation_type : string)
    (duration_range : Q * Q) : M St Q :=
  log INFO [Lit "Starting "; Lit operation_type; Lit " operation"] ;;
  duration <- uniform (fst duration_range) (snd duration_range) ;;
  sleep duration ;;
  log INFO [Lit "Completed "; Lit operation_type; Lit " operation in ";
            FFixed 3 duration; Lit "s"] ;;
  ret duration.

(** The default of the [duration_range] argument. *)
Definition default_range : Q * Q := (0.05, 0.2)%Q.

Definition process_business_logic {St} (operation_name complexity : string) : M St unit :=
  log INFO [Lit "Processing "; Lit operation_name; Lit " with "; Lit complexity;
            Lit " complexity"] ;;
  log INFO [Lit "Starting validation"] ;;
  (d <- uniform 0.01 0.03 ;; sleep d) ;;
  log INFO [Lit "Validation completed"] ;;
  for_each ["initialize"; "process"; "finalize"] (fun step =>
    log INFO [Lit "Executing step: "; Lit step] ;;
    (if String.eqb step "process" && String.eqb complexity "high"
     then d <- uniform 0.1 0.3 ;; sleep d
     else d <- uniform 0.02 0.05 ;; sleep d) ;;
    log INFO [Lit "Completed "; Lit step]) ;;
  log INFO [Lit "Business logic completed"].

(** ** create_user *)

(** The [except Exception as e] clause of [create_user]. *)
Definition create_user_except (e : exn) : M store response :=
  log ERROR [Lit "Error creating user: "; Lit (exn_str e)] ;;
  modify count_error ;;
  ret (jsonify (JObj [("error", JStr "Internal server error")]) 500).

(** The body of [create_user] up to and including the construction of the
    [user] dict: either an early [return] or the dict. *)
Definition create_user_prepare (user_data : body) : M store (response + user) :=
  if falsy user_data || negb (has_key "name" user_data)
     || negb (has_key "email" user_data)
  then
    log ERROR [Lit "Invalid user data"] ;;
    modify count_error ;;
    ret (inl (jsonify (JObj [("error", JStr "Invalid user data")]) 400))
  else
    name <- of_result (getitem user_data "name") ;;
    log INFO [Lit "Creating user: "; FVal name] ;;
    simulate_database_operation "select_by_email" (0.02, 0.05)%Q ;;
    email <- of_result (getitem user_data "email") ;;
    st <- get ;;
    match find (email_is email) (users st) with
    | Some existing_user =>
        log WARNING [Lit "Email already exists: "; FVal email] ;;
        modify count_error ;;
        ret (inl (jsonify (JObj [("error", JStr "Email already exists")]) 409))
    | None =>
        st <- get ;;
        created_at <- now ;;
        ret (inr {| user_id := Z.of_nat (length (users st)) + 1;
                    user_name := name;
                    user_email := email;
                    user_created_at := created_at;
                    user_status := "active" |})
    end.

(** The rest of the body, from the simulated insert to the final [return]. *)
Definition create_user_save (user : user) : M store response :=
  simulate_database_operation "insert_user" (0.08, 0.15)%Q ;;
  modify (set_users (fun l => l ++ [user])) ;;
  (d <- uniform 0.01 0.03 ;; sleep d) ;;
  log INFO [Lit "User cache updated"] ;;
  (d <- uniform 0.05 0.1 ;; sleep d) ;;
  log INFO [Lit "Welcome notification sent to "; FVal (user_email user)] ;;
  log INFO [Lit "Created user: "; FVal (user_name user); Lit " (ID: ";
            FInt (user_id user); Lit ")"] ;;
  ret (jsonify (json_of_user user) 201).

Definition create_user (user_data : body) : M store response :=
  try_except
    (r <- create_user_prepare user_data ;;
     match r with
     | inl early => ret early
     | inr user => create_user_save user
     end)
    create_user_except.

Definition simulate_cache_operation {St} (cache_key : string) (hit_rate : Q) : M St bool :=
  log INFO [Lit "Cache lookup for key: "; Lit cache_key] ;;
  r <- random ;;
  let is_hit := negb (Qle_bool hit_rate r) in
  if is_hit
  then (d <- uniform 0.001 0.005 ;; sleep d) ;; log INFO [Lit "Cache hit"] ;; ret true
  else (d <- uniform 0.01 0.03 ;; sleep d) ;; log INFO [Lit "Cache miss"] ;; ret false.

Definition get_users : M store response :=
  log INFO [Lit "Fetching all users"] ;;
  cache_hit <- simulate_cache_operation "all_users" 0.7 ;;
  (if cache_hit then ret 0%Q
   else simulate_database_operation "select_all_users" (0.04, 0.10)%Q) ;;
  st <- get ;;
  log INFO [Lit "Returning "; FInt (Z.of_nat (length (users st))); Lit " users"] ;;
  ret (jsonify (JArr (map json_of_user (users st))) 200).

(** The view bound to [/api/users]. *)
Definition handle_users (method : string) (user_data : body) : M store response :=
  log INFO [Lit "Users API accessed via "; Lit method] ;;
  modify count_request ;;
  if String.eqb method "POST" then create_user user_data else get_users.

(** ** create_order *)

Definition create_order_except (e : exn) : M store response :=
  log ERROR [Lit "Error creating order: "; Lit (exn_str e)] ;;
  modify count_error ;;
  ret (jsonify (JObj [("error", JStr "Internal server error")]) 500).

(** One turn of the loop [for product_id in order_data['product_ids']]; the
    accumulator is the pair [(total_amount, order_items)] and [continue]
    leaves it as it is.  No other handler runs between the lookup of the
    product and the test of its stock. *)
Definition process_product (acc : Q * list item) (product_id : value)
    : M store (Q * list item) :=
  log INFO [Lit "Processing product "; FVal product_id] ;;
  st <- get ;;
  match find (product_is product_id) (products st) with
  | None =>
      log WARNING [Lit "Product "; FVal product_id; Lit " not found"] ;;
      ret acc
  | Some product =>
      simulate_database_operation "select_inventory" default_range ;;
      if (product_stock product <=? 0)%Z
      then
        log WARNING [Lit "Product "; FVal product_id; Lit " out of stock"] ;;
        ret acc
      else
        process_business_logic "pricing_calculation" "medium" ;;
        let item_total := product_price product in
        ret ((fst acc + item_total)%Q,
             snd acc ++ [{| item_product_id := product_id;
                            item_name := product_name product;
                            item_price := product_price product |}])
  end.

(** "Create order" and "Save order": builds the dict with status [pending]
    and appends it; the result is the position of the dict in [orders], which
    stands for the variable [order]. *)
Definition create_order_record (user_id : value) (user : user)
    (total_amount : Q) (order_items : list item) : M store nat :=
  st <- get ;;
  created_at <- now ;;
  let order := {| order_id := Z.of_nat (length (orders st)) + 1;
                  order_user_id := user_id;
                  order_user_name := user_name user;
                  order_items := order_items;
                  order_total_amount := total_amount;
                  order_status := "pending";
                  order_created_at := created_at |} in
  simulate_database_operation "insert_order" (0.1, 0.2)%Q ;;
  st' <- get ;;
  modify (set_orders (fun l => l ++ [order])) ;;
  ret (length (orders st')).

(** "Process payment simulation" *)
Definition process_payment (order : nat) (total_amount : Q) : M store unit :=
  log INFO [Lit "Processing payment of $"; FFloat total_amount] ;;
  (d <- uniform 0.2 0.5 ;; sleep d) ;;
  r <- random ;;
  let payment_success := negb (Qle_bool r 0.1) in
  if payment_success
  then
    modify (set_orders (alter (set_status "paid") order)) ;;
    log INFO [Lit "Payment processed successfully"]
  else
    modify (set_orders (alter (set_status "payment_failed") order)) ;;
    log ERROR [Lit "Payment failed"] ;;
    modify count_error.

(** "Update inventory" *)
Definition update_inventory (order_items : list item) : M store unit :=
  simulate_database_operation "update_inventory" default_range ;;
  for_each order_items (fun item =>
    st <- get ;;
    match next_index (product_is (item_product_id item)) (products st) with
    | None => raise StopIteration
    | Some product => modify (set_products (alter take_one product))
    end).

(** The view bound to [/api/orders]. *)
Definition create_order (order_data : body) : M store response :=
  try_except
    (start_time <- now ;;
     logged_id <- of_result (dict_get order_data "user_id") ;;
     log INFO [Lit "Creating order for user: "; FOpt logged_id] ;;
     if falsy order_data || negb (has_key "user_id" order_data)
        || negb (has_key "product_ids" order_data)
     then
       log ERROR [Lit "Invalid order data"] ;;
       ret (jsonify (JObj [("error", JStr "Invalid order data")]) 400)
     else
       simulate_database_operation "select_user_by_id" default_range ;;
       user_id <- of_result (getitem order_data "user_id") ;;
       st <- get ;;
       match find (user_is user_id) (users st) with
       | None =>
           log ERROR [Lit "User not found"] ;;
           ret (jsonify (JObj [("error", JStr "User not found")]) 404)
       | Some user =>
           product_ids <- of_result (getitem order_data "product_ids") ;;
           ids <- of_result (py_iter product_ids) ;;
           acc <- for_fold ids (0%Q, []) process_product ;;
           let total_amount := fst acc in
           let order_items := snd acc in
           order <- create_order_record user_id user total_amount order_items ;;
           process_payment order total_amount ;;
           update_inventory order_items ;;
           saved <- deref orders order ;;
           log INFO [Lit "Created order: "; FInt (order_id saved);
                     Lit " for user: "; FVal (user_name user)] ;;
           ret (jsonify (json_of_order saved) 201)
       end)
    create_order_except.

(** The view bound to [/health]. *)
Definition health_check : M store response :=
  log INFO [Lit "Health check requested"] ;;
  simulate_database_operation "health_check" (0.01, 0.03)%Q ;;
  (d <- uniform 0.005 0.015 ;; sleep d) ;;
  log INFO [Lit "Cache health check passed"] ;;
  timestamp <- now ;;
  st <- get ;;
  ret (jsonify (JObj [("status", JStr "healthy");
                      ("timestamp", JTime timestamp);
                      ("version", JStr "1.0.0");
                      ("metrics", json_of_metrics (app_metrics st))]) 200).

(** ** Parallel callers of create_user

    The development server handles each request in a thread of its own.  A
    thread can be preempted wherever it sleeps; [create_user] sleeps inside
    the simulated insert, after the [user] dict was built from [len(users)]
    and before it is appended.  A caller is therefore in one of three
    places. *)
Inductive caller :=
| Arrived (user_data : body)    (* the request was received *)
| Built (user : user)           (* the dict is built and not yet saved *)
| Answered (r : response).

(** One uninterrupted stretch of a caller. *)
Definition advance (c : caller) : M store caller :=
  match c with
  | Arrived user_data =>
      try_except
        (r <- create_user_prepare user_data ;;
         match r with
         | inl early => ret (Answered early)
         | inr user => ret (Built user)
         end)
        (fun e => r <- create_user_except e ;; ret (Answered r))
  | Built user =>
      try_except
        (r <- create_user_save user ;; ret (Answered r))
        (fun e => r <- create_user_except e ;; ret (Answered r))
  | Answered r => ret (Answered r)
  end.

(** ** Overlapping callers of create_order

    [create_order] sleeps in the payment step, after the order was appended
    with the status [pending].  [create_order_place] is the body of the view up
    to the append, [create_order_settle] is the rest; run back to back they are
    [create_order]. *)
Definition create_order_place (order_data : body) : M store (response + placed) :=
  start_time <- now ;;
  logged_id <- of_result (dict_get order_data "user_id") ;;
  log INFO [Lit "Creating order for user: "; FOpt logged_id] ;;
  if falsy order_data || negb (has_key "user_id" order_data)
     || negb (has_key "product_ids" order_data)
  then
    log ERROR [Lit "Invalid order data"] ;;
    ret (inl (jsonify (JObj [("error", JStr "Invalid order data")]) 400))
  else
    simulate_database_operation "select_user_by_id" default_range ;;
    user_id <- of_result (getitem order_data "user_id") ;;
    st <- get ;;
    match find (user_is user_id) (users st) with
    | None =>
        log ERROR [Lit "User not found"] ;;
        ret (inl (jsonify (JObj [("error", JStr "User not found")]) 404))
    | Some user =>
        product_ids <- of_result (getitem order_data "product_ids") ;;
        ids <- of_result (py_iter product_ids) ;;
        acc <- for_fold ids (0%Q, []) process_product ;;
        order <- create_order_record user_id user (fst acc) (snd acc) ;;
        ret (inr {| placed_order := order; placed_user := user;
                    placed_total := fst acc; placed_items := snd acc |})
    end.

Definition create_order_settle (p : placed) : M store response :=
  process_payment (placed_order p) (placed_total p) ;;
  update_inventory (placed_items p) ;;
  saved <- deref orders (placed_order p) ;;
  log INFO [Lit "Created order: "; FInt (order_id saved);
            Lit " for user: "; FVal (user_name (placed_user p))] ;;
  ret (jsonify (json_of_order saved) 201).

Inductive buyer :=
| Ordering (order_data : body)   (* the request was received *)
| Waiting (p : placed)           (* the order is appended and not yet paid *)
| Served (r : response).

(** One uninterrupted stretch of a caller of [create_order]. *)
Definition advance_buyer (c : buyer) : M store buyer :=
  match c with
  | Ordering order_data =>
      try_except
        (r <- create_order_place order_data ;;
         match r with
         | inl early => ret (Served early)
         | inr p => ret (Waiting p)
         end)
        (fun e => r <- create_order_except e ;; ret (Served r))
  | Waiting p =>
      try_except
        (r <- create_order_settle p ;; ret (Served r))
        (fun e => r <- create_order_except e ;; ret (Served r))
  | Served r => ret (Served r)
  end.

(** ** The requests that the views above answer, one after the other *)
Inductive call :=
| PostUser (user_data : body)      (* POST /api/users *)
| GetUsers                         (* GET /api/users *)
| PostOrder (order_data : body)    (* POST /api/orders *)
| GetHealth.                       (* GET /health *)

Definition answer (c : call) : M store response :=
  match c with
  | PostUser user_data => handle_users "POST" user_data
  | GetUsers => handle_users "GET" None
  | PostOrder order_data => create_order order_data
  | GetHealth => health_check
  end.

Fixpoint answer_all (cs : list call) : M store (list response) :=
  match cs with
  | [] => ret []
  | c :: rest => r <- answer c ;; rs <- answer_all rest ;; ret (r :: rs)
  end.

(** The view bound to [/metrics]. *)
Definition get_metrics : M store response :=
  st <- get ;;
  ret (jsonify
    (JObj [("application_metrics", json_of_metrics (app_metrics st));
           ("system_info",
            JObj [("users_count", JInt (Z.of_nat (length (users st))));
                  ("orders_count", JInt (Z.of_nat (length (orders st))));
                  ("products_count", JInt (Z.of_nat (length (products st))))])]) 200).

End AppWithoutInst.

(* ===================================================================== *)
(** * src/local-deployment/app/app-without-instrumentation.py              *)
(* ===================================================================== *)

(** The file traces by hand.  [span.add_event] is kept as a [SpanEvent] under
    the name of the span.  Calls that only annotate a span or feed a meter
    ([set_attribute], [set_status], [record_exception], [Counter.add],
    [Histogram.record]) do not touch the application and are left out; where
    evaluating their arguments can raise, the evaluation is kept. *)
Module LocalDeployment.

Record metrics := Metrics {
  total_requests : Z;
  total_errors : Z;
  total_users : Z;
  total_orders : Z;
  response_times : list Q
}.

Record store := Store {
  users : list user;
  orders : list order;
  products : list product;
  app_metrics : metrics
}.

Definition initial : store :=
  {| users := []; orders := []; products := seed_products;
     app_metrics := {| total_requests := 0; total_errors := 0; total_users := 0;
                       total_orders := 0; response_times := [] |} |}.

(** [app_metrics['total_requests'] += 1] *)
Definition count_request (st : store) : store :=
  {| users := users st; orders := orders st; products := products st;
     app_metrics := {| total_requests := total_requests (app_metrics st) + 1;
                       total_errors := total_errors (app_metrics st);
                       total_users := total_users (app_metrics st);
                       total_orders := total_orders (app_metrics st);
                       response_times := response_times (app_metrics st) |} |}.

(** [app_metrics['total_errors'] += 1] *)
Definition count_error (st : store) : store :=
  {| users := users st; orders := orders st; products := products st;
     app_metrics := {| total_requests := total_requests (app_metrics st);
                       total_errors := total_errors (app_metrics st) + 1;
                       total_users := total_users (app_metrics st);
                       total_orders := total_orders (app_metrics st);
                       response_times := response_times (app_metrics st) |} |}.

(** [app_metrics['total_users'] = len(users)] *)
Definition count_users (st : store) : store :=
  {| users := users st; orders := orders st; products := products st;
     app_metrics := {| total_requests := total_requests (app_metrics st);
                       total_errors := total_errors (app_metrics st);
                       total_users := Z.of_nat (length (users st));
                       total_orders := total_orders (app_metrics st);
                       response_times := response_times (app_metrics st) |} |}.

(** [app_metrics['total_orders'] = len(orders)] *)
Definition count_orders (st : store) : store :=
  {| users := users st; orders := orders st; products := products st;
     app_metrics := {| total_requests := total_requests (app_metrics st);
                       total_errors := total_errors (app_metrics st);
                       total_users := total_users (app_metrics st);
                       total_orders := Z.of_nat (length (orders st));
                       response_times := response_times (app_metrics st) |} |}.

Definition set_users (f : list user -> list user) (st : store) : store :=
  {| users := f (users st); orders := orders st; products := products st;
     app_metrics := app_metrics st |}.

Definition set_orders (f : list order -> list order) (st : store) : store :=
  {| users := users st; orders := f (orders st); products := products st;
     app_metrics := app_metrics st |}.

Definition set_products (f : list product -> list product) (st : store) : store :=
  {| users := users st; orders := orders st; products := f (products st);
     app_metrics := app_metrics st |}.

Definition json_of_metrics (m : metrics) : json :=
  JObj [("total_requests", JInt (total_requests m));
        ("total_errors", JInt (total_errors m));
        ("total_users", JInt (total_users m));
        ("total_orders", JInt (total_orders m));
        ("response_times", JArr (map JNum (response_times m)))].

Definition simulate_database_operation {St} (operation_type : string)
    (duration_range : Q * Q) : M St Q :=
  let span := [Lit "database_"; Lit operation_type] in
  add_event span [Lit "Starting "; Lit operation_type; Lit " operation"] ;;
  duration <- uniform (fst duration_range) (snd duration_range) ;;
  sleep duration ;;
  add_event span [Lit "Completed "; Lit operation_type; Lit " operation"] ;;
  ret duration.

Definition default_range : Q * Q := (0.05, 0.2)%Q.

Definition simulate_cache_operation {St} (cache_key : string) (hit_rate : Q) : M St bool :=
  r <- random ;;
  let is_hit := negb (Qle_bool hit_rate r) in
  if is_hit
  then (d <- uniform 0.001 0.005 ;; sleep d) ;;
       add_event [Lit "cache_lookup"] [Lit "Cache hit"] ;; ret true
  else (d <- uniform 0.01 0.03 ;; sleep d) ;;
       add_event [Lit "cache_lookup"] [Lit "Cache miss"] ;; ret false.

Definition process_business_logic {St} (operation_name complexity : string) : M St unit :=
  add_event [Lit "validation"] [Lit "Starting validation"] ;;
  (d <- uniform 0.01 0.03 ;; sleep d) ;;
  add_event [Lit "validation"] [Lit "Validation completed"] ;;
  for_each ["initialize"; "process"; "finalize"] (fun step =>
    (if String.eqb step "process" && String.eqb complexity "high"
     then d <- uniform 0.1 0.3 ;; sleep d
     else d <- uniform 0.02 0.05 ;; sleep d) ;;
    add_event [Lit "step_"; Lit step] [Lit "Completed "; Lit step]) ;;
  add_event [Lit "business_logic_"; Lit operation_name] [Lit "Business logic completed"].

(** ** create_user *)

Definition create_user_except (e : exn) : M store response :=
  modify count_error ;;
  log ERROR [Lit "Error creating user: "; Lit (exn_str e)] ;;
  ret (jsonify (JObj [("error", JStr "Internal server error")]) 500).

(** Spans [validate_user_input], [check_duplicate_email] and
    [create_user_object]. *)
Definition create_user_prepare (user_data : body) : M store (response + user) :=
  if falsy user_data || negb (has_key "name" user_data)
     || negb (has_key "email" user_data)
  then
    ret (inl (jsonify (JObj [("error", JStr "Invalid user data")]) 400))
  else
    name <- of_result (getitem user_data "name") ;;
    email <- of_result (getitem user_data "email") ;;
    add_event [Lit "validate_user_input"] [Lit "Input validation successful"] ;;
    simulate_database_operation "select_by_email" (0.02, 0.05)%Q ;;
    st <- get ;;
    match find (email_is email) (users st) with
    | Some existing_user =>
        ret (inl (jsonify (JObj [("error", JStr "Email already exists")]) 409))
    | None =>
        add_event [Lit "check_duplicate_email"] [Lit "Email check passed"] ;;
        created_at <- now ;;
        add_event [Lit "create_user_object"] [Lit "User object created"] ;;
        ret (inr {| user_id := Z.of_nat (length (users st)) + 1;
                    user_name := name;
                    user_email := email;
                    user_created_at := created_at;
                    user_status := "active" |})
    end.

(** Spans [save_user_to_database], [update_user_cache] and
    [send_welcome_notification], and the final [return]. *)
Definition create_user_save (user : user) : M store response :=
  simulate_database_operation "insert_user" (0.08, 0.15)%Q ;;
  modify (set_users (fun l => l ++ [user])) ;;
  modify count_users ;;
  add_event [Lit "save_user_to_database"] [Lit "User saved to database"] ;;
  (d <- uniform 0.01 0.03 ;; sleep d) ;;
  add_event [Lit "update_user_cache"] [Lit "User cache updated"] ;;
  (d <- uniform 0.05 0.1 ;; sleep d) ;;
  add_event [Lit "send_welcome_notification"] [Lit "Welcome notification sent"] ;;
  log INFO [Lit "Created user: "; FVal (user_name user); Lit " (ID: ";
            FInt (user_id user); Lit ")"] ;;
  ret (jsonify (json_of_user user) 201).

Definition create_user (user_data : body) : M store response :=
  try_except
    (r <- create_user_prepare user_data ;;
     match r with
     | inl early => ret early
     | inr user => create_user_save user
     end)
    create_user_except.

Definition get_users : M store response :=
  cache_hit <- simulate_cache_operation "all_users" 0.7 ;;
  (if cache_hit then ret 0%Q
   else simulate_database_operation "select_all_users" (0.04, 0.10)%Q) ;;
  st <- get ;;
  ret (jsonify (JArr (map json_of_user (users st))) 200).

(** The view bound to [/api/users]. *)
Definition handle_users (method : string) (user_data : body) : M store response :=
  modify count_request ;;
  if String.eqb method "POST" then create_user user_data else get_users.

(** ** create_order *)

Definition create_order_except (e : exn) : M store response :=
  modify count_error ;;
  ret (jsonify (JObj [("error", JStr "Internal server error")]) 500).

(** One turn of the loop over [order_data['product_ids']] (span
    [process_product_{product_id}]). *)
Definition process_product (acc : Q * list item) (product_id : value)
    : M store (Q * list item) :=
  st <- get ;;
  match find (product_is product_id) (products st) with
  | None => ret acc
  | Some product =>
      simulate_database_operation "select_inventory" default_range ;;
      if (product_stock product <=? 0)%Z
      then ret acc
      else
        process_business_logic "pricing_calculation" "medium" ;;
        let item_total := product_price product in
        ret ((fst acc + item_total)%Q,
             snd acc ++ [{| item_product_id := product_id;
                            item_name := product_name product;
                            item_price := product_price product |}])
  end.

(** Span [create_order_record]. *)
Definition create_order_record (user_id : value) (user : user)
    (total_amount : Q) (order_items : list item) : M store nat :=
  st <- get ;;
  created_at <- now ;;
  let order := {| order_id := Z.of_nat (length (orders st)) + 1;
                  order_user_id := user_id;
                  order_user_name := user_name user;
                  order_items := order_items;
                  order_total_amount := total_amount;
                  order_status := "pending";
                  order_created_at := created_at |} in
  simulate_database_operation "insert_order" (0.1, 0.2)%Q ;;
  st' <- get ;;
  modify (set_orders (fun l => l ++ [order])) ;;
  modify count_orders ;;
  add_event [Lit "create_order_record"] [Lit "Order record created"] ;;
  ret (length (orders st')).

(** Span [process_payment]. *)
Definition process_payment (order : nat) (total_amount : Q) : M store unit :=
  (d <- uniform 0.2 0.5 ;; sleep d) ;;
  r <- random ;;
  let payment_success := negb (Qle_bool r 0.1) in
  if payment_success
  then
    modify (set_orders (alter (set_status "paid") order)) ;;
    add_event [Lit "process_payment"] [Lit "Payment processed successfully"]
  else
    modify (set_orders (alter (set_status "payment_failed") order)).

(** Span [update_inventory]. *)
Definition update_inventory (order_items : list item) : M store unit :=
  for_each order_items (fun item =>
    st <- get ;;
    match next_index (product_is (item_product_id item)) (products st) with
    | None => raise StopIteration
    | Some product => modify (set_products (alter take_one product))
    end) ;;
  simulate_database_operation "update_inventory" default_range ;;
  add_event [Lit "update_inventory"] [Lit "Inventory updated"].

(** The view bound to [/api/orders]. *)
Definition create_order (order_data : body) : M store response :=
  try_except
    (start_time <- now ;;
     of_result (dict_get order_data "user_id") ;;
     of_result (dict_get order_data "product_ids") ;;
     if falsy order_data || negb (has_key "user_id" order_data)
        || negb (has_key "product_ids" order_data)
     then
       ret (jsonify (JObj [("error", JStr "Invalid order data")]) 400)
     else
       add_event [Lit "validate_order"] [Lit "Order validation passed"] ;;
       simulate_database_operation "select_user_by_id" default_range ;;
       user_id <- of_result (getitem order_data "user_id") ;;
       st <- get ;;
       match find (user_is user_id) (users st) with
       | None =>
           ret (jsonify (JObj [("error", JStr "User not found")]) 404)
       | Some user =>
           product_ids <- of_result (getitem order_data "product_ids") ;;
           ids <- of_result (py_iter product_ids) ;;
           acc <- for_fold ids (0%Q, []) process_product ;;
           let total_amount := fst acc in
           let order_items := snd acc in
           order <- create_order_record user_id user total_amount order_items ;;
           process_payment order total_amount ;;
           update_inventory order_items ;;
           response_time <- now ;;
           saved <- deref orders order ;;
           log INFO [Lit "Created order: "; FInt (order_id saved);
                     Lit " for user: "; FVal (user_name user)] ;;
           ret (jsonify (json_of_order saved) 201)
       end)
    create_order_except.

(** The view bound to [/health]. *)
Definition health_check : M store response :=
  simulate_database_operation "health_check" (0.01, 0.03)%Q ;;
  add_event [Lit "check_database"] [Lit "Database health check passed"] ;;
  (d <- uniform 0.005 0.015 ;; sleep d) ;;
  add_event [Lit "check_cache"] [Lit "Cache health check passed"] ;;
  timestamp <- now ;;
  st <- get ;;
  ret (jsonify (JObj [("status", JStr "healthy");
                      ("timestamp", JTime timestamp);
                      ("version", JStr "1.0.0");
                      ("metrics", json_of_metrics (app_metrics st))]) 200).

(** ** Parallel callers of create_user (see [AppWithoutInst.caller]) *)
Inductive caller :=
| Arrived (user_data : body)
| Built (user : user)
| Answered (r : response).

Definition advance (c : caller) : M store caller :=
  match c with
  | Arrived user_data =>
      try_except
        (r <- create_user_prepare user_data ;;
         match r with
         | inl early => ret (Answered early)
         | inr user => ret (Built user)
         end)
        (fun e => r <- create_user_except e ;; ret (Answered r))
  | Built user =>
      try_except
        (r <- create_user_save user ;; ret (Answered r))
        (fun e => r <- create_user_except e ;; ret (Answered r))
  | Answered r => ret (Answered r)
  end.

(** ** Overlapping callers of create_order (see
    [AppWithoutInst.create_order_place]) *)
Definition create_order_place (order_data : body) : M store (response + placed) :=
  start_time <- now ;;
  of_result (dict_get order_data "user_id") ;;
  of_result (dict_get order_data "product_ids") ;;
  if falsy order_data || negb (has_key "user_id" order_data)
     || negb (has_key "product_ids" order_data)
  then
    ret (inl (jsonify (JObj [("error", JStr "Invalid order data")]) 400))
  else
    add_event [Lit "validate_order"] [Lit "Order validation passed"] ;;
    simulate_database_operation "select_user_by_id" default_range ;;
    user_id <- of_result (getitem order_data "user_id") ;;
    st <- get ;;
    match find (user_is user_id) (users st) with
    | None =>
        ret (inl (jsonify (JObj [("error", JStr "User not found")]) 404))
    | Some user =>
        product_ids <- of_result (getitem order_data "product_ids") ;;
        ids <- of_result (py_iter product_ids) ;;
        acc <- for_fold ids (0%Q, []) process_product ;;
        order <- create_order_record user_id user (fst acc) (snd acc) ;;
        ret (inr {| placed_order := order; placed_user := user;
                    placed_total := fst acc; placed_items := snd acc |})
    end.

Definition create_order_settle (p : placed) : M store response :=
  process_payment (placed_order p) (placed_total p) ;;
  update_inventory (placed_items p) ;;
  response_time <- now ;;
  saved <- deref orders (placed_order p) ;;
  log INFO [Lit "Created order: "; FInt (order_id saved);
            Lit " for user: "; FVal (user_name (placed_user p))] ;;
  ret (jsonify (json_of_order saved) 201).

Inductive buyer :=
| Ordering (order_data : body)
| Waiting (p : placed)
| Served (r : response).

Definition advance_buyer (c : buyer) : M store buyer :=
  match c with
  | Ordering order_data =>
      try_except
        (r <- create_order_place order_data ;;
         match r with
         | inl early => ret (Served early)
         | inr p => ret (Waiting p)
         end)
        (fun e => r <- create_order_except e ;; ret (Served r))
  | Waiting p =>
      try_except
        (r <- create_order_settle p ;; ret (Served r))
        (fun e => r <- create_order_except e ;; ret (Served r))
  | Served r => ret (Served r)
  end.

(** ** The requests that the views above answer, one after the other *)
Inductive call :=
| PostUser (user_data : body)      (* POST /api/users *)
| GetUsers                         (* GET /api/users *)
| PostOrder (order_data : body)    (* POST /api/orders *)
| GetHealth.                       (* GET /health *)

Definition answer (c : call) : M store response :=
  match c with
  | PostUser user_data => handle_users "POST" user_data
  | GetUsers => handle_users "GET" None
  | PostOrder order_data => create_order order_data
  | GetHealth => health_check
  end.

Fixpoint answer_all (cs : list call) : M store (list response) :=
  match cs with
  | [] => ret []
  | c :: rest => r <- answer c ;; rs <- answer_all rest ;; ret (r :: rs)
  end.

(** The view bound to [/metrics]. *)
Definition get_metrics : M store response :=
  st <- get ;;
  ret (jsonify
    (JObj [("application_metrics", json_of_metrics (app_metrics st));
           ("system_info",
            JObj [("users_count", JInt (Z.of_nat (length (users st))));
                  ("orders_count", JInt (Z.of_nat (length (orders st))));
                  ("products_count", JInt (Z.of_nat (length (products st))))])]) 200).

End LocalDeployment.

(* ===================================================================== *)
(** * src/app-demo/app.py                                                 *)
(* ===================================================================== *)

Module AppDemo.

(** A row of the table [users] of app.db. *)
Record row := Row {
  row_id : Z;
  row_name : value;
  row_email : value;
  row_created_at : Q
}.

(** The part of app.db that the views below touch. *)
Record store := Store { users : list row }.

(** The column [id] is [INTEGER PRIMARY KEY AUTOINCREMENT] and no row is ever
    deleted: the next id is one more than the largest one. *)
Definition next_id (rows : list row) : Z :=
  (fold_right Z.max 0 (map row_id rows) + 1)%Z.

(** sqlite3 binds [None], integers and strings; a list is refused. *)
Definition bind_parameter (v : value) : result value :=
  match v with
  | VList _ => Raise (InterfaceError "Error binding parameter - probably unsupported type.")
  | _ => Ok v
  end.

(** [INSERT INTO users (name, email) VALUES (?, ?)] *)
Definition insert_user (name email : value) : M store unit :=
  name <- of_result (bind_parameter name) ;;
  email <- of_result (bind_parameter email) ;;
  created_at <- now ;;
  modify (fun st =>
    {| users := users st ++ [{| row_id := next_id (users st); row_name := name;
                                row_email := email; row_created_at := created_at |}] |}).

(** [d.get(k)] with [None] for a missing key. *)
Definition get_or_none (data : body) (k : string) : result value :=
  match dict_get data k with
  | Ok (Some v) => Ok v
  | Ok None => Ok VNone
  | Raise e => Raise e
  end.

Definition create_user (data : body) : M store response :=
  name <- of_result (get_or_none data "name") ;;
  email <- of_result (get_or_none data "email") ;;
  if negb (truthy name) || negb (truthy email)
  then
    log WARNING [Lit "Invalid user data provided"] ;;
    ret (jsonify (JObj [("error", JStr "Name and email required")]) 400)
  else
    log INFO [Lit "Creating user: "; FVal name; Lit " - "; FVal email] ;;
    insert_user name email ;;
    (d <- uniform 0.1 0.5 ;; sleep d) ;;
    ret (jsonify (JObj [("message", JStr "User created successfully")]) 200).

Definition health : M store response :=
  timestamp <- now ;;
  ret (jsonify (JObj [("status", JStr "healthy"); ("timestamp", JTime timestamp)]) 200).

End AppDemo.

(* ===================================================================== *)
(** * src/local-deployment/app/app-with-instrumentation.py                *)
(* ===================================================================== *)

Module AppWithInstrumentation.

(** The view bound to [/health]; the events go to the span [health_check]. *)
Definition health {St} : M St response :=
  (d <- uniform 0.005 0.015 ;; sleep d) ;;
  add_event [Lit "health_check"] [Lit "Database ping successful"] ;;
  (d <- uniform 0.005 0.015 ;; sleep d) ;;
  add_event [Lit "health_check"] [Lit "Cache ping successful"] ;;
  timestamp <- now ;;
  ret (jsonify (JObj [("status", JStr "healthy");
                      ("timestamp", JTime timestamp);
                      ("version", JStr "1.0.0")]) 200).

(** The dicts of the module-level list [users]. *)
Record row := Row {
  row_id : Z;
  row_name : value;
  row_email : value;
  row_created_at : Q
}.

Record metrics := Metrics {
  requests_count : Z;
  errors_count : Z;
  response_times : list Q
}.

Record store := Store {
  users : list row;
  metrics_data : metrics
}.

Definition initial : store :=
  {| users := [];
     metrics_data := {| requests_count := 0; errors_count := 0; response_times := [] |} |}.

(** [metrics_data['requests_count'] += 1] *)
Definition count_request (st : store) : store :=
  {| users := users st;
     metrics_data := {| requests_count := requests_count (metrics_data st) + 1;
                        errors_count := errors_count (metrics_data st);
                        response_times := response_times (metrics_data st) |} |}.

(** [metrics_data['errors_count'] += 1] *)
Definition count_error (st : store) : store :=
  {| users := users st;
     metrics_data := {| requests_count := requests_count (metrics_data st);
                        errors_count := errors_count (metrics_data st) + 1;
                        response_times := response_times (metrics_data st) |} |}.

Definition set_users (f : list row -> list row) (st : store) : store :=
  {| users := f (users st); metrics_data := metrics_data st |}.

Definition json_of_row (u : row) : json :=
  JObj [("id", JInt (row_id u)); ("name", json_of_value (row_name u));
        ("email", json_of_value (row_email u));
        ("created_at", JTime (row_created_at u))].

(** [create_user]: the whole body is one [try]; events added through [span]
    go to the span [create_user_operation], those added through [db_span] to
    [database_write_user].  [user_data.get('name', 'unknown')] is evaluated for
    a span attribute and fails on a body that is not a dict. *)
Definition create_user (user_data : body) : M store response :=
  try_except
    ((d <- uniform 0.01 0.03 ;; sleep d) ;;
     add_event [Lit "create_user_operation"] [Lit "User data validation completed"] ;;
     of_result (dict_get user_data "name") ;;
     add_event [Lit "database_write_user"] [Lit "Starting database write"] ;;
     (d <- uniform 0.05 0.12 ;; sleep d) ;;
     st <- get ;;
     name <- of_result (getitem user_data "name") ;;
     email <- of_result (getitem user_data "email") ;;
     created_at <- now ;;
     let user := {| row_id := Z.of_nat (length (users st)) + 1;
                    row_name := name;
                    row_email := email;
                    row_created_at := created_at |} in
     modify (set_users (fun l => l ++ [user])) ;;
     add_event [Lit "database_write_user"] [Lit "Database write completed"] ;;
     (d <- uniform 0.01 0.02 ;; sleep d) ;;
     add_event [Lit "create_user_operation"] [Lit "Cache updated after user creation"] ;;
     log INFO [Lit "Created user: "; FVal (row_name user); Lit " with ID: ";
               FInt (row_id user)] ;;
     ret (jsonify (json_of_row user) 201))
    (fun e =>
       log ERROR [Lit "Error creating user: "; Lit (exn_str e)] ;;
       modify count_error ;;
       ret (jsonify (JObj [("error", JStr "Failed to create user")]) 400)).

Definition get_all_users : M store response :=
  add_event [Lit "get_all_users_operation"] [Lit "Executing SELECT query"] ;;
  (d <- uniform 0.03 0.08 ;; sleep d) ;;
  add_event [Lit "get_all_users_operation"] [Lit "Query execution completed"] ;;
  log INFO [Lit "Users list retrieved from database"] ;;
  st <- get ;;
  ret (jsonify (JArr (map json_of_row (users st))) 200).

(** The view bound to [/api/users]. *)
Definition handle_users (method : string) (user_data : body) : M store response :=
  log INFO [Lit "API users endpoint accessed via "; Lit method] ;;
  modify count_request ;;
  if String.eqb method "POST" then create_user user_data else get_all_users.

End AppWithInstrumentation.

(* ===================================================================== *)
(** * src/gke-app.py                                                      *)
(* ===================================================================== *)

Module GkeApp.

(** The global [start_time] set by [main]. *)
Record store := Store { start_time : Q }.

Definition send_json_response (data : json) (code : Z) : response :=
  {| resp_body := data; status := code;
     headers := [("Content-type", [Lit "application/json"]);
                 ("Access-Control-Allow-Origin", [Lit "*"])] |}.

Definition send_health : M store response :=
  timestamp <- now ;;
  uptime_now <- now ;;
  st <- get ;;
  ret (send_json_response
         (JObj [("status", JStr "healthy");
                ("timestamp", JTime timestamp);
                ("uptime", JNum (uptime_now - start_time st))]) 200).

Definition send_404 (path : string) : M store response :=
  timestamp <- now ;;
  ret {| resp_body := JObj [("message", JStr "Not Found"); ("path", JStr path);
                            ("timestamp", JTime timestamp)];
         status := 404;
         headers := [("Content-type", [Lit "application/json"])] |}.

(** [do_GET] for the paths whose handlers are embedded here; [None] for the
    paths /, /work, /external and /error. *)
Definition do_GET (path : string) : option (M store response) :=
  let received := log INFO [Lit "Received GET request: "; Lit path] in
  if String.eqb path "/" then None
  else if String.eqb path "/health" then Some (received ;; send_health)
  else if String.eqb path "/work" then None
  else if String.eqb path "/external" then None
  else if String.eqb path "/error" then None
  else Some (received ;; send_404 path).

End GkeApp.

(* ===================================================================== *)
(** * src/app.py                                                          *)
(* ===================================================================== *)

Module App.

(** A started [threading.Thread(target=background_task)]: the closure keeps
    [task_id] and [task_duration]. *)
Record task := Task { task_id : text; task_duration : Z }.

Record store := Store {
  tables : list string;            (* the tables of test.db *)
  environ : gmap string string;    (* os.environ *)
  cpu_percent : Q;                 (* what psutil.cpu_percent() reports *)
  threads : list task              (* the threads started so far *)
}.

(** [CREATE TABLE IF NOT EXISTS] *)
Definition create_table (name : string) (st : store) : store :=
  {| tables := if bool_decide (name ∈ tables st) then tables st else tables st ++ [name];
     environ := environ st; cpu_percent := cpu_percent st; threads := threads st |}.

Definition init_db (st : store) : store := create_table "orders" (create_table "users" st).

(** The application right after start-up on a fresh test.db. *)
Definition initial : store :=
  init_db {| tables := []; environ := ∅; cpu_percent := 0; threads := [] |}.

(** [conn.execute('SELECT * FROM ' + table)] *)
Definition select_all (table : string) : M store unit :=
  st <- get ;;
  if bool_decide (table ∈ tables st) then ret tt
  else raise (OperationalError ("no such table: " ++ table)).

(** [thread.start()] *)
Definition start_thread (t : task) (st : store) : store :=
  {| tables := tables st; environ := environ st; cpu_percent := cpu_percent st;
     threads := threads st ++ [t] |}.

Record request := Request {
  method : string;
  path : string;
  args : gmap string string;     (* request.args *)
  remote_addr : string
}.

(** [int(request.args.get(k, d))] *)
Definition int_arg (req : request) (k : string) (d : Z) : result Z :=
  match args req !! k with
  | Some s => py_int s
  | None => Ok d
  end.

(** ** Views.  A view that falls off its end returns [None]. *)

Definition health_check (req : request) : M store (option response) :=
  timestamp <- now ;;
  st <- get ;;
  ret (Some (jsonify
    (JObj [("status", JStr "healthy");
           ("timestamp", JTime timestamp);
           ("dynatrace_agent_path", JStr (default "Not set" (environ st !! "DT_AGENTPATH")));
           ("service", JStr "dynatrace-test-app")]) 200)).

Definition cpu_intensive (req : request) : M store (option response) :=
  start_time <- now ;;
  iterations <- of_result (int_arg req "iterations" 100000) ;;
  log INFO [Lit "Starting CPU intensive task with "; FInt iterations; Lit " iterations"] ;;
  result <- for_fold (range iterations) 0%Z (fun result i =>
    let result := (result + i ^ 2)%Z in
    (if (i mod 10000 =? 0)%Z then sleep 0.001 else ret tt) ;;
    ret result) ;;
  end_time <- now ;;
  let duration := (end_time - start_time)%Q in
  log INFO [Lit "CPU intensive task completed in "; FFixed 2 duration; Lit " seconds"] ;;
  st <- get ;;
  ret (Some (jsonify
    (JObj [("result", JInt result);
           ("iterations", JInt iterations);
           ("duration_seconds", JRound 3 duration);
           ("cpu_percent", JNum (cpu_percent st));
           ("message", JText [Lit "Completed "; FInt iterations; Lit " iterations in ";
                              FFixed 3 duration; Lit "s"])]) 200)).

Definition error_test (req : request) : M store (option response) :=
  let error_type := default "http_error" (args req !! "type") in
  log WARNING [Lit "Generating test error of type: "; Lit error_type] ;;
  if String.eqb error_type "http_error" then
    ret (Some (jsonify
      (JObj [("error", JStr "This is a test HTTP error");
             ("error_type", JStr "http_error");
             ("message", JStr "Intentional 500 error for testing")]) 500))
  else if String.eqb error_type "exception" then
    raise (ValueError "This is a test exception for Dynatrace monitoring")
  else if String.eqb error_type "db_error" then
    try_except
      (select_all "non_existent_table" ;; ret None)
      (fun e => ret (Some (jsonify
         (JObj [("error", JStr (exn_str e));
                ("error_type", JStr "database_error");
                ("message", JStr "Intentional database error for testing")]) 500)))
  else
    ret (Some (jsonify
      (JObj [("error", JStr "Unknown error type");
             ("valid_types", JArr [JStr "http_error"; JStr "exception"; JStr "db_error"]);
             ("message", JStr "Please specify a valid error type")]) 400)).


Definition async_task (req : request) : M store (option response) :=
  task_duration <- of_result (int_arg req "duration" 3) ;;
  n <- randint 1000 9999 ;;
  let task_id := [Lit "task_"; FInt n] in
  modify (start_thread {| task_id := task_id; task_duration := task_duration |}) ;;
  started_at <- now ;;
  ret (Some (jsonify
    (JObj [("message", JStr "Async task started");
           ("task_id", JText task_id);
           ("duration", JInt task_duration);
           ("status", JStr "running");
           ("started_at", JTime started_at)]) 200)).

(** ** Error handlers *)

Definition available_endpoints : list string :=
  ["/"; "/health"; "/ready"; "/cpu-intensive"; "/memory-test"; "/database-ops";
   "/external-api"; "/error-test"; "/custom-metrics"; "/async-task"; "/load-test";
   "/system-metrics"].

(** [@app.errorhandler(404)] *)
Definition not_found (req : request) : M store response :=
  log ERROR [Lit "404 error: "; Lit (path req)] ;;
  ret (jsonify
    (JObj [("error", JStr "Not found");
           ("path", JStr (path req));
           ("message", JStr "The requested endpoint does not exist");
           ("available_endpoints", JArr (map JStr available_endpoints))]) 404).

(** [@app.errorhandler(Exception)]; it answers every exception but [NotFound],
    so that the handler registered for the code 500 is never reached. *)
Definition handle_exception (e : exn) : M store response :=
  log ERROR [Lit "Unhandled exception: "; Lit (exn_str e)] ;;
  timestamp <- now ;;
  ret (jsonify
    (JObj [("error", JStr "Application error");
           ("type", JStr (exn_name e));
           ("message", JStr (exn_str e));
           ("timestamp", JTime timestamp)]) 500).

(** ** Routing *)

Inductive endpoint :=
| Index | SystemMetrics | HealthCheck | ReadinessCheck | CpuIntensive | MemoryTest
| DatabaseOperations | ExternalApiCall | ErrorTest | CustomMetrics | AsyncTask | LoadTest.

(** The rules declared with [@app.route], in the order of the file. *)
Definition url_map : list (string * string * endpoint) :=
  [ ("/", "GET", Index);
    ("/system-metrics", "GET", SystemMetrics);
    ("/health", "GET", HealthCheck);
    ("/ready", "GET", ReadinessCheck);
    ("/cpu-intensive", "GET", CpuIntensive);
    ("/memory-test", "GET", MemoryTest);
    ("/database-ops", "GET", DatabaseOperations);
    ("/external-api", "GET", ExternalApiCall);
    ("/error-test", "GET", ErrorTest);
    ("/custom-metrics", "GET", CustomMetrics);
    ("/async-task", "POST", AsyncTask);
    ("/load-test", "GET", LoadTest) ].

(** The rule that matches a request: an unknown path is [NotFound], a known
    path with another method is [MethodNotAllowed]. *)
Definition url_match (req : request) : result endpoint :=
  match find (fun r => String.eqb (fst (fst r)) (path req)) url_map with
  | None => Raise NotFound
  | Some (_, m, e) => if String.eqb m (method req) then Ok e else Raise MethodNotAllowed
  end.

(** The views embedded above; the other views of the file call psutil,
    requests and SQL queries and are not embedded. *)
Definition view_function (e : endpoint) : option (request -> M store (option response)) :=
  match e with
  | HealthCheck => Some health_check
  | CpuIntensive => Some cpu_intensive
  | ErrorTest => Some error_test
  | AsyncTask => Some async_task
  | _ => None
  end.

(** What Flask does around a view: the [before_request] hook, the view, the
    registered error handlers, the [after_request] hook. *)
Definition full_dispatch_request (req : request) (view : M store (option response))
    : M store response :=
  start_time <- now ;;
  log INFO [Lit "Request: "; Lit (method req); Lit " "; Lit (path req);
            Lit " from "; Lit (remote_addr req)] ;;
  rv <- try_except
          (r <- view ;;
           match r with
           | Some resp => ret resp
           | None => raise (TypeError "The view function did not return a valid response.")
           end)
          (fun e => match e with
                    | NotFound => not_found req
                    | _ => handle_exception e
                    end) ;;
  finished <- now ;;
  let duration := (finished - start_time)%Q in
  log INFO [Lit "Response: "; FInt (status rv); Lit " ("; FFixed 3 duration; Lit "s) - ";
            Lit (method req); Lit " "; Lit (path req)] ;;
  ret {| resp_body := resp_body rv; status := status rv;
         headers := headers rv ++ [("X-Response-Time", [FFixed 3 duration; Lit "s"])] |}.

(** A request served by one of the embedded views; [None] when the rule leads
    to a view that is not embedded. *)
Definition handle (req : request) : option (M store response) :=
  match url_match req with
  | Ok e =>
      match view_function e with
      | Some view => Some (full_dispatch_request req (view req))
      | None => None
      end
  | Raise e => Some (full_dispatch_request req (raise e))
  end.

(** ** /custom-metrics *)

(** [round(x, digits)]: the multiple of [10 ^ -digits] nearest to [x], the even
    one of the two when [x] is half-way. *)
Definition py_round (digits : nat) (x : Q) : Q :=
  let scale := inject_Z (10 ^ Z.of_nat digits) in
  let scaled := (x * scale)%Q in
  let below := Qfloor scaled in
  let rest := (scaled - inject_Z below)%Q in
  let nearest :=
    if Qle_bool rest (1 # 2)
    then if Qle_bool (1 # 2) rest
         then (if Z.even below then below else below + 1)%Z
         else below
    else (below + 1)%Z in
  (inject_Z nearest / scale)%Q.

(** The dict [metrics], in the order of its display: name and value. *)
Inductive metric :=
| Counted (n : Z)      (* random.randint(a, b) *)
| Measured (x : Q).    (* round(random.uniform(a, b), digits) *)

Definition json_of_metric (m : metric) : json :=
  match m with Counted n => JInt n | Measured x => JNum x end.

(** [f"{metrics}"]: the entries between braces, separated by commas. *)
Fixpoint repr_entries (metrics : list (string * metric)) : text :=
  match metrics with
  | [] => []
  | km :: rest =>
      [Lit "'"; Lit (fst km); Lit "': ";
       match snd km with Counted n => FInt n | Measured x => FFloat x end] ++
      match rest with
      | [] => []
      | _ => Lit ", " :: repr_entries rest
      end
  end.

Definition repr_metrics (metrics : list (string * metric)) : text :=
  [Lit "{"] ++ repr_entries metrics ++ [Lit "}"].

Definition custom_metrics (req : request) : M store (option response) :=
  let metric_type := default "business" (args req !! "type") in
  metrics <-
    (if String.eqb metric_type "business" then
       active_users <- randint 100 1000 ;;
       revenue <- uniform 1000 10000 ;;
       conversion_rate <- uniform 0.1 0.3 ;;
       avg_order_value <- uniform 50 200 ;;
       customer_satisfaction <- uniform 4.0 5.0 ;;
       let metrics :=
         [("active_users", Counted active_users);
          ("revenue", Measured (py_round 2 revenue));
          ("conversion_rate", Measured (py_round 3 conversion_rate));
          ("avg_order_value", Measured (py_round 2 avg_order_value));
          ("customer_satisfaction", Measured (py_round 1 customer_satisfaction))] in
       log INFO ([Lit "Generated business metrics: "] ++ repr_metrics metrics) ;;
       ret metrics
     else
       cache_hit_rate <- uniform 0.8 0.99 ;;
       queue_depth <- randint 0 100 ;;
       processing_time_ms <- randint 10 500 ;;
       throughput_rps <- randint 100 1000 ;;
       error_rate <- uniform 0.001 0.05 ;;
       let metrics :=
         [("cache_hit_rate", Measured (py_round 3 cache_hit_rate));
          ("queue_depth", Counted queue_depth);
          ("processing_time_ms", Counted processing_time_ms);
          ("throughput_rps", Counted throughput_rps);
          ("error_rate", Measured (py_round 3 error_rate))] in
       log INFO ([Lit "Generated technical metrics: "] ++ repr_metrics metrics) ;;
       ret metrics) ;;
  timestamp <- now ;;
  ret (Some (jsonify
    (JObj [("timestamp", JTime timestamp);
           ("metric_type", JStr metric_type);
           ("metrics", JObj (map (fun km => (fst km, json_of_metric (snd km))) metrics));
           ("message", JText [Lit "Generated "; FInt (Z.of_nat (length metrics)); Lit " ";
                              Lit metric_type; Lit " metrics"])]) 200)).

End App.

(* ===================================================================== *)
(** * src/app.py: the rows of test.db                                     *)
(* ===================================================================== *)

(** [App.store] keeps of test.db the names of its tables, which is all that
    the views embedded above read.  [init_db] and [database_operations] read
    and write rows; they are embedded here on the content of the two tables.
    The SQL statements are rendered by what SQLite does for them on these
    tables. *)
Module AppDb.

Record user_row := UserRow {
  user_row_id : Z;
  user_row_name : string;
  user_row_email : string;
  user_row_created_at : Q
}.

Record order_row := OrderRow {
  order_row_id : Z;
  order_row_user_id : Z;
  order_row_product : string;
  order_row_amount : Q;
  order_row_created_at : Q
}.

Record database := Database {
  db_users : list user_row;
  db_orders : list order_row
}.

(** The id that [INTEGER PRIMARY KEY AUTOINCREMENT] gives to a new row of a
    table from which no row is ever deleted: one more than the largest id. *)
Definition next_rowid (ids : list Z) : Z := (fold_right Z.max 0 ids + 1)%Z.

(** [INSERT INTO users (name, email) VALUES (?, ?)]; [created_at] defaults to
    [CURRENT_TIMESTAMP]. *)
Definition insert_user (name email : string) : M database unit :=
  created_at <- now ;;
  modify (fun db =>
    {| db_users := db_users db ++
         [{| user_row_id := next_rowid (map user_row_id (db_users db));
             user_row_name := name; user_row_email := email;
             user_row_created_at := created_at |}];
       db_orders := db_orders db |}).

(** [INSERT INTO orders (user_id, product, amount) VALUES (?, ?, ?)] *)
Definition insert_order (user_id : Z) (product : string) (amount : Q) : M database unit :=
  created_at <- now ;;
  modify (fun db =>
    {| db_users := db_users db;
       db_orders := db_orders db ++
         [{| order_row_id := next_rowid (map order_row_id (db_orders db));
             order_row_user_id := user_id; order_row_product := product;
             order_row_amount := amount; order_row_created_at := created_at |}] |}).

Definition sample_users : list (string * string) :=
  [("John Doe", "john@example.com");
   ("Jane Smith", "jane@example.com");
   ("Bob Johnson", "bob@example.com")].

Definition sample_orders : list (Z * string * Q) :=
  [(1%Z, "Laptop", 999.99%Q); (2%Z, "Mouse", 29.99%Q); (3%Z, "Keyboard", 79.99%Q)].

(** [init_db], on a file in which the two tables exist or are created empty by
    the [CREATE TABLE IF NOT EXISTS] statements: the sample rows are inserted,
    with [executemany], when [SELECT COUNT( * ) FROM users] is 0. *)
Definition init_db : M database unit :=
  db <- get ;;
  if (Z.of_nat (length (db_users db)) =? 0)%Z
  then
    for_each sample_users (fun r => insert_user (fst r) (snd r)) ;;
    for_each sample_orders (fun r => insert_order (fst (fst r)) (snd (fst r)) (snd r))
  else ret tt.

(** The orders that [LEFT JOIN orders o ON u.id = o.user_id] joins to [u]. *)
Definition orders_of (db : database) (u : user_row) : list order_row :=
  List.filter (fun o => (order_row_user_id o =? user_row_id u)%Z) (db_orders db).

(** [SUM(o.amount)]: [NULL] over no row. *)
Definition sum_amounts (os : list order_row) : option Q :=
  match os with
  | [] => None
  | _ => Some (fold_left (fun t o => (t + order_row_amount o)%Q) os 0%Q)
  end.

(** The rows of
    [SELECT u.name, u.email, COUNT(o.id) as order_count, SUM(o.amount) as total_spent
     FROM users u LEFT JOIN orders o ON u.id = o.user_id
     GROUP BY u.id, u.name, u.email]:
    [u.id] is the primary key, so there is one group for each user; the
    groups come in the order of the ids, which is the order of the table. *)
Definition select_spending (db : database) : list (string * string * Z * option Q) :=
  map (fun u => (user_row_name u, user_row_email u,
                 Z.of_nat (length (orders_of db u)), sum_amounts (orders_of db u)))
      (db_users db).

(** [{'name': r[0], 'email': r[1], 'orders': r[2], 'total': r[3]}] *)
Definition json_of_spending (r : string * string * Z * option Q) : json :=
  JObj [("name", JStr (fst (fst (fst r)))); ("email", JStr (snd (fst (fst r))));
        ("orders", JInt (snd (fst r)));
        ("total", match snd r with Some t => JNum t | None => JNull end)].

(** [UPDATE users SET name = ? WHERE id = ?] *)
Definition update_name (new_name : string) (user_id : Z) (db : database) : database :=
  {| db_users :=
       map (fun u => if (user_row_id u =? user_id)%Z
                     then {| user_row_id := user_row_id u; user_row_name := new_name;
                             user_row_email := user_row_email u;
                             user_row_created_at := user_row_created_at u |}
                     else u) (db_users db);
     db_orders := db_orders db |}.

(** [conn.total_changes] after that statement on a fresh connection: the
    number of rows that it matched. *)
Definition total_changes (user_id : Z) (db : database) : Z :=
  Z.of_nat (length (List.filter (fun u => (user_row_id u =? user_id)%Z) (db_users db))).

(** The view bound to [/database-ops]. *)
Definition database_operations (req : App.request) : M database response :=
  let operation := default "select" (App.args req !! "operation") in
  log INFO [Lit "Performing database operation: "; Lit operation] ;;
  start_time <- now ;;
  try_except
    (results <-
       (if String.eqb operation "select" then
          db <- get ;;
          ret (map json_of_spending (select_spending db))
        else if String.eqb operation "insert" then
          n <- randint 1000 9999 ;;
          let name := ("User_" ++ pretty n)%string in
          n' <- randint 1000 9999 ;;
          let email := ("user" ++ pretty n' ++ "@example.com")%string in
          insert_user name email ;;
          ret [JObj [("inserted_user", JStr name); ("email", JStr email)]]
        else if String.eqb operation "update" then
          user_id <- randint 1 3 ;;
          n <- randint 1000 9999 ;;
          let new_name := ("Updated_" ++ pretty n)%string in
          modify (update_name new_name user_id) ;;
          db <- get ;;
          ret [JObj [("updated_user_id", JInt user_id); ("new_name", JStr new_name);
                     ("changes", JInt (total_changes user_id db))]]
        else
          ret [JObj [("error", JStr "Invalid operation. Use: select, insert, or update")]]) ;;
     finished <- now ;;
     let duration := (finished - start_time)%Q in
     log INFO [Lit "Database operation completed in "; FFixed 3 duration; Lit " seconds"] ;;
     ret (jsonify
       (JObj [("operation", JStr operation);
              ("duration_seconds", JRound 3 duration);
              ("results", JArr results);
              ("message", JText [Lit "Database "; Lit operation;
                                 Lit " completed successfully"])]) 200))
    (fun e =>
       log ERROR [Lit "Database operation failed: "; Lit (exn_str e)] ;;
       ret (jsonify (JObj [("error", JStr (exn_str e)); ("operation", JStr operation)]) 500)).

End AppDb.

(* ===================================================================== *)
(** * Vocabulary of the properties                                        *)
(* ===================================================================== *)

(** Two programs that do the same in every store and environment. *)
Definition same {St A} (m m' : M St A) : Prop := forall st en, m st en = m' st en.

(** Concrete surroundings used in examples: every draw of the generator is
    one half, the clock starts at zero, nothing was logged. *)
Definition half : sample := {| sample_val := 1 # 2; sample_ok := eq_refl |}.

Definition quiet_env : env :=
  {| clock := 0; entropy := fun _ => half; cursor := 0; trace := [] |}.

(** [m], started in store [st], returns normally, leaves the store as it is,
    and its result satisfies [P]. *)
Definition yields {St A} (st : St) (m : M St A) (P : A -> Prop) : Prop :=
  forall en, exists a en', m st en = (Ok a, st, en') /\ P a.

(** The duration that [simulate_database_operation] samples in [en]. *)
Definition sampled (lo hi : Q) (en : env) : Q :=
  (lo + (hi - lo) * sample_val (entropy en (cursor en)))%Q.

(** The request body has no field [k]. *)
Definition lacks (k : string) (b : body) : Prop :=
  match b with None => True | Some m => m !! k = None end.

(** The dict that [create_user] builds at time [t]. *)
Definition new_user (before : list user) (name email : value) (t : Q) : user :=
  {| user_id := Z.of_nat (length before) + 1; user_name := name; user_email := email;
     user_created_at := t; user_status := "active" |}.

(** What a POST on /api/users answers and does to the list [users]. *)
Definition create_user_contract (before : list user) (b : body) (resp : response)
    (after : list user) : Prop :=
  (lacks "name" b \/ lacks "email" b -> status resp = 400%Z /\ after = before) /\
  (forall name email,
     getitem b "name" = Ok name -> getitem b "email" = Ok email ->
     ((exists u, u ∈ before /\ user_email u = email) ->
        status resp = 409%Z /\ after = before) /\
     ((forall u, u ∈ before -> user_email u <> email) ->
        status resp = 201%Z /\
        exists t, after = before ++ [new_user before name email t] /\
                  resp_body resp = json_of_user (new_user before name email t))).

(** The line item that a referenced product gives, if it gives one: the
    product must exist and have a positive stock. *)
Definition line_of (ps : list product) (pid : value) : option item :=
  match find (product_is pid) ps with
  | Some p =>
      if (product_stock p <=? 0)%Z then None
      else Some {| item_product_id := pid; item_name := product_name p;
                   item_price := product_price p |}
  | None => None
  end.

Definition order_lines (ps : list product) (ids : list value) : list item :=
  omap (line_of ps) ids.

Definition order_total (lines : list item) : Q :=
  fold_left (fun t i => (t + item_price i)%Q) lines 0%Q.

(** The dict that [create_order] appends at time [t]. *)
Definition pending_order (before : list order) (uid : value) (u : user)
    (lines : list item) (t : Q) : order :=
  {| order_id := Z.of_nat (length before) + 1; order_user_id := uid;
     order_user_name := user_name u; order_items := lines;
     order_total_amount := order_total lines; order_status := "pending";
     order_created_at := t |}.

(** The loop "Update inventory" on the list of products. *)
Definition take_stock (ps : list product) (i : item) : list product :=
  match next_index (product_is (item_product_id i)) ps with
  | Some k => alter take_one k ps
  | None => ps
  end.



(** The pair [(total_amount, order_items)] after more lines were added. *)
Definition add_lines (acc : Q * list item) (lines : list item) : Q * list item :=
  (fold_left (fun t i => (t + item_price i)%Q) lines (fst acc), snd acc ++ lines).

(** Every line of an order points to a product of the list. *)
Definition resolves (ps : list product) (i : item) : Prop :=
  is_Some (next_index (product_is (item_product_id i)) ps).

(** What a POST on /api/orders answers and does to the lists. *)
Definition create_order_contract (us : list user) (os : list order) (ps : list product)
    (b : body) (resp : response) (os' : list order) (ps' : list product) : Prop :=
  match b with
  | None => status resp = 500%Z /\ os' = os /\ ps' = ps
  | Some m =>
      match m !! "user_id", m !! "product_ids" with
      | Some uid, Some product_ids =>
          match find (user_is uid) us with
          | None => status resp = 404%Z /\ os' = os /\ ps' = ps
          | Some u =>
              match py_iter product_ids with
              | Raise _ => status resp = 500%Z /\ os' = os /\ ps' = ps
              | Ok ids =>
                  exists s t,
                    let o := pending_order os uid u (order_lines ps ids) t in
                    (s = "paid" \/ s = "payment_failed") /\
                    resp = jsonify (json_of_order (set_status s o)) 201 /\
                    os' = alter (set_status s) (length os) (os ++ [o]) /\
                    ps' = fold_left take_stock (order_items o) ps
              end
          end
      | _, _ => status resp = 400%Z /\ os' = os /\ ps' = ps
      end
  end.


Definition ann : gmap string value :=
  {[ "name" := VStr "Ann"; "email" := VStr "ann@example.com" ]}.

Definition ann_registered : AppDemo.store :=
  {| AppDemo.users :=
       [{| AppDemo.row_id := 1; AppDemo.row_name := VStr "Ann";
           AppDemo.row_email := VStr "ann@example.com"; AppDemo.row_created_at := 0 |}] |}.

(** No user of the list has the id [uid]. *)
Definition no_such_user (us : list user) (uid : value) : Prop :=
  forall u, u ∈ us -> VInt (user_id u) <> uid.

(** The product that the id [pid] selects is missing or has no stock left. *)
Definition unavailable (ps : list product) (pid : Z) : Prop :=
  match find (product_is (VInt pid)) ps with
  | None => True
  | Some p => (product_stock p <= 0)%Z
  end.

(** What a POST on /api/orders with user [uid] and products [pids] answers. *)
Definition order_answer (us : list user) (os : list order) (ps : list product)
    (uid : value) (pids : list Z) (resp : response) (os' : list order) : Prop :=
  (no_such_user us uid -> status resp = 404%Z /\ os' = os) /\
  ((exists u, u ∈ us /\ VInt (user_id u) = uid) ->
     status resp = 201%Z /\
     exists o, os' = os ++ [o] /\ resp_body resp = json_of_order o /\
       order_items o = order_lines ps (map VInt pids) /\
       forall pid, pid ∈ pids ->
         (unavailable ps pid <->
          forall i, i ∈ order_items o -> item_product_id i <> VInt pid)).




Definition reports_healthy (resp : response) : Prop :=
  status resp = 200%Z /\
  field "status" (resp_body resp) = Some (JStr "healthy") /\
  exists t, field "timestamp" (resp_body resp) = Some (JTime t).

(** [0^2 + 1^2 + ... + (n-1)^2] in closed form. *)
Definition squares_below (n : Z) : Z := (n * (n - 1) * (2 * n - 1) / 6)%Z.

Definition error_request (mode : string) : App.request :=
  {| App.method := "GET"; App.path := "/error-test";
     App.args := {[ "type" := mode ]}; App.remote_addr := "203.0.113.7" |}.




(** The body that caller [i] posts; the emails are pairwise distinct. *)
Definition caller_body (i : nat) : body :=
  Some {[ "name" := VStr ("user" ++ pretty i);
          "email" := VStr ("user" ++ pretty i ++ "@example.com") ]}.

Definition hundred_bodies : list body := map caller_body (seq 0 100).

(** Every caller runs up to its sleep, then every caller finishes. *)
Definition all_then_all : list nat := seq 0 100 ++ seq 0 100.

(** Every caller runs from start to end before the next one starts. *)
Definition one_by_one : list nat := flat_map (fun i => [i; i]) (seq 0 100).

Definition without_inst_created (c : AppWithoutInst.caller) : bool :=
  match c with
  | AppWithoutInst.Answered r => (status r =? 201)%Z
  | _ => false
  end.

Definition local_created (c : LocalDeployment.caller) : bool :=
  match c with
  | LocalDeployment.Answered r => (status r =? 201)%Z
  | _ => false
  end.

(** What the callers were answered, and the ids of the users in the list,
    after a run. *)
Definition all_created {St C} (created : C -> bool) (run : result (list C) * St * env) : bool :=
  match fst (fst run) with
  | Ok pool => forallb created pool
  | Raise _ => false
  end.

Definition without_inst_ids (run : result (list AppWithoutInst.caller) * AppWithoutInst.store * env)
    : list Z :=
  map user_id (AppWithoutInst.users (snd (fst run))).

Definition local_ids (run : result (list LocalDeployment.caller) * LocalDeployment.store * env)
    : list Z :=
  map user_id (LocalDeployment.users (snd (fst run))).

(** An order of user 1 for a laptop and for a product that does not exist. *)
Definition laptop_order : gmap string value :=
  {[ "user_id" := VInt 1; "product_ids" := VList [1; 7]%Z ]}.

Definition ann_user : user :=
  {| user_id := 1; user_name := VStr "Ann"; user_email := VStr "ann@example.com";
     user_created_at := 0; user_status := "active" |}.

(** The applications after Ann registered. *)
Definition without_inst_ann : AppWithoutInst.store :=
  AppWithoutInst.set_users (fun _ => [ann_user]) AppWithoutInst.initial.

Definition local_ann : LocalDeployment.store :=
  LocalDeployment.set_users (fun _ => [ann_user]) LocalDeployment.initial.

(** Every draw of the generator is 1/20: the simulated payment fails. *)
Definition twentieth : sample := {| sample_val := 1 # 20; sample_ok := eq_refl |}.

Definition unlucky_env : env :=
  {| clock := 0; entropy := fun _ => twentieth; cursor := 0; trace := [] |}.

Definition five_iterations : App.request :=
  {| App.method := "GET"; App.path := "/cpu-intensive";
     App.args := {[ "iterations" := "5" ]}; App.remote_addr := "203.0.113.7" |}.

(** ** Vocabulary of the further properties *)

(** What one request does to the three lists of a shop application: a user
    may be created, or an order placed, or nothing changes. *)
Definition shop_step (us : list user) (os : list order) (ps : list product)
    (us' : list user) (os' : list order) (ps' : list product) : Prop :=
  (exists b resp, create_user_contract us b resp us' /\ os' = os /\ ps' = ps) \/
  (exists b resp, us' = us /\ create_order_contract us os ps b resp os' ps') \/
  (us' = us /\ os' = os /\ ps' = ps).

(** The rows are numbered 1, 2, 3, ... in the order of the list. *)
Definition numbered {A} (id : A -> Z) (l : list A) : Prop :=
  forall k x, l !! k = Some x -> id x = (Z.of_nat k + 1)%Z.

(** Users and orders carry their position as identifier and no two users have
    the same email. *)
Definition well_kept (us : list user) (os : list order) : Prop :=
  numbered user_id us /\ NoDup (map user_email us) /\ numbered order_id os.

(** The three ways a POST on /api/users can end. *)
Definition user_outcome (before : list user) (b : body) (resp : response)
    (after : list user) : Prop :=
  (status resp = 400%Z /\ after = before) \/
  (status resp = 409%Z /\ after = before) \/
  (status resp = 201%Z /\
   exists name email t,
     getitem b "name" = Ok name /\ getitem b "email" = Ok email /\
     (forall u, u ∈ before -> user_email u <> email) /\
     after = before ++ [new_user before name email t] /\
     resp_body resp = json_of_user (new_user before name email t)).

(** [p'] is the product [p] with, at most, less stock. *)
Definition same_article (p p' : product) : Prop :=
  product_id p' = product_id p /\ product_name p' = product_name p /\
  product_price p' = product_price p /\ (product_stock p' <= product_stock p)%Z.

(** The catalogue [ps'] is [ps] after some sales: the same products in the
    same order, none with more stock than before. *)
Definition sold_from (ps ps' : list product) : Prop := Forall2 same_article ps ps'.

(** How /api/orders answers a body that is not an object with a [user_id] and
    a list of [product_ids].  [null] makes the handler fail before it
    validates; an object without one of the two keys is rejected; for an
    existing user, [product_ids] that is a number or [null] makes the loop
    fail; in all these cases nothing is stored.  A string is iterated character
    by character, no character is the id of a product, and the order is stored
    without a line. *)
Definition malformed_order_answer (us : list user) (os : list order) (ps : list product)
    (b : body) (resp : response) (os' : list order) (ps' : list product) : Prop :=
  (b = None -> status resp = 500%Z /\ os' = os /\ ps' = ps) /\
  (forall m, b = Some m -> m !! "user_id" = None \/ m !! "product_ids" = None ->
     status resp = 400%Z /\ os' = os /\ ps' = ps) /\
  (forall m uid pv, b = Some m ->
     m !! "user_id" = Some uid -> m !! "product_ids" = Some pv ->
     (exists u, u ∈ us /\ VInt (user_id u) = uid) ->
     ((pv = VNone \/ exists z, pv = VInt z) ->
        status resp = 500%Z /\ os' = os /\ ps' = ps) /\
     (forall s, pv = VStr s ->
        status resp = 201%Z /\ ps' = ps /\
        exists o, os' = os ++ [o] /\ resp_body resp = json_of_order o /\
                  order_items o = [] /\ order_total_amount o = 0%Q)).

(** User [uid] exists and product [pid] is [p], with stock left. *)
Definition can_order (us : list user) (ps : list product) (uid : value) (pid : Z)
    (p : product) : Prop :=
  (exists u, u ∈ us /\ VInt (user_id u) = uid) /\
  find (product_is (VInt pid)) ps = Some p /\ (0 < product_stock p)%Z.

(** The order was accepted with [n] lines and [n] units of product [pid] were
    taken from the stock of [p]. *)
Definition took_units (n : nat) (pid : Z) (p : product) (resp : response)
    (os' : list order) (ps' : list product) : Prop :=
  status resp = 201%Z /\
  (exists o, last os' = Some o /\ resp_body resp = json_of_order o /\
             length (order_items o) = n) /\
  exists p', find (product_is (VInt pid)) ps' = Some p' /\
             product_stock p' = (product_stock p - Z.of_nat n)%Z.


(** [m], started in store [st], returns normally, leaves the store as it is,
    and has slept between [lo] and [hi] seconds in all when it returns; its
    result satisfies [P]. *)
Definition naps {St A} (st : St) (m : M St A) (lo hi : Q) (P : A -> Prop) : Prop :=
  forall en, exists a en',
    m st en = (Ok a, st, en') /\
    (clock en + lo <= clock en' /\ clock en' <= clock en + hi)%Q /\ P a.

(** The value that the next call of [random.random()] returns in [en]. *)
Definition next_draw (en : env) : Q := sample_val (entropy en (cursor en)).

(** What [simulate_cache_operation] returns and how long it sleeps: a hit
    exactly when the draw is below the hit rate, a few milliseconds for a hit,
    ten times more for a miss. *)
Definition cache_lookup (hit_rate : Q) (en : env) (hit : bool) (en' : env) : Prop :=
  (hit = true <-> (next_draw en < hit_rate)%Q) /\
  (if hit
   then clock en + 0.001 <= clock en' /\ clock en' <= clock en + 0.005
   else clock en + 0.01 <= clock en' /\ clock en' <= clock en + 0.03)%Q.



(** The counters [total_users] and [total_orders] of the dict [app_metrics] of
    the local deployment are the lengths of the two lists. *)
Definition mirrored (st : LocalDeployment.store) : Prop :=
  LocalDeployment.total_users (LocalDeployment.app_metrics st) =
    Z.of_nat (length (LocalDeployment.users st)) /\
  LocalDeployment.total_orders (LocalDeployment.app_metrics st) =
    Z.of_nat (length (LocalDeployment.orders st)).

(** What a request asks the application to store. *)
Inductive posted := PostedUser | PostedOrder | PostedNothing.

Definition without_inst_posted (c : AppWithoutInst.call) : posted :=
  match c with
  | AppWithoutInst.PostUser _ => PostedUser
  | AppWithoutInst.PostOrder _ => PostedOrder
  | _ => PostedNothing
  end.

Definition local_posted (c : LocalDeployment.call) : posted :=
  match c with
  | LocalDeployment.PostUser _ => PostedUser
  | LocalDeployment.PostOrder _ => PostedOrder
  | _ => PostedNothing
  end.

(** One more user, or one more order, exactly when the answer to the request
    that posted it is 201; never another product. *)
Definition grown (p : posted) (resp : response) (before after : nat * nat * nat) : Prop :=
  let one := if (status resp =? 201)%Z then 1%nat else 0%nat in
  after =
    match p, before with
    | PostedUser, (users, orders, products) => ((users + one)%nat, orders, products)
    | PostedOrder, (users, orders, products) => (users, (orders + one)%nat, products)
    | PostedNothing, _ => before
    end.

(** The field [system_info] of the answer of /metrics. *)
Definition system_info (sizes : nat * nat * nat) : json :=
  JObj [("users_count", JInt (Z.of_nat (fst (fst sizes))));
        ("orders_count", JInt (Z.of_nat (snd (fst sizes))));
        ("products_count", JInt (Z.of_nat (snd sizes)))].

Definition without_inst_sizes (st : AppWithoutInst.store) : nat * nat * nat :=
  (length (AppWithoutInst.users st), length (AppWithoutInst.orders st),
   length (AppWithoutInst.products st)).

Definition local_sizes (st : LocalDeployment.store) : nat * nat * nat :=
  (length (LocalDeployment.users st), length (LocalDeployment.orders st),
   length (LocalDeployment.products st)).

(** The answer of the 404 handler of src/app.py for [path]. *)
Definition lists_endpoints (path : string) (resp : response) : Prop :=
  status resp = 404%Z /\
  field "error" (resp_body resp) = Some (JStr "Not found") /\
  field "path" (resp_body resp) = Some (JStr path) /\
  field "available_endpoints" (resp_body resp) =
    Some (JArr (map JStr App.available_endpoints)).

(** The answer of the generic exception handler of src/app.py for an
    exception of the class [name]. *)
Definition application_error (name : string) (resp : response) : Prop :=
  status resp = 500%Z /\
  field "error" (resp_body resp) = Some (JStr "Application error") /\
  field "type" (resp_body resp) = Some (JStr name).

(** The methods, besides the automatic HEAD and OPTIONS, that a client may
    try on a path. *)
Definition tried_methods : list string := ["GET"; "POST"; "PUT"; "PATCH"; "DELETE"].

(** Two slashes in a row somewhere in the path. *)
Fixpoint doubled_slash (p : string) : bool :=
  match p with
  | EmptyString => false
  | String c rest =>
      match rest with
      | EmptyString => false
      | String c' _ => (Ascii.eqb c "/" && Ascii.eqb c' "/") || doubled_slash rest
      end
  end.

(** A path that only the rules declared with [@app.route] can match: Flask
    itself serves the paths under /static/ and redirects a path with a doubled
    slash to the path with single ones. *)
Definition plain_path (p : string) : Prop :=
  String.prefix "/static/" p = false /\ doubled_slash p = false.

(** The three modes of /error-test. *)
Definition error_modes : list string := ["http_error"; "exception"; "db_error"].

(** The durations of the calls of [time.sleep] recorded in a trace. *)
Definition sleeps (tr : list event) : list Q :=
  omap (fun ev => match ev with Slept d => Some d | _ => None end) tr.

(** How many multiples of 10000 there are among [0 .. n-1]. *)
Definition pauses (n : Z) : nat := Z.to_nat ((n + 9999) / 10000).

(** The metric [k] of the answer of /custom-metrics is an integer of [a..b]. *)
Definition counted_within (k : string) (a b : Z) (resp : response) : Prop :=
  exists n, (field "metrics" (resp_body resp) ≫= field k) = Some (JInt n) /\ (a <= n <= b)%Z.

(** The metric [k] of the answer of /custom-metrics is a number between [a]
    and [b]. *)
Definition measured_within (k : string) (a b : Q) (resp : response) : Prop :=
  exists x, (field "metrics" (resp_body resp) ≫= field k) = Some (JNum x) /\ (a <= x <= b)%Q.

(** The kind of metrics that a request on /custom-metrics asks for. *)
Definition metric_kind (req : App.request) : string :=
  default "business" (App.args req !! "type").

(** The integer that [random.randint(a, b)] draws in [en]. *)
Definition drawn (a b : Z) (en : env) : Z :=
  (a + Qfloor (sample_val (entropy en (cursor en)) * inject_Z (b - a + 1)))%Z.

(** [en] after one draw. *)
Definition after_draw (en : env) : env :=
  {| clock := clock en; entropy := entropy en; cursor := S (cursor en); trace := trace en |}.

(** The numbers grow along the list. *)
Definition increasing (ids : list Z) : Prop :=
  forall i j x y, ids !! i = Some x -> ids !! j = Some y -> (i < j)%nat -> (x < y)%Z.

(** The table [users] is kept in the order of its primary key, which
    identifies a row, and every order belongs to a user of the table. *)
Definition sound (db : AppDb.database) : Prop :=
  increasing (map AppDb.user_row_id (AppDb.db_users db)) /\
  forall o, o ∈ AppDb.db_orders db ->
    exists u, u ∈ AppDb.db_users db /\ AppDb.user_row_id u = AppDb.order_row_user_id o.

(** The operation that a request on /database-ops asks for. *)
Definition asked (req : App.request) : string :=
  default "select" (App.args req !! "operation").

(** What the columns [id], [name], [email] of [users] hold. *)
Definition users_columns (db : AppDb.database) : list (Z * string * string) :=
  map (fun u => (AppDb.user_row_id u, AppDb.user_row_name u, AppDb.user_row_email u))
      (AppDb.db_users db).

(** What the columns [id], [user_id], [product], [amount] of [orders] hold. *)
Definition orders_columns (db : AppDb.database) : list (Z * Z * string * Q) :=
  map (fun o => (AppDb.order_row_id o, AppDb.order_row_user_id o,
                 AppDb.order_row_product o, AppDb.order_row_amount o))
      (AppDb.db_orders db).

Definition empty_db : AppDb.database := {| AppDb.db_users := []; AppDb.db_orders := [] |}.

(** The row that the operation [insert] adds in [en]: its name and its email
    carry two numbers drawn one after the other. *)
Definition inserted_name (en : env) : string := "User_" ++ pretty (drawn 1000 9999 en).

Definition inserted_email (en : env) : string :=
  "user" ++ pretty (drawn 1000 9999 (after_draw en)) ++ "@example.com".

(** The answer of /database-ops to the operation [op] with the results [rs]. *)
Definition operation_done (op : string) (rs : list json) (resp : response) : Prop :=
  status resp = 200%Z /\
  field "operation" (resp_body resp) = Some (JStr op) /\
  field "results" (resp_body resp) = Some (JArr rs) /\
  field "message" (resp_body resp) =
    Some (JText [Lit "Database "; Lit op; Lit " completed successfully"]).

(** [u] under another name. *)
Definition renamed (new_name : string) (u : AppDb.user_row) : AppDb.user_row :=
  {| AppDb.user_row_id := AppDb.user_row_id u; AppDb.user_row_name := new_name;
     AppDb.user_row_email := AppDb.user_row_email u;
     AppDb.user_row_created_at := AppDb.user_row_created_at u |}.

(** [data.get(k)] on a dict: [None] for a missing key. *)
Definition given (m : gmap string value) (k : string) : value := default VNone (m !! k).

Definition is_list (v : value) : Prop := exists l, v = VList l.

(** What a POST on /api/users of the SQLite demo answers to a body that it
    cannot store: [null] and values that SQLite cannot bind make the view fail
    (500); a missing, empty or zero name or email is rejected (400); the table
    is left as it is. *)
Definition demo_refusal (data : body) (resp : response) : Prop :=
  match data with
  | None => status resp = 500%Z
  | Some m =>
      (truthy (given m "name") = false \/ truthy (given m "email") = false ->
         status resp = 400%Z /\
         resp_body resp = JObj [("error", JStr "Name and email required")]) /\
      (truthy (given m "name") = true -> truthy (given m "email") = true ->
         is_list (given m "name") \/ is_list (given m "email") -> status resp = 500%Z)
  end.

(** The body cannot be stored. *)
Definition refused (data : body) : Prop :=
  match data with
  | None => True
  | Some m =>
      truthy (given m "name") = false \/ truthy (given m "email") = false \/
      is_list (given m "name") \/ is_list (given m "email")
  end.

(** The dict that [create_user] of the hand-traced demo builds at time [t]. *)
Definition traced_row (before : list AppWithInstrumentation.row) (name email : value)
    (t : Q) : AppWithInstrumentation.row :=
  {| AppWithInstrumentation.row_id := Z.of_nat (length before) + 1;
     AppWithInstrumentation.row_name := name;
     AppWithInstrumentation.row_email := email;
     AppWithInstrumentation.row_created_at := t |}.

(** What a POST on /api/users of the hand-traced demo answers and does to the
    application.  Every failure is answered 400 and counted; a body with a name
    and an email is appended whatever the list holds. *)
Definition traced_contract (st : AppWithInstrumentation.store) (b : body)
    (resp : response) (st' : AppWithInstrumentation.store) : Prop :=
  let requests s := AppWithInstrumentation.requests_count (AppWithInstrumentation.metrics_data s) in
  let errors s := AppWithInstrumentation.errors_count (AppWithInstrumentation.metrics_data s) in
  requests st' = (requests st + 1)%Z /\
  (lacks "name" b \/ lacks "email" b ->
     status resp = 400%Z /\
     resp_body resp = JObj [("error", JStr "Failed to create user")] /\
     AppWithInstrumentation.users st' = AppWithInstrumentation.users st /\
     errors st' = (errors st + 1)%Z) /\
  (forall name email,
     getitem b "name" = Ok name -> getitem b "email" = Ok email ->
     status resp = 201%Z /\ errors st' = errors st /\
     exists t,
       let u := traced_row (AppWithInstrumentation.users st) name email t in
       AppWithInstrumentation.users st' = AppWithInstrumentation.users st ++ [u] /\
       resp_body resp = AppWithInstrumentation.json_of_row u).

(** Requests used in examples. *)
Definition ann_then_laptop : list AppWithoutInst.call :=
  [AppWithoutInst.PostUser (Some ann); AppWithoutInst.GetUsers;
   AppWithoutInst.PostOrder (Some laptop_order); AppWithoutInst.GetHealth].

Definition ann_then_laptop_local : list LocalDeployment.call :=
  [LocalDeployment.PostUser (Some ann); LocalDeployment.GetUsers;
   LocalDeployment.PostOrder (Some laptop_order); LocalDeployment.GetHealth].

(** An order of user 1 for eleven laptops; ten are in stock. *)
Definition eleven_laptops : gmap string value :=
  {[ "user_id" := VInt 1; "product_ids" := VList (replicate 11 1%Z) ]}.

Definition laptop : product :=
  {| product_id := 1; product_name := "Laptop"; product_price := 999.99; product_stock := 10 |}.

Definition get_request (path : string) (args : gmap string string) : App.request :=
  {| App.method := "GET"; App.path := path; App.args := args;
     App.remote_addr := "203.0.113.7" |}.

Definition post_request (path : string) (args : gmap string string) : App.request :=
  {| App.method := "POST"; App.path := path; App.args := args;
     App.remote_addr := "203.0.113.7" |}.

(** test.db after [init_db] ran on an empty file at time 0. *)
Definition seeded_db : AppDb.database :=
  snd (fst (AppDb.init_db empty_db quiet_env)).

(* ===================================================================== *)
(** * Reasoning about handlers                                            *)
(* ===================================================================== *)

Section Yields.
Context {St : Type}.

Lemma yields_ret {A} (st : St) (a : A) (P : A -> Prop) : P a -> yields st (ret a) P.
Proof. intros HP en. exists a, en. split; [reflexivity | exact HP]. Qed.

Lemma yields_bind {A B} (st : St) (m : M St A) (k : A -> M St B) P Q :
  yields st m P -> (forall a, P a -> yields st (k a) Q) -> yields st (bind m k) Q.
Proof.
  intros Hm Hk en. destruct (Hm en) as (a & en1 & E & HP).
  destruct (Hk a HP en1) as (b & en2 & E' & HQ).
  exists b, en2. unfold bind. rewrite E. split; assumption.
Qed.

Lemma yields_weaken {A} (st : St) (m : M St A) (P Q : A -> Prop) :
  yields st m P -> (forall a, P a -> Q a) -> yields st m Q.
Proof.
  intros Hm HPQ en. destruct (Hm en) as (a & en' & E & HP).
  exists a, en'. split; [exact E | apply HPQ, HP].
Qed.

Lemma yields_emit (st : St) ev : yields st (emit ev) (fun _ => True).
Proof. intros en. eexists _, _. split; [reflexivity | exact I]. Qed.

Lemma yields_log (st : St) lvl msg : yields st (log lvl msg) (fun _ => True).
Proof. apply yields_emit. Qed.

Lemma yields_add_event (st : St) span msg : yields st (add_event span msg) (fun _ => True).
Proof. apply yields_emit. Qed.

Lemma yields_get (st : St) : yields st get (fun s => s = st).
Proof. intros en. exists st, en. split; reflexivity. Qed.

Lemma yields_now (st : St) : yields st now (fun _ => True).
Proof. intros en. eexists _, _. split; [reflexivity | exact I]. Qed.

Lemma yields_of_result {A} (st : St) (a : A) (P : A -> Prop) : P a -> yields st (of_result (Ok a)) P.
Proof. apply yields_ret. Qed.

Lemma sample_bounds (s : sample) : (0 <= sample_val s /\ sample_val s < 1)%Q.
Proof.
  destruct s as [q Hq]. cbn. unfold in_unit in Hq.
  apply andb_prop in Hq as [H0 H1]. apply Qle_bool_iff in H0.
  split; [exact H0 |]. apply Qnot_le_lt. intros H.
  apply Qle_bool_iff in H. rewrite H in H1. discriminate.
Qed.

Lemma yields_random (st : St) : yields st random (fun r => 0 <= r /\ r < 1)%Q.
Proof.
  intros en. eexists _, _. split; [reflexivity |]. apply sample_bounds.
Qed.

Lemma between_ends (a b r : Q) :
  (a <= b -> 0 <= r -> r < 1 -> a <= a + (b - a) * r /\ a + (b - a) * r <= b)%Q.
Proof. intros. split; nra. Qed.

Lemma yields_uniform (st : St) (a b : Q) :
  (a <= b)%Q -> yields st (uniform a b) (fun d => a <= d /\ d <= b)%Q.
Proof.
  intros Hab. unfold uniform.
  apply yields_bind with (P := (fun r => 0 <= r /\ r < 1)%Q); [apply yields_random |].
  intros r [H0 H1]. apply yields_ret. apply between_ends; assumption.
Qed.

Lemma yields_sleep (st : St) (d : Q) : (0 <= d)%Q -> yields st (sleep d) (fun _ => True).
Proof.
  intros Hd en. apply Qle_bool_iff in Hd. unfold sleep. rewrite Hd.
  eexists _, _. split; [reflexivity | exact I].
Qed.

(** [time.sleep(random.uniform(a, b))] with constants [0 <= a <= b]. *)
Lemma yields_nap (st : St) (a b : Q) :
  Qle_bool 0 a = true -> Qle_bool a b = true ->
  yields st (d <- uniform a b ;; sleep d) (fun _ => True).
Proof.
  intros H0 Hab. apply Qle_bool_iff in H0, Hab.
  eapply yields_bind; [apply yields_uniform, Hab |].
  intros d [Hd _]. apply yields_sleep. lra.
Qed.

Lemma yields_for_fold {A B} (st : St) (l : list A) (body : B -> A -> M St B) (I : B -> Prop) :
  (forall acc x, I acc -> yields st (body acc x) I) ->
  forall acc, I acc -> yields st (for_fold l acc body) I.
Proof.
  intros Hbody. induction l as [| x l IH]; intros acc Hacc; cbn [for_fold].
  - apply yields_ret, Hacc.
  - eapply yields_bind; [apply Hbody, Hacc |]. intros acc' Hacc'. apply IH, Hacc'.
Qed.

Lemma yields_for_each {A} (st : St) (l : list A) (body : A -> M St unit) :
  (forall x, yields st (body x) (fun _ => True)) ->
  yields st (for_each l body) (fun _ => True).
Proof.
  intros Hbody. unfold for_each.
  apply yields_for_fold with (I := fun _ => True); [| exact I].
  intros acc x _. apply Hbody.
Qed.

(** A quiet prefix of a handler can be run in one step. *)
Lemma bind_yields {A B} (st : St) (m : M St A) (k : A -> M St B) P en :
  yields st m P -> exists a en', P a /\ bind m k st en = k a st en'.
Proof.
  intros Hm. destruct (Hm en) as (a & en' & E & HP).
  exists a, en'. split; [exact HP |]. unfold bind. rewrite E. reflexivity.
Qed.

End Yields.

(* ===================================================================== *)
(** * The randomized-delay simulator                                      *)
(* ===================================================================== *)

Lemma sampled_between lo hi en :
  (lo <= hi)%Q -> (lo <= sampled lo hi en /\ sampled lo hi en <= hi)%Q.
Proof.
  intros H. destruct (sample_bounds (entropy en (cursor en))) as [H0 H1].
  apply between_ends; assumption.
Qed.

Lemma without_inst_simulate_run {St} op lo hi (st : St) en :
  (0 <= lo)%Q -> (lo <= hi)%Q ->
  AppWithoutInst.simulate_database_operation op (lo, hi) st en =
    (Ok (sampled lo hi en), st,
     {| clock := clock en + sampled lo hi en;
        entropy := entropy en;
        cursor := S (cursor en);
        trace := trace en ++
          [Logged INFO [Lit "Starting "; Lit op; Lit " operation"];
           Slept (sampled lo hi en);
           Logged INFO [Lit "Completed "; Lit op; Lit " operation in ";
                        FFixed 3 (sampled lo hi en); Lit "s"]] |}).
Proof.
  intros H0 Hle. destruct (sampled_between lo hi en Hle) as [Hd _].
  assert (Hs : Qle_bool 0 (sampled lo hi en) = true) by (apply Qle_bool_iff; lra).
  unfold AppWithoutInst.simulate_database_operation, bind, uniform, bind, sleep, log, emit, random, ret.
  cbn [fst snd clock entropy cursor trace]. fold (sampled lo hi en). rewrite Hs.
  cbn [clock entropy cursor trace]. rewrite <- !app_assoc. reflexivity.
Qed.

Lemma local_simulate_run {St} op lo hi (st : St) en :
  (0 <= lo)%Q -> (lo <= hi)%Q ->
  LocalDeployment.simulate_database_operation op (lo, hi) st en =
    (Ok (sampled lo hi en), st,
     {| clock := clock en + sampled lo hi en;
        entropy := entropy en;
        cursor := S (cursor en);
        trace := trace en ++
          [SpanEvent [Lit "database_"; Lit op] [Lit "Starting "; Lit op; Lit " operation"];
           Slept (sampled lo hi en);
           SpanEvent [Lit "database_"; Lit op] [Lit "Completed "; Lit op; Lit " operation"]] |}).
Proof.
  intros H0 Hle. destruct (sampled_between lo hi en Hle) as [Hd _].
  assert (Hs : Qle_bool 0 (sampled lo hi en) = true) by (apply Qle_bool_iff; lra).
  unfold LocalDeployment.simulate_database_operation, bind, uniform, bind, sleep,
    add_event, emit, random, ret.
  cbn [fst snd clock entropy cursor trace]. fold (sampled lo hi en). rewrite Hs.
  cbn [clock entropy cursor trace]. rewrite <- !app_assoc. reflexivity.
Qed.

Lemma without_inst_simulate_yields {St} (st : St) op (r : Q * Q) :
  Qle_bool 0 (fst r) = true -> Qle_bool (fst r) (snd r) = true ->
  yields st (AppWithoutInst.simulate_database_operation op r)
    (fun d => fst r <= d /\ d <= snd r)%Q.
Proof.
  destruct r as [lo hi]. cbn [fst snd]. intros H0 Hle en.
  apply Qle_bool_iff in H0, Hle.
  eexists _, _. split; [apply without_inst_simulate_run; assumption |].
  apply sampled_between, Hle.
Qed.

Lemma local_simulate_yields {St} (st : St) op (r : Q * Q) :
  Qle_bool 0 (fst r) = true -> Qle_bool (fst r) (snd r) = true ->
  yields st (LocalDeployment.simulate_database_operation op r)
    (fun d => fst r <= d /\ d <= snd r)%Q.
Proof.
  destruct r as [lo hi]. cbn [fst snd]. intros H0 Hle en.
  apply Qle_bool_iff in H0, Hle.
  eexists _, _. split; [apply local_simulate_run; assumption |].
  apply sampled_between, Hle.
Qed.

(** Straight-line code made of logging, sleeping within constant bounds and
    loops over constant lists is quiet. *)
Ltac quiet_straight_line :=
  repeat first
    [ apply yields_log
    | apply yields_add_event
    | apply yields_nap; reflexivity
    | apply yields_ret; exact I
    | apply yields_for_each; intros ?
    | eapply yields_weaken; [apply yields_random | intros ? _; exact I]
    | eapply yields_bind; [| intros ? _]
    | match goal with |- context [if ?c then _ else _] => destruct c end ].

Lemma without_inst_business_logic_yields {St} (st : St) name complexity :
  yields st (AppWithoutInst.process_business_logic name complexity) (fun _ => True).
Proof. unfold AppWithoutInst.process_business_logic. quiet_straight_line. Qed.

Lemma local_business_logic_yields {St} (st : St) name complexity :
  yields st (LocalDeployment.process_business_logic name complexity) (fun _ => True).
Proof. unfold LocalDeployment.process_business_logic. quiet_straight_line. Qed.

Lemma without_inst_cache_yields {St} (st : St) key rate :
  yields st (AppWithoutInst.simulate_cache_operation key rate) (fun _ => True).
Proof. unfold AppWithoutInst.simulate_cache_operation. quiet_straight_line. Qed.

Lemma local_cache_yields {St} (st : St) key rate :
  yields st (LocalDeployment.simulate_cache_operation key rate) (fun _ => True).
Proof. unfold LocalDeployment.simulate_cache_operation. quiet_straight_line. Qed.

Arguments AppWithoutInst.simulate_database_operation : simpl never.
Arguments AppWithoutInst.process_business_logic : simpl never.
Arguments AppWithoutInst.simulate_cache_operation : simpl never.
Arguments LocalDeployment.simulate_database_operation : simpl never.
Arguments LocalDeployment.process_business_logic : simpl never.
Arguments LocalDeployment.simulate_cache_operation : simpl never.

Ltac solve_yields :=
  first [ apply without_inst_simulate_yields; reflexivity
        | apply local_simulate_yields; reflexivity
        | apply without_inst_business_logic_yields
        | apply local_business_logic_yields
        | apply without_inst_cache_yields
        | apply local_cache_yields
        | apply yields_nap; reflexivity ].

(** Runs the first quiet call of the handler in the goal. *)
Ltac quiet_step_by tac :=
  match goal with
  | |- context [bind ?m ?k ?st ?en] =>
      let a := fresh "a" in
      let en' := fresh "en" in
      let E := fresh "E" in
      let HP := fresh "HP" in
      let H := fresh "H" in
      eassert (H : yields st m _) by tac;
      destruct (bind_yields st m k _ en H) as (a & en' & HP & E);
      rewrite E; clear E H
  end.

Ltac quiet_step := quiet_step_by solve_yields.

Lemma bind_run {St A B} (m : M St A) (k : A -> M St B) st en a st' en' :
  m st en = (Ok a, st', en') -> bind m k st en = k a st' en'.
Proof. intros E. unfold bind. rewrite E. reflexivity. Qed.

Lemma bind_fail {St A B} (m : M St A) (k : A -> M St B) st en e st' en' :
  m st en = (Raise e, st', en') -> bind m k st en = (Raise e, st', en').
Proof. intros E. unfold bind. rewrite E. reflexivity. Qed.

(* ===================================================================== *)
(** * Creating users                                                      *)
(* ===================================================================== *)

Lemma invalid_user_data (b : body) :
  falsy b || negb (has_key "name" b) || negb (has_key "email" b) = true <->
  lacks "name" b \/ lacks "email" b.
Proof.
  destruct b as [m |]; cbn; [| tauto].
  destruct (m !! "name") as [n |] eqn:Hn, (m !! "email") as [e |] eqn:He; cbn;
    rewrite ?orb_true_r, ?orb_false_r.
  - rewrite bool_decide_eq_true. split.
    + intros ->. rewrite lookup_empty in Hn. discriminate.
    + intros [? | ?]; discriminate.
  - split; [intros _; right; reflexivity | reflexivity].
  - split; [intros _; left; reflexivity | reflexivity].
  - split; [intros _; left; reflexivity | reflexivity].
Qed.

Lemma valid_user_data (m : gmap string value) name email :
  m !! "name" = Some name -> m !! "email" = Some email ->
  falsy (Some m) || negb (has_key "name" (Some m)) || negb (has_key "email" (Some m)) = false.
Proof.
  intros Hn He. apply not_true_is_false. intros C. apply invalid_user_data in C.
  cbn in C. rewrite Hn, He in C. destruct C; discriminate.
Qed.

Lemma find_email_some (l : list user) email u :
  find (email_is email) l = Some u -> u ∈ l /\ user_email u = email.
Proof.
  intros H. apply find_some in H as [Hin He]. split.
  - apply list_elem_of_In, Hin.
  - unfold email_is, py_eq in He. apply bool_decide_eq_true in He. exact He.
Qed.

Lemma find_email_none (l : list user) email :
  find (email_is email) l = None -> forall u, u ∈ l -> user_email u <> email.
Proof.
  intros H u Hu He. apply list_elem_of_In in Hu.
  pose proof (find_none _ _ H u Hu) as Hf.
  unfold email_is, py_eq in Hf. apply bool_decide_eq_false in Hf. contradiction.
Qed.

Lemma contract_invalid before b resp :
  lacks "name" b \/ lacks "email" b -> status resp = 400%Z ->
  create_user_contract before b resp before.
Proof.
  intros Hl Hs. split; [intros _; split; [exact Hs | reflexivity] |].
  intros name email Hn He. exfalso. destruct b as [m |]; [| discriminate].
  cbn in *. destruct Hl as [Hl | Hl]; rewrite Hl in *; discriminate.
Qed.

Lemma contract_duplicate before (m : gmap string value) name email resp u :
  m !! "name" = Some name -> m !! "email" = Some email ->
  find (email_is email) before = Some u -> status resp = 409%Z ->
  create_user_contract before (Some m) resp before.
Proof.
  intros Hn He Hf Hs. split.
  - cbn. rewrite Hn, He. intros [? | ?]; discriminate.
  - cbn. rewrite Hn, He. intros n e [= <-] [= <-].
    split; [intros _; split; [exact Hs | reflexivity] |].
    intros Hnone. exfalso. apply find_email_some in Hf as [Hin Hu].
    exact (Hnone u Hin Hu).
Qed.

Lemma contract_created before (m : gmap string value) name email resp t :
  m !! "name" = Some name -> m !! "email" = Some email ->
  find (email_is email) before = None -> status resp = 201%Z ->
  resp_body resp = json_of_user (new_user before name email t) ->
  create_user_contract before (Some m) resp (before ++ [new_user before name email t]).
Proof.
  intros Hn He Hf Hs Hb. split.
  - cbn. rewrite Hn, He. intros [? | ?]; discriminate.
  - cbn. rewrite Hn, He. intros n e [= <-] [= <-]. split.
    + intros (u & Hin & Hu). exfalso. exact (find_email_none _ _ Hf u Hin Hu).
    + intros _. split; [exact Hs |]. exists t. split; [reflexivity | exact Hb].
Qed.

(** ** app-without-inst.py *)

Lemma without_inst_prepare_invalid b st en :
  lacks "name" b \/ lacks "email" b ->
  exists en', AppWithoutInst.create_user_prepare b st en =
    (Ok (inl (jsonify (JObj [("error", JStr "Invalid user data")]) 400)),
     AppWithoutInst.count_error st, en').
Proof.
  intros H. apply invalid_user_data in H.
  unfold AppWithoutInst.create_user_prepare. rewrite H. eexists. reflexivity.
Qed.

Lemma without_inst_prepare_valid (m : gmap string value) name email st en :
  m !! "name" = Some name -> m !! "email" = Some email ->
  exists en',
    AppWithoutInst.create_user_prepare (Some m) st en =
      match find (email_is email) (AppWithoutInst.users st) with
      | Some _ =>
          (Ok (inl (jsonify (JObj [("error", JStr "Email already exists")]) 409)),
           AppWithoutInst.count_error st,
           {| clock := clock en'; entropy := entropy en'; cursor := cursor en';
              trace := trace en' ++
                [Logged WARNING [Lit "Email already exists: "; FVal email]] |})
      | None =>
          (Ok (inr (new_user (AppWithoutInst.users st) name email (clock en'))), st, en')
      end.
Proof.
  intros Hn He. unfold AppWithoutInst.create_user_prepare.
  rewrite (valid_user_data m name email Hn He).
  cbn [getitem]. rewrite Hn, He. cbn. quiet_step. cbn.
  exists en0. destruct (find _ _); reflexivity.
Qed.

Lemma without_inst_save u st en :
  exists en', AppWithoutInst.create_user_save u st en =
    (Ok (jsonify (json_of_user u) 201), AppWithoutInst.set_users (fun l => l ++ [u]) st, en').
Proof.
  unfold AppWithoutInst.create_user_save.
  quiet_step. cbn. quiet_step. cbn. quiet_step. cbn. eexists. reflexivity.
Qed.

Arguments AppWithoutInst.create_user_prepare : simpl never.
Arguments AppWithoutInst.create_user_save : simpl never.

(** The three ways through [create_user], given what its two halves do. *)
Ltac create_user_invalid prepare_invalid b st en Hl :=
  let en' := fresh "en" in
  let E := fresh "E" in
  destruct (prepare_invalid b st en Hl) as (en' & E);
  rewrite (bind_run _ _ _ _ _ _ _ E); cbn;
  eexists _, _, _; split; [reflexivity |]; cbn;
  split; [apply contract_invalid; [exact Hl | reflexivity] | split; reflexivity].

Ltac create_user_cases prepare_invalid prepare_valid save save_lemma users_of b st en :=
  let m := fresh "m" in
  let name := fresh "name" in
  let email := fresh "email" in
  let Hn := fresh "Hn" in
  let He := fresh "He" in
  let Hf := fresh "Hf" in
  let u := fresh "u" in
  let en1 := fresh "en" in
  let en3 := fresh "en" in
  let E := fresh "E" in
  let E3 := fresh "E" in
  destruct b as [m |];
    [| create_user_invalid prepare_invalid (@None (gmap string value)) st en
         (or_introl I : lacks "name" None \/ lacks "email" None)];
  destruct (m !! "name") as [name |] eqn:Hn;
    [| create_user_invalid prepare_invalid (Some m) st en
         (or_introl Hn : lacks "name" (Some m) \/ lacks "email" (Some m))];
  destruct (m !! "email") as [email |] eqn:He;
    [| create_user_invalid prepare_invalid (Some m) st en
         (or_intror He : lacks "name" (Some m) \/ lacks "email" (Some m))];
  destruct (prepare_valid m name email st en Hn He) as (en1 & E);
  revert E;
  destruct (find (email_is email) (users_of st)) as [u |] eqn:Hf;
    intros E; rewrite (bind_run _ _ _ _ _ _ _ E);
    [ cbn; eexists _, _, _; split; [reflexivity |]; cbn;
      split; [eapply contract_duplicate; eauto | split; reflexivity]
    | cbv beta iota;
      match goal with
      | |- context [save ?u ?s ?e] => destruct (save_lemma u s e) as (en3 & E3)
      end;
      rewrite E3; eexists _, _, _; split; [reflexivity |]; cbn;
      split; [eapply contract_created; eauto | split; reflexivity] ].

Lemma without_inst_create_user (b : body) st en :
  exists resp st' en',
    AppWithoutInst.create_user b st en = (Ok resp, st', en') /\
    create_user_contract (AppWithoutInst.users st) b resp (AppWithoutInst.users st') /\
    AppWithoutInst.orders st' = AppWithoutInst.orders st /\
    AppWithoutInst.products st' = AppWithoutInst.products st.
Proof.
  unfold AppWithoutInst.create_user, try_except.
  create_user_cases without_inst_prepare_invalid without_inst_prepare_valid
    AppWithoutInst.create_user_save without_inst_save AppWithoutInst.users b st en.
Qed.

(** ** local-deployment/app/app-without-instrumentation.py *)

Lemma local_prepare_invalid b st en :
  lacks "name" b \/ lacks "email" b ->
  exists en', LocalDeployment.create_user_prepare b st en =
    (Ok (inl (jsonify (JObj [("error", JStr "Invalid user data")]) 400)), st, en').
Proof.
  intros H. apply invalid_user_data in H.
  unfold LocalDeployment.create_user_prepare. rewrite H. eexists. reflexivity.
Qed.

Lemma local_prepare_valid (m : gmap string value) name email st en :
  m !! "name" = Some name -> m !! "email" = Some email ->
  exists en',
    LocalDeployment.create_user_prepare (Some m) st en =
      match find (email_is email) (LocalDeployment.users st) with
      | Some _ =>
          (Ok (inl (jsonify (JObj [("error", JStr "Email already exists")]) 409)),
           st, en')
      | None =>
          (Ok (inr (new_user (LocalDeployment.users st) name email (clock en'))), st,
           {| clock := clock en'; entropy := entropy en'; cursor := cursor en';
              trace := (trace en' ++
                [SpanEvent [Lit "check_duplicate_email"] [Lit "Email check passed"]]) ++
                [SpanEvent [Lit "create_user_object"] [Lit "User object created"]] |})
      end.
Proof.
  intros Hn He. unfold LocalDeployment.create_user_prepare.
  rewrite (valid_user_data m name email Hn He).
  cbn [getitem]. rewrite Hn, He. cbn. quiet_step. cbn.
  exists en0. destruct (find _ _); reflexivity.
Qed.

Lemma local_save u st en :
  exists en', LocalDeployment.create_user_save u st en =
    (Ok (jsonify (json_of_user u) 201),
     LocalDeployment.count_users (LocalDeployment.set_users (fun l => l ++ [u]) st), en').
Proof.
  unfold LocalDeployment.create_user_save.
  quiet_step. cbn. quiet_step. cbn. quiet_step. cbn. eexists. reflexivity.
Qed.

Arguments LocalDeployment.create_user_prepare : simpl never.
Arguments LocalDeployment.create_user_save : simpl never.

Lemma local_create_user (b : body) st en :
  exists resp st' en',
    LocalDeployment.create_user b st en = (Ok resp, st', en') /\
    create_user_contract (LocalDeployment.users st) b resp (LocalDeployment.users st') /\
    LocalDeployment.orders st' = LocalDeployment.orders st /\
    LocalDeployment.products st' = LocalDeployment.products st.
Proof.
  unfold LocalDeployment.create_user, try_except.
  create_user_cases local_prepare_invalid local_prepare_valid
    LocalDeployment.create_user_save local_save LocalDeployment.users b st en.
Qed.

(* ===================================================================== *)
(** * Creating orders                                                     *)
(* ===================================================================== *)

Lemma add_lines_nil acc : add_lines acc [] = acc.
Proof. destruct acc. unfold add_lines. cbn. rewrite app_nil_r. reflexivity. Qed.

Lemma add_lines_app acc l1 l2 : add_lines (add_lines acc l1) l2 = add_lines acc (l1 ++ l2).
Proof.
  unfold add_lines. cbn [fst snd]. rewrite fold_left_app, <- app_assoc. reflexivity.
Qed.

Lemma order_lines_cons ps pid ids :
  order_lines ps (pid :: ids) = option_list (line_of ps pid) ++ order_lines ps ids.
Proof. unfold order_lines. cbn. destruct (line_of ps pid); reflexivity. Qed.

Lemma next_index_find {A} (f : A -> bool) (l : list A) x :
  find f l = Some x -> exists k, next_index f l = Some k /\ l !! k = Some x.
Proof.
  induction l as [| y l IH]; cbn; [discriminate |].
  destruct (f y).
  - intros [= ->]. exists 0%nat. split; reflexivity.
  - intros H. destruct (IH H) as (k & Hk & Hl). exists (S k). rewrite Hk. split; [reflexivity | exact Hl].
Qed.

Lemma next_index_spec {A} (f : A -> bool) (l : list A) k :
  next_index f l = Some k ->
  exists x, l !! k = Some x /\ f x = true /\ forall j y, (j < k)%nat -> l !! j = Some y -> f y = false.
Proof.
  revert k. induction l as [| y l IH]; intros k; cbn; [discriminate |].
  destruct (f y) eqn:Hy.
  - intros [= <-]. exists y. split; [reflexivity |]. split; [exact Hy |]. intros j z Hj. lia.
  - destruct (next_index f l) as [k' |] eqn:Hk; cbn; [| discriminate].
    intros [= <-]. destruct (IH k' eq_refl) as (x & Hx & Hfx & Hlt).
    exists x. split; [exact Hx |]. split; [exact Hfx |].
    intros [| j] z Hj Hz; cbn in Hz.
    + injection Hz as <-. exact Hy.
    + apply (Hlt j z); [lia | exact Hz].
Qed.

Lemma next_index_ext {A} (f : A -> bool) (l l' : list A) :
  map f l = map f l' -> next_index f l = next_index f l'.
Proof.
  revert l'. induction l as [| x l IH]; intros [| y l']; cbn; try discriminate; [reflexivity |].
  intros [= Hxy Hl]. rewrite Hxy, (IH l' Hl). reflexivity.
Qed.

Lemma take_one_same_id pid p : product_is pid (take_one p) = product_is pid p.
Proof. reflexivity. Qed.

Lemma map_alter_take_one pid k ps :
  map (product_is pid) (alter take_one k ps) = map (product_is pid) ps.
Proof.
  revert k. induction ps as [| p ps IH]; intros [| k]; cbn; try reflexivity.
  f_equal. apply IH.
Qed.

Lemma take_stock_same_ids pid ps i :
  map (product_is pid) (take_stock ps i) = map (product_is pid) ps.
Proof.
  unfold take_stock. destruct (next_index _ ps); [apply map_alter_take_one | reflexivity].
Qed.

Lemma fold_take_stock_same_ids pid lines ps :
  map (product_is pid) (fold_left take_stock lines ps) = map (product_is pid) ps.
Proof.
  revert ps. induction lines as [| i lines IH]; intros ps; cbn; [reflexivity |].
  rewrite IH. apply take_stock_same_ids.
Qed.

Lemma line_of_resolves ps pid i : line_of ps pid = Some i -> resolves ps i.
Proof.
  unfold line_of, resolves. destruct (find _ ps) as [p |] eqn:Hf; [| discriminate].
  destruct (product_stock p <=? 0)%Z; [discriminate |]. intros [= <-]. cbn.
  destruct (next_index_find _ _ _ Hf) as (k & Hk & _). rewrite Hk. eexists. reflexivity.
Qed.

Lemma order_lines_resolve ps ids : Forall (resolves ps) (order_lines ps ids).
Proof.
  apply Forall_forall. intros i Hi. unfold order_lines in Hi.
  apply list_elem_of_omap in Hi as (pid & _ & Hl).
  exact (line_of_resolves ps pid i Hl).
Qed.

Lemma resolves_take_stock ps j i : resolves ps i -> resolves (take_stock ps j) i.
Proof.
  unfold resolves. intros H.
  rewrite (next_index_ext _ (take_stock ps j) ps); [exact H | apply take_stock_same_ids].
Qed.

Lemma for_each_cons {St A} (body : A -> M St unit) x l st en :
  for_each (x :: l) body st en = bind (body x) (fun _ => for_each l body) st en.
Proof.
  unfold for_each. cbn [for_fold]. unfold bind.
  destruct (body x st en) as [[[[] | e] st'] en']; reflexivity.
Qed.

Lemma bind_bind {St A B C} (m : M St A) (f : A -> M St B) (g : B -> M St C) st en :
  bind (bind m f) g st en = bind m (fun a => bind (f a) g) st en.
Proof. unfold bind. destruct (m st en) as [[[a | e] st'] en']; reflexivity. Qed.

Lemma bind_get {St B} (k : St -> M St B) st en : bind get k st en = k st st en.
Proof. reflexivity. Qed.

Lemma bind_modify {St B} (f : St -> St) (k : unit -> M St B) st en :
  bind (modify f) k st en = k tt (f st) en.
Proof. reflexivity. Qed.

Lemma bind_now {St B} (k : Q -> M St B) (st : St) en : bind now k st en = k (clock en) st en.
Proof. reflexivity. Qed.

Lemma valid_order_data (m : gmap string value) uid pv :
  m !! "user_id" = Some uid -> m !! "product_ids" = Some pv ->
  falsy (Some m) || negb (has_key "user_id" (Some m))
  || negb (has_key "product_ids" (Some m)) = false.
Proof.
  intros Hu Hp. cbn. rewrite Hu, Hp. cbn.
  rewrite bool_decide_eq_false_2; [reflexivity |].
  intros ->. rewrite lookup_empty in Hu. discriminate.
Qed.

Lemma invalid_order_data (m : gmap string value) :
  m !! "user_id" = None \/ m !! "product_ids" = None ->
  falsy (Some m) || negb (has_key "user_id" (Some m))
  || negb (has_key "product_ids" (Some m)) = true.
Proof.
  intros [H | H]; cbn; rewrite H; cbn; rewrite ?orb_true_r; reflexivity.
Qed.

Lemma alter_last {A} (f : A -> A) (l : list A) x :
  alter f (length l) (l ++ [x]) = l ++ [f x].
Proof. induction l as [| y l IH]; cbn; [reflexivity | f_equal; exact IH]. Qed.

(** ** app-without-inst.py *)

Lemma without_inst_process_product st acc pid :
  yields st (AppWithoutInst.process_product acc pid)
    (fun acc' => acc' = add_lines acc (option_list (line_of (AppWithoutInst.products st) pid))).
Proof.
  intros en. unfold AppWithoutInst.process_product, line_of. cbn.
  destruct (find (product_is pid) (AppWithoutInst.products st)) as [p |]; cbn.
  - quiet_step. destruct (product_stock p <=? 0)%Z; cbn.
    + eexists _, _. split; [reflexivity |]. symmetry. apply add_lines_nil.
    + quiet_step. cbn. eexists _, _. split; reflexivity.
  - eexists _, _. split; [reflexivity |]. symmetry. apply add_lines_nil.
Qed.

Lemma without_inst_process_products st ids : forall acc,
  yields st (for_fold ids acc AppWithoutInst.process_product)
    (fun acc' => acc' = add_lines acc (order_lines (AppWithoutInst.products st) ids)).
Proof.
  induction ids as [| pid ids IH]; intros acc; cbn [for_fold].
  - apply yields_ret. symmetry. apply add_lines_nil.
  - eapply yields_bind; [apply without_inst_process_product |].
    intros acc' ->. eapply yields_weaken; [apply IH |].
    intros acc'' ->. rewrite add_lines_app, order_lines_cons. reflexivity.
Qed.

Lemma without_inst_record uid u total lines st en :
  exists st' en',
    AppWithoutInst.create_order_record uid u total lines st en =
      (Ok (length (AppWithoutInst.orders st)), st', en') /\
    AppWithoutInst.orders st' = AppWithoutInst.orders st ++
      [{| order_id := Z.of_nat (length (AppWithoutInst.orders st)) + 1;
          order_user_id := uid; order_user_name := user_name u;
          order_items := lines; order_total_amount := total;
          order_status := "pending"; order_created_at := clock en |}] /\
    AppWithoutInst.users st' = AppWithoutInst.users st /\
    AppWithoutInst.products st' = AppWithoutInst.products st.
Proof.
  unfold AppWithoutInst.create_order_record. cbn. quiet_step. cbn.
  eexists _, _. split; [reflexivity |]. cbn. tauto.
Qed.

Lemma without_inst_payment ref total st en :
  exists s st' en',
    AppWithoutInst.process_payment ref total st en = (Ok tt, st', en') /\
    (s = "paid" \/ s = "payment_failed") /\
    AppWithoutInst.orders st' = alter (set_status s) ref (AppWithoutInst.orders st) /\
    AppWithoutInst.users st' = AppWithoutInst.users st /\
    AppWithoutInst.products st' = AppWithoutInst.products st.
Proof.
  unfold AppWithoutInst.process_payment. cbn. quiet_step. cbn.
  destruct (Qle_bool _ _); cbn.
  - exists "payment_failed". eexists _, _. split; [reflexivity |]. cbn. tauto.
  - exists "paid". eexists _, _. split; [reflexivity |]. cbn. tauto.
Qed.

Lemma without_inst_inventory_loop lines : forall st en,
  Forall (resolves (AppWithoutInst.products st)) lines ->
  exists st' en',
    for_each lines (fun item =>
      st <- get ;;
      match next_index (product_is (item_product_id item)) (AppWithoutInst.products st) with
      | None => raise StopIteration
      | Some product => modify (AppWithoutInst.set_products (alter take_one product))
      end) st en = (Ok tt, st', en') /\
    AppWithoutInst.products st' = fold_left take_stock lines (AppWithoutInst.products st) /\
    AppWithoutInst.users st' = AppWithoutInst.users st /\
    AppWithoutInst.orders st' = AppWithoutInst.orders st.
Proof.
  induction lines as [| i lines IH]; intros st en Hres.
  - eexists _, _. split; [reflexivity |]. cbn. tauto.
  - inversion Hres as [| ? ? Hi Hrest]; subst.
    rewrite for_each_cons, bind_bind, bind_get. destruct Hi as [k Hk]. rewrite Hk, bind_modify.
    match goal with |- context [for_each lines _ ?s ?e] =>
      destruct (IH s e) as (st' & en' & E & Hp & Hu & Ho) end.
    { cbn. eapply Forall_impl; [exact Hrest |]. intros j Hj.
      pose proof (resolves_take_stock (AppWithoutInst.products st) i j Hj) as R.
      unfold take_stock in R. rewrite Hk in R. exact R. }
    assert (T : take_stock (AppWithoutInst.products st) i =
                alter take_one k (AppWithoutInst.products st))
      by (unfold take_stock; rewrite Hk; reflexivity).
    rewrite E. eexists _, _. split; [reflexivity |].
    rewrite Hp, Hu, Ho. cbn [fold_left]. rewrite T. split; [reflexivity | split; reflexivity].
Qed.

Lemma without_inst_inventory lines st en :
  Forall (resolves (AppWithoutInst.products st)) lines ->
  exists st' en',
    AppWithoutInst.update_inventory lines st en = (Ok tt, st', en') /\
    AppWithoutInst.products st' = fold_left take_stock lines (AppWithoutInst.products st) /\
    AppWithoutInst.users st' = AppWithoutInst.users st /\
    AppWithoutInst.orders st' = AppWithoutInst.orders st.
Proof.
  intros Hres. unfold AppWithoutInst.update_inventory. quiet_step.
  apply without_inst_inventory_loop, Hres.
Qed.

Arguments AppWithoutInst.create_order_record : simpl never.
Arguments AppWithoutInst.process_payment : simpl never.
Arguments AppWithoutInst.update_inventory : simpl never.
Arguments AppWithoutInst.process_product : simpl never.

Lemma without_inst_create_order (b : body) st en :
  exists resp st' en',
    AppWithoutInst.create_order b st en = (Ok resp, st', en') /\
    AppWithoutInst.users st' = AppWithoutInst.users st /\
    create_order_contract (AppWithoutInst.users st) (AppWithoutInst.orders st)
      (AppWithoutInst.products st) b resp
      (AppWithoutInst.orders st') (AppWithoutInst.products st').
Proof.
  unfold AppWithoutInst.create_order, try_except, create_order_contract.
  destruct b as [m |]; cbn [dict_get of_result].
  2:{ cbn. eexists _, _, _. split; [reflexivity |]. cbn. tauto. }
  destruct (m !! "user_id") as [uid |] eqn:Hu.
  2:{ rewrite invalid_order_data by (left; exact Hu). cbn.
      eexists _, _, _. split; [reflexivity |]. cbn. tauto. }
  destruct (m !! "product_ids") as [pv |] eqn:Hp.
  2:{ rewrite invalid_order_data by (right; exact Hp). cbn.
      eexists _, _, _. split; [reflexivity |]. cbn. tauto. }
  rewrite (valid_order_data m uid pv Hu Hp). cbn. quiet_step. cbn. rewrite Hu. cbn.
  destruct (find (user_is uid) (AppWithoutInst.users st)) as [u |] eqn:Hf.
  2:{ cbn. eexists _, _, _. split; [reflexivity |]. cbn. tauto. }
  rewrite Hp. cbn.
  destruct (py_iter pv) as [ids | e] eqn:Hi.
  2:{ cbn. eexists _, _, _. split; [reflexivity |]. cbn. tauto. }
  cbn.
  set (lines := order_lines (AppWithoutInst.products st) ids).
  quiet_step_by ltac:(apply without_inst_process_products).
  match goal with H : ?x = add_lines _ _ |- _ => subst x end.
  fold lines. cbn [add_lines fst snd app]. fold (order_total lines).
  match goal with
  | |- context [bind (AppWithoutInst.create_order_record _ _ _ _) _ _ ?e] =>
      pose (t := clock e);
      destruct (without_inst_record uid u (order_total lines) lines st e)
        as (st1 & en2 & E & Ho1 & Hu1 & Hp1)
  end.
  rewrite (bind_run _ _ _ _ _ _ _ E). clear E.
  set (o := pending_order (AppWithoutInst.orders st) uid u lines t).
  change (AppWithoutInst.orders st1 = AppWithoutInst.orders st ++ [o]) in Ho1.
  destruct (without_inst_payment (length (AppWithoutInst.orders st)) (order_total lines) st1 en2)
    as (s & st2 & en3 & E & Hs & Ho2 & Hu2 & Hp2).
  rewrite (bind_run _ _ _ _ _ _ _ E). clear E.
  destruct (without_inst_inventory lines st2 en3) as (st3 & en4 & E & Hp3 & Hu3 & Ho3).
  { rewrite Hp2, Hp1. apply order_lines_resolve. }
  rewrite (bind_run _ _ _ _ _ _ _ E). clear E.
  assert (Ho : AppWithoutInst.orders st3 = AppWithoutInst.orders st ++ [set_status s o]).
  { rewrite Ho3, Ho2, Ho1. apply alter_last. }
  unfold deref. rewrite ?bind_now, bind_bind, bind_get, Ho, lookup_app_r, Nat.sub_diag by lia. cbn.
  eexists _, _, _. split; [reflexivity |]. cbn.
  split; [rewrite Hu3, Hu2, Hu1; reflexivity |].
  exists s, t. fold o.
  split; [exact Hs |]. split; [reflexivity |].
  split; [rewrite Ho, alter_last; reflexivity |].
  rewrite Hp3, Hp2, Hp1. reflexivity.
Qed.

(** ** local-deployment/app/app-without-instrumentation.py *)

Lemma local_process_product st acc pid :
  yields st (LocalDeployment.process_product acc pid)
    (fun acc' => acc' = add_lines acc (option_list (line_of (LocalDeployment.products st) pid))).
Proof.
  intros en. unfold LocalDeployment.process_product, line_of. cbn.
  destruct (find (product_is pid) (LocalDeployment.products st)) as [p |]; cbn.
  - quiet_step. destruct (product_stock p <=? 0)%Z; cbn.
    + eexists _, _. split; [reflexivity |]. symmetry. apply add_lines_nil.
    + quiet_step. cbn. eexists _, _. split; reflexivity.
  - eexists _, _. split; [reflexivity |]. symmetry. apply add_lines_nil.
Qed.

Lemma local_process_products st ids : forall acc,
  yields st (for_fold ids acc LocalDeployment.process_product)
    (fun acc' => acc' = add_lines acc (order_lines (LocalDeployment.products st) ids)).
Proof.
  induction ids as [| pid ids IH]; intros acc; cbn [for_fold].
  - apply yields_ret. symmetry. apply add_lines_nil.
  - eapply yields_bind; [apply local_process_product |].
    intros acc' ->. eapply yields_weaken; [apply IH |].
    intros acc'' ->. rewrite add_lines_app, order_lines_cons. reflexivity.
Qed.

Lemma local_record uid u total lines st en :
  exists st' en',
    LocalDeployment.create_order_record uid u total lines st en =
      (Ok (length (LocalDeployment.orders st)), st', en') /\
    LocalDeployment.orders st' = LocalDeployment.orders st ++
      [{| order_id := Z.of_nat (length (LocalDeployment.orders st)) + 1;
          order_user_id := uid; order_user_name := user_name u;
          order_items := lines; order_total_amount := total;
          order_status := "pending"; order_created_at := clock en |}] /\
    LocalDeployment.users st' = LocalDeployment.users st /\
    LocalDeployment.products st' = LocalDeployment.products st.
Proof.
  unfold LocalDeployment.create_order_record. cbn. quiet_step. cbn.
  eexists _, _. split; [reflexivity |]. cbn. tauto.
Qed.

Lemma local_payment ref total st en :
  exists s st' en',
    LocalDeployment.process_payment ref total st en = (Ok tt, st', en') /\
    (s = "paid" \/ s = "payment_failed") /\
    LocalDeployment.orders st' = alter (set_status s) ref (LocalDeployment.orders st) /\
    LocalDeployment.users st' = LocalDeployment.users st /\
    LocalDeployment.products st' = LocalDeployment.products st.
Proof.
  unfold LocalDeployment.process_payment. cbn. quiet_step. cbn.
  destruct (Qle_bool _ _); cbn.
  - exists "payment_failed". eexists _, _. split; [reflexivity |]. cbn. tauto.
  - exists "paid". eexists _, _. split; [reflexivity |]. cbn. tauto.
Qed.

Lemma local_inventory_loop lines : forall st en,
  Forall (resolves (LocalDeployment.products st)) lines ->
  exists st' en',
    for_each lines (fun item =>
      st <- get ;;
      match next_index (product_is (item_product_id item)) (LocalDeployment.products st) with
      | None => raise StopIteration
      | Some product => modify (LocalDeployment.set_products (alter take_one product))
      end) st en = (Ok tt, st', en') /\
    LocalDeployment.products st' = fold_left take_stock lines (LocalDeployment.products st) /\
    LocalDeployment.users st' = LocalDeployment.users st /\
    LocalDeployment.orders st' = LocalDeployment.orders st.
Proof.
  induction lines as [| i lines IH]; intros st en Hres.
  - eexists _, _. split; [reflexivity |]. cbn. tauto.
  - inversion Hres as [| ? ? Hi Hrest]; subst.
    rewrite for_each_cons, bind_bind, bind_get. destruct Hi as [k Hk]. rewrite Hk, bind_modify.
    match goal with |- context [for_each lines _ ?s ?e] =>
      destruct (IH s e) as (st' & en' & E & Hp & Hu & Ho) end.
    { cbn. eapply Forall_impl; [exact Hrest |]. intros j Hj.
      pose proof (resolves_take_stock (LocalDeployment.products st) i j Hj) as R.
      unfold take_stock in R. rewrite Hk in R. exact R. }
    assert (T : take_stock (LocalDeployment.products st) i =
                alter take_one k (LocalDeployment.products st))
      by (unfold take_stock; rewrite Hk; reflexivity).
    rewrite E. eexists _, _. split; [reflexivity |].
    rewrite Hp, Hu, Ho. cbn [fold_left]. rewrite T. split; [reflexivity | split; reflexivity].
Qed.

Lemma local_inventory lines st en :
  Forall (resolves (LocalDeployment.products st)) lines ->
  exists st' en',
    LocalDeployment.update_inventory lines st en = (Ok tt, st', en') /\
    LocalDeployment.products st' = fold_left take_stock lines (LocalDeployment.products st) /\
    LocalDeployment.users st' = LocalDeployment.users st /\
    LocalDeployment.orders st' = LocalDeployment.orders st.
Proof.
  intros Hres. unfold LocalDeployment.update_inventory.
  destruct (local_inventory_loop lines st en Hres) as (st' & en' & E & Hp & Hu & Ho).
  rewrite (bind_run _ _ _ _ _ _ _ E). quiet_step. cbn.
  eexists _, _. split; [reflexivity |]. tauto.
Qed.

Arguments LocalDeployment.create_order_record : simpl never.
Arguments LocalDeployment.process_payment : simpl never.
Arguments LocalDeployment.update_inventory : simpl never.
Arguments LocalDeployment.process_product : simpl never.

Lemma local_create_order (b : body) st en :
  exists resp st' en',
    LocalDeployment.create_order b st en = (Ok resp, st', en') /\
    LocalDeployment.users st' = LocalDeployment.users st /\
    create_order_contract (LocalDeployment.users st) (LocalDeployment.orders st)
      (LocalDeployment.products st) b resp
      (LocalDeployment.orders st') (LocalDeployment.products st').
Proof.
  unfold LocalDeployment.create_order, try_except, create_order_contract.
  destruct b as [m |]; cbn [dict_get of_result].
  2:{ cbn. eexists _, _, _. split; [reflexivity |]. cbn. tauto. }
  destruct (m !! "user_id") as [uid |] eqn:Hu.
  2:{ rewrite invalid_order_data by (left; exact Hu). cbn.
      eexists _, _, _. split; [reflexivity |]. cbn. tauto. }
  destruct (m !! "product_ids") as [pv |] eqn:Hp.
  2:{ rewrite invalid_order_data by (right; exact Hp). cbn.
      eexists _, _, _. split; [reflexivity |]. cbn. tauto. }
  rewrite (valid_order_data m uid pv Hu Hp). cbn. quiet_step. cbn. rewrite Hu. cbn.
  destruct (find (user_is uid) (LocalDeployment.users st)) as [u |] eqn:Hf.
  2:{ cbn. eexists _, _, _. split; [reflexivity |]. cbn. tauto. }
  rewrite Hp. cbn.
  destruct (py_iter pv) as [ids | e] eqn:Hi.
  2:{ cbn. eexists _, _, _. split; [reflexivity |]. cbn. tauto. }
  cbn.
  set (lines := order_lines (LocalDeployment.products st) ids).
  quiet_step_by ltac:(apply local_process_products).
  match goal with H : ?x = add_lines _ _ |- _ => subst x end.
  fold lines. cbn [add_lines fst snd app]. fold (order_total lines).
  match goal with
  | |- context [bind (LocalDeployment.create_order_record _ _ _ _) _ _ ?e] =>
      pose (t := clock e);
      destruct (local_record uid u (order_total lines) lines st e)
        as (st1 & en2 & E & Ho1 & Hu1 & Hp1)
  end.
  rewrite (bind_run _ _ _ _ _ _ _ E). clear E.
  set (o := pending_order (LocalDeployment.orders st) uid u lines t).
  change (LocalDeployment.orders st1 = LocalDeployment.orders st ++ [o]) in Ho1.
  destruct (local_payment (length (LocalDeployment.orders st)) (order_total lines) st1 en2)
    as (s & st2 & en3 & E & Hs & Ho2 & Hu2 & Hp2).
  rewrite (bind_run _ _ _ _ _ _ _ E). clear E.
  destruct (local_inventory lines st2 en3) as (st3 & en4 & E & Hp3 & Hu3 & Ho3).
  { rewrite Hp2, Hp1. apply order_lines_resolve. }
  rewrite (bind_run _ _ _ _ _ _ _ E). clear E.
  assert (Ho : LocalDeployment.orders st3 = LocalDeployment.orders st ++ [set_status s o]).
  { rewrite Ho3, Ho2, Ho1. apply alter_last. }
  unfold deref. rewrite ?bind_now, bind_bind, bind_get, Ho, lookup_app_r, Nat.sub_diag by lia. cbn.
  eexists _, _, _. split; [reflexivity |]. cbn.
  split; [rewrite Hu3, Hu2, Hu1; reflexivity |].
  exists s, t. fold o.
  split; [exact Hs |]. split; [reflexivity |].
  split; [rewrite Ho, alter_last; reflexivity |].
  rewrite Hp3, Hp2, Hp1. reflexivity.
Qed.
(** ** app-demo/app.py *)






(** ** The claim on user creation *)



(** ** Stock taken by an order *)

Lemma product_is_id pid p : product_is (VInt pid) p = bool_decide (product_id p = pid).
Proof.
  unfold product_is, py_eq. apply bool_decide_ext. split; [intros [= ->] | intros ->]; reflexivity.
Qed.








(** ** The claims on order creation *)

Lemma find_user_some (us : list user) uid u :
  find (user_is uid) us = Some u -> u ∈ us /\ VInt (user_id u) = uid.
Proof.
  intros H. apply find_some in H as [Hin He]. split.
  - apply list_elem_of_In, Hin.
  - unfold user_is, py_eq in He. apply bool_decide_eq_true in He. exact He.
Qed.

Lemma find_user_none (us : list user) uid :
  find (user_is uid) us = None -> no_such_user us uid.
Proof.
  intros H u Hu He. apply list_elem_of_In in Hu.
  pose proof (find_none _ _ H u Hu) as Hf.
  unfold user_is, py_eq in Hf. apply bool_decide_eq_false in Hf. contradiction.
Qed.

Lemma line_of_some ps v i :
  line_of ps v = Some i ->
  item_product_id i = v /\
  exists p, find (product_is v) ps = Some p /\ (0 < product_stock p)%Z.
Proof.
  unfold line_of. destruct (find _ ps) as [p |]; [| discriminate].
  destruct (product_stock p <=? 0)%Z eqn:Hs; [discriminate |].
  intros [= <-]. split; [reflexivity |]. exists p. split; [reflexivity |].
  apply Z.leb_gt in Hs. exact Hs.
Qed.

Lemma order_lines_omit ps pids pid :
  pid ∈ pids ->
  (unavailable ps pid <->
   forall i, i ∈ order_lines ps (map VInt pids) -> item_product_id i <> VInt pid).
Proof.
  intros Hin. unfold unavailable, order_lines. split.
  - intros Hun i Hi Hid. apply list_elem_of_omap in Hi as (v & _ & Hl).
    apply line_of_some in Hl as (Hv & p & Hf & Hs). rewrite Hid in Hv. subst v.
    rewrite Hf in Hun. lia.
  - intros Hno. destruct (find (product_is (VInt pid)) ps) as [p |] eqn:Hf; [| exact I].
    destruct (Z.leb_spec (product_stock p) 0) as [Hle | Hgt]; [exact Hle | exfalso].
    apply (Hno {| item_product_id := VInt pid; item_name := product_name p;
                  item_price := product_price p |}); [| reflexivity].
    apply list_elem_of_omap. exists (VInt pid). split.
    + apply list_elem_of_fmap. exists pid. split; [reflexivity | exact Hin].
    + unfold line_of. rewrite Hf.
      destruct (Z.leb_spec (product_stock p) 0); [lia | reflexivity].
Qed.

Lemma order_answer_of_contract us os ps (m : gmap string value) uid pids resp os' ps' :
  m !! "user_id" = Some uid -> m !! "product_ids" = Some (VList pids) ->
  create_order_contract us os ps (Some m) resp os' ps' ->
  order_answer us os ps uid pids resp os'.
Proof.
  intros Hu Hp C. unfold create_order_contract in C. rewrite Hu, Hp in C.
  cbn [py_iter] in C.
  destruct (find (user_is uid) us) as [u |] eqn:Hf.
  - destruct C as (s & t & _ & Hr & Ho & _). split.
    + intros Hno. exfalso. apply find_user_some in Hf as [Hin Hid]. exact (Hno u Hin Hid).
    + intros _. subst resp. split; [reflexivity |].
      rewrite alter_last in Ho. eexists. split; [exact Ho |]. split; [reflexivity |].
      split; [reflexivity |]. intros pid Hin. apply order_lines_omit, Hin.
  - destruct C as (Hs & Ho & _). split.
    + intros _. split; assumption.
    + intros (u & Hin & Hid). exfalso. exact (find_user_none us uid Hf u Hin Hid).
Qed.

(** C3: a POST on /api/orders with a well-formed body (a [user_id] and a list
    [product_ids]) is answered 404 and appends no order when no user of the list
    has the given id; otherwise the order is created and returned with 201, and
    its line items are those of the referenced products that exist with a
    positive stock: a referenced product is left out of the line items exactly
    when it does not exist or its stock is not positive. *)
Theorem create_order_rejects_and_skips (m : gmap string value) (uid : value)
    (pids : list Z) (st : AppWithoutInst.store) (st_local : LocalDeployment.store)
    (en : env) :
  m !! "user_id" = Some uid -> m !! "product_ids" = Some (VList pids) ->
  (exists resp st' en',
     AppWithoutInst.create_order (Some m) st en = (Ok resp, st', en') /\
     order_answer (AppWithoutInst.users st) (AppWithoutInst.orders st)
       (AppWithoutInst.products st) uid pids resp (AppWithoutInst.orders st')) /\
  (exists resp st' en',
     LocalDeployment.create_order (Some m) st_local en = (Ok resp, st', en') /\
     order_answer (LocalDeployment.users st_local) (LocalDeployment.orders st_local)
       (LocalDeployment.products st_local) uid pids resp (LocalDeployment.orders st')).
Proof.
  intros Hu Hp. split.
  - destruct (without_inst_create_order (Some m) st en) as (resp & st' & en' & E & _ & C).
    exists resp, st', en'. split; [exact E |].
    exact (order_answer_of_contract _ _ _ m uid pids resp _ _ Hu Hp C).
  - destruct (local_create_order (Some m) st_local en) as (resp & st' & en' & E & _ & C).
    exists resp, st', en'. split; [exact E |].
    exact (order_answer_of_contract _ _ _ m uid pids resp _ _ Hu Hp C).
Qed.

(** ** Stock and status after an order *)






(** Proves [yields st view (fun _ => True)] for a view that only reads. *)
Ltac quiet_view :=
  repeat first
    [ apply yields_log
    | apply yields_add_event
    | apply yields_now
    | apply yields_ret; exact I
    | eapply yields_weaken; [solve_yields | intros ? _; exact I]
    | eapply yields_weaken; [apply yields_get | intros ? _; exact I]
    | eapply yields_weaken; [apply yields_random | intros ? _; exact I]
    | eapply (yields_bind _ _ _ (fun _ => True)); [| intros ? _]
    | match goal with |- context [if ?c then _ else _] => destruct c end ].

Lemma without_inst_get_users st : yields st AppWithoutInst.get_users (fun _ => True).
Proof. unfold AppWithoutInst.get_users. quiet_view. Qed.

Lemma without_inst_health st : yields st AppWithoutInst.health_check (fun _ => True).
Proof. unfold AppWithoutInst.health_check. quiet_view. Qed.

Lemma local_get_users st : yields st LocalDeployment.get_users (fun _ => True).
Proof. unfold LocalDeployment.get_users. quiet_view. Qed.

Lemma local_health st : yields st LocalDeployment.health_check (fun _ => True).
Proof. unfold LocalDeployment.health_check. quiet_view. Qed.

Arguments AppWithoutInst.get_users : simpl never.
Arguments AppWithoutInst.create_user : simpl never.
Arguments AppWithoutInst.create_order : simpl never.
Arguments AppWithoutInst.health_check : simpl never.



Arguments LocalDeployment.get_users : simpl never.
Arguments LocalDeployment.create_user : simpl never.
Arguments LocalDeployment.create_order : simpl never.
Arguments LocalDeployment.health_check : simpl never.




(* ===================================================================== *)
(** * src/app.py: the load, error and task endpoints                      *)
(* ===================================================================== *)

Lemma try_except_run {St A} (m : M St A) h st en a st' en' :
  m st en = (Ok a, st', en') -> try_except m h st en = (Ok a, st', en').
Proof. intros E. unfold try_except. rewrite E. reflexivity. Qed.

Lemma try_except_fail {St A} (m : M St A) h st en e st' en' :
  m st en = (Raise e, st', en') -> try_except m h st en = h e st' en'.
Proof. intros E. unfold try_except. rewrite E. reflexivity. Qed.

Lemma bind_log {St B} lvl msg (k : unit -> M St B) (st : St) en :
  bind (log lvl msg) k st en =
    k tt st {| clock := clock en; entropy := entropy en; cursor := cursor en;
               trace := trace en ++ [Logged lvl msg] |}.
Proof. reflexivity. Qed.

(** A view that answers [resp] is answered to the client with the same body
    and status. *)
Lemma dispatch_answer req view st en resp st' en' :
  view st {| clock := clock en; entropy := entropy en; cursor := cursor en;
             trace := trace en ++
               [Logged INFO [Lit "Request: "; Lit (App.method req); Lit " ";
                             Lit (App.path req); Lit " from "; Lit (App.remote_addr req)]] |}
    = (Ok (Some resp), st', en') ->
  exists final en'',
    App.full_dispatch_request req view st en = (Ok final, st', en'') /\
    resp_body final = resp_body resp /\ status final = status resp /\
    clock en'' = clock en' /\
    exists line, trace en'' = trace en' ++ [Logged INFO line].
Proof.
  intros E. unfold App.full_dispatch_request.
  rewrite bind_now, bind_log. unfold bind at 1.
  unfold try_except. rewrite (bind_run _ _ _ _ _ _ _ E). cbn.
  eexists _, _. split; [reflexivity |]. cbn. repeat split. eexists. reflexivity.
Qed.

(** A view that raises anything but [NotFound] is answered by
    [handle_exception]. *)
Lemma dispatch_exception req view st en e st' en' :
  view st {| clock := clock en; entropy := entropy en; cursor := cursor en;
             trace := trace en ++
               [Logged INFO [Lit "Request: "; Lit (App.method req); Lit " ";
                             Lit (App.path req); Lit " from "; Lit (App.remote_addr req)]] |}
    = (Raise e, st', en') ->
  e <> NotFound ->
  exists final en'',
    App.full_dispatch_request req view st en = (Ok final, st', en'') /\
    status final = 500%Z /\
    resp_body final =
      JObj [("error", JStr "Application error"); ("type", JStr (exn_name e));
            ("message", JStr (exn_str e)); ("timestamp", JTime (clock en'))].
Proof.
  intros E Hne. unfold App.full_dispatch_request.
  rewrite bind_now, bind_log. unfold bind at 1.
  unfold try_except. rewrite (bind_fail _ _ _ _ _ _ _ E).
  destruct e; try contradiction; cbn; eexists _, _; (split; [reflexivity |]);
    split; reflexivity.
Qed.

(** A view that falls off its end is answered by [handle_exception] too. *)
Lemma dispatch_none req view st en st' en' :
  view st {| clock := clock en; entropy := entropy en; cursor := cursor en;
             trace := trace en ++
               [Logged INFO [Lit "Request: "; Lit (App.method req); Lit " ";
                             Lit (App.path req); Lit " from "; Lit (App.remote_addr req)]] |}
    = (Ok None, st', en') ->
  exists final en'',
    App.full_dispatch_request req view st en = (Ok final, st', en'') /\
    status final = 500%Z /\ field "error_type" (resp_body final) = None.
Proof.
  intros E. unfold App.full_dispatch_request.
  rewrite bind_now, bind_log. unfold bind at 1.
  unfold try_except. rewrite (bind_run _ _ _ _ _ _ _ E). cbn.
  eexists _, _. split; [reflexivity |]. split; reflexivity.
Qed.

Arguments App.full_dispatch_request : simpl never.

(** ** /health everywhere *)

(** C8: every GET on a health endpoint (the six applications each have one) is
    answered 200 with a body whose [status] is [healthy] and which has a
    [timestamp]. *)
Theorem health_endpoints_report_healthy :
  (forall args addr st en, exists view resp en',
     App.handle {| App.method := "GET"; App.path := "/health"; App.args := args;
                   App.remote_addr := addr |} = Some view /\
     view st en = (Ok resp, st, en') /\ reports_healthy resp) /\
  (forall st en, exists resp en',
     serve AppDemo.health st en = (Ok resp, st, en') /\ reports_healthy resp) /\
  (forall st en, exists resp en',
     LocalDeployment.health_check st en = (Ok resp, st, en') /\ reports_healthy resp) /\
  (forall st en, exists resp en',
     AppWithoutInst.health_check st en = (Ok resp, st, en') /\ reports_healthy resp) /\
  (forall (st : unit) en, exists resp en',
     AppWithInstrumentation.health st en = (Ok resp, st, en') /\ reports_healthy resp) /\
  (forall st en, exists view resp en',
     GkeApp.do_GET "/health" = Some view /\
     view st en = (Ok resp, st, en') /\ reports_healthy resp).
Proof.
  split; [| split; [| split; [| split; [| split]]]].
  - intros args addr st en. cbn [App.handle App.url_match].
    eexists. cbn.
    edestruct (dispatch_answer) as (final & en'' & E & Hb & Hs & _);
      [| eexists final, en''; split; [reflexivity |]; split; [exact E |]].
    + reflexivity.
    + unfold reports_healthy. rewrite Hb, Hs. cbn.
      split; [reflexivity |]. split; [reflexivity |]. eexists. reflexivity.
  - intros st en. eexists _, _. split; [reflexivity |].
    split; [reflexivity |]. split; [reflexivity |]. eexists. reflexivity.
  - intros st en. unfold LocalDeployment.health_check.
    quiet_step. cbn. quiet_step. cbn. eexists _, _. split; [reflexivity |].
    split; [reflexivity |]. split; [reflexivity |]. eexists. reflexivity.
  - intros st en. unfold AppWithoutInst.health_check. cbn.
    quiet_step. cbn. quiet_step. cbn. eexists _, _. split; [reflexivity |].
    split; [reflexivity |]. split; [reflexivity |]. eexists. reflexivity.
  - intros st en. unfold AppWithInstrumentation.health.
    quiet_step. cbn. quiet_step. cbn. eexists _, _. split; [reflexivity |].
    split; [reflexivity |]. split; [reflexivity |]. eexists. reflexivity.
  - intros st en. eexists _, _, _. split; [reflexivity |]. split; [reflexivity |].
    split; [reflexivity |]. split; [reflexivity |]. eexists. reflexivity.
Qed.

(** ** /cpu-intensive *)

Lemma range_succ (k : nat) : range (Z.of_nat (S k)) = range (Z.of_nat k) ++ [Z.of_nat k].
Proof.
  unfold range. rewrite !Nat2Z.id, seq_S, map_app. reflexivity.
Qed.

Lemma sum_range (k : nat) :
  (6 * fold_left (fun acc i => acc + i ^ 2) (range (Z.of_nat k)) 0 =
   Z.of_nat k * (Z.of_nat k - 1) * (2 * Z.of_nat k - 1))%Z.
Proof.
  induction k as [| k IH].
  - reflexivity.
  - rewrite range_succ, fold_left_app. cbn [fold_left].
    rewrite Z.mul_add_distr_l, IH. nia.
Qed.

Lemma sum_squares_below (n : Z) :
  (0 <= n)%Z ->
  fold_left (fun acc i => acc + i ^ 2)%Z (range n) 0%Z = squares_below n.
Proof.
  intros Hn. unfold squares_below. pose proof (sum_range (Z.to_nat n)) as H.
  rewrite Z2Nat.id in H by exact Hn. rewrite <- H.
  rewrite Z.mul_comm, Z.div_mul by discriminate. reflexivity.
Qed.

Lemma cpu_loop_yields st (l : list Z) : forall acc,
  yields st
    (for_fold l acc (fun result i =>
       let result := (result + i ^ 2)%Z in
       (if (i mod 10000 =? 0)%Z then sleep 0.001 else ret tt) ;;
       ret result))
    (fun r => r = fold_left (fun acc i => acc + i ^ 2)%Z l acc) (St := App.store).
Proof.
  induction l as [| i l IH]; intros acc; cbn [for_fold fold_left].
  - apply yields_ret. reflexivity.
  - apply yields_bind with (P := fun a => a = (acc + i ^ 2)%Z); [| intros a ->; apply IH].
    eapply (yields_bind _ _ _ (fun _ => True)); [| intros ? _; apply yields_ret; reflexivity].
    destruct (i mod 10000 =? 0)%Z; [apply yields_sleep; discriminate | apply yields_ret; exact I].
Qed.

Lemma cpu_intensive_run req n st en :
  App.int_arg req "iterations" 100000 = Ok n ->
  exists resp en',
    App.cpu_intensive req st en = (Ok (Some resp), st, en') /\
    status resp = 200%Z /\
    field "result" (resp_body resp) =
      Some (JInt (fold_left (fun acc i => acc + i ^ 2)%Z (range n) 0%Z)) /\
    field "iterations" (resp_body resp) = Some (JInt n).
Proof.
  intros Hn. unfold App.cpu_intensive. rewrite bind_now, Hn. cbn [of_result].
  unfold bind at 1. cbn [ret]. rewrite bind_log.
  quiet_step_by ltac:(apply cpu_loop_yields). subst. cbn.
  eexists _, _. split; [reflexivity |]. cbn. repeat split.
Qed.

(** C9: a GET on /cpu-intensive with [iterations = n >= 0] is answered with a
    [result] equal to the sum of the squares of [0 .. n-1], that is
    [n (n-1) (2n-1) / 6], and with [iterations] equal to [n]. *)
Theorem cpu_intensive_sums_squares (req : App.request) (n : Z) (st : App.store) (en : env) :
  App.method req = "GET" -> App.path req = "/cpu-intensive" ->
  App.int_arg req "iterations" 100000 = Ok n -> (0 <= n)%Z ->
  exists view resp st' en',
    App.handle req = Some view /\ view st en = (Ok resp, st', en') /\
    status resp = 200%Z /\
    field "result" (resp_body resp) =
      Some (JInt (fold_left (fun acc i => acc + i ^ 2)%Z (range n) 0%Z)) /\
    field "result" (resp_body resp) = Some (JInt (squares_below n)) /\
    field "iterations" (resp_body resp) = Some (JInt n).
Proof.
  intros Hm Hp Hi Hn. unfold App.handle, App.url_match. rewrite Hp, Hm. cbn.
  eexists.
  destruct (cpu_intensive_run req n st
              {| clock := clock en; entropy := entropy en; cursor := cursor en;
                 trace := trace en ++
                   [Logged INFO [Lit "Request: "; Lit (App.method req); Lit " ";
                                 Lit (App.path req); Lit " from ";
                                 Lit (App.remote_addr req)]] |} Hi)
    as (resp & en1 & E & Hs & Hr & Hit).
  destruct (dispatch_answer req _ st en resp st en1 E) as (final & en2 & E2 & Hb & Hs2 & _).
  exists final, st, en2. split; [reflexivity |]. split; [exact E2 |].
  rewrite Hb, Hs2. split; [exact Hs |]. split; [exact Hr |].
  split; [rewrite Hr, (sum_squares_below n Hn); reflexivity | exact Hit].
Qed.

(** ** /error-test *)

(** C1, as stated, fails in the mode [exception]: the answer is a 500 whose
    body has no field [error_type]. *)
Lemma error_test_exception_has_no_error_type :
  exists view resp st' en',
    App.handle (error_request "exception") = Some view /\
    view App.initial quiet_env = (Ok resp, st', en') /\
    status resp = 500%Z /\
    field "error_type" (resp_body resp) = None.
Proof.
  eexists _, _, _, _. split; [reflexivity |].
  split; [vm_compute; reflexivity |]. split; reflexivity.
Qed.

Lemma select_all_missing table st en :
  table ∉ App.tables st ->
  App.select_all table st en = (Raise (OperationalError ("no such table: " ++ table)), st, en).
Proof.
  intros H. unfold App.select_all. rewrite bind_get.
  rewrite bool_decide_eq_false_2 by exact H. reflexivity.
Qed.

Lemma dispatch_total req view st en :
  exists resp st' en', App.full_dispatch_request req view st en = (Ok resp, st', en').
Proof.
  unfold App.full_dispatch_request. rewrite bind_now, bind_log. unfold bind at 1.
  unfold try_except.
  match goal with |- context [bind view ?k ?s ?e] =>
    destruct (bind view k s e) as [[[resp | e'] st'] en'] end.
  - cbn. eexists _, _, _. reflexivity.
  - destruct e'; cbn; eexists _, _, _; reflexivity.
Qed.

(** C1 (amended): a GET on /error-test in one of the modes [http_error],
    [exception], [db_error] is answered 500.  In the modes [http_error] and
    [db_error] the body has a field [error_type], equal to [http_error] and to
    [database_error]; in the mode [exception] the body has no such field: it is
    the body of the generic handler, whose field [type] names the exception. *)
Theorem error_test_modes (req : App.request) (st : App.store) (en : env) :
  App.method req = "GET" -> App.path req = "/error-test" ->
  "non_existent_table" ∉ App.tables st ->
  exists view resp st' en',
    App.handle req = Some view /\ view st en = (Ok resp, st', en') /\
    (App.args req !! "type" = Some "http_error" ->
       status resp = 500%Z /\
       field "error_type" (resp_body resp) = Some (JStr "http_error")) /\
    (App.args req !! "type" = Some "db_error" ->
       status resp = 500%Z /\
       field "error_type" (resp_body resp) = Some (JStr "database_error")) /\
    (App.args req !! "type" = Some "exception" ->
       status resp = 500%Z /\
       field "error_type" (resp_body resp) = None /\
       field "type" (resp_body resp) = Some (JStr "ValueError")).
Proof.
  intros Hm Hp Ht. unfold App.handle, App.url_match. rewrite Hp, Hm. cbn.
  eexists.
  destruct (dispatch_total req (App.error_test req) st en) as (resp & st' & en' & T).
  exists resp, st', en'. split; [reflexivity |]. split; [exact T |].
  set (en0 := {| clock := clock en; entropy := entropy en; cursor := cursor en;
                 trace := trace en ++
                   [Logged INFO [Lit "Request: "; Lit (App.method req); Lit " ";
                                 Lit (App.path req); Lit " from ";
                                 Lit (App.remote_addr req)]] |}).
  split; [| split].
  - intros Hty.
    edestruct (dispatch_answer req (App.error_test req) st en) as (final & en2 & E2 & Hb & Hs & _).
    { unfold App.error_test. rewrite Hty. cbn. reflexivity. }
    rewrite E2 in T. injection T as <- _ _. rewrite Hb, Hs. split; reflexivity.
  - intros Hty.
    edestruct (dispatch_answer req (App.error_test req) st en) as (final & en2 & E2 & Hb & Hs & _).
    { unfold App.error_test. rewrite Hty.
      change (default "http_error" (Some "db_error")) with "db_error".
      rewrite bind_log.
      change (String.eqb "db_error" "http_error") with false.
      change (String.eqb "db_error" "exception") with false.
      change (String.eqb "db_error" "db_error") with true.
      cbv iota. unfold try_except. cbv beta.
      erewrite bind_fail by (apply select_all_missing, Ht). reflexivity. }
    rewrite E2 in T. injection T as <- _ _. rewrite Hb, Hs. split; reflexivity.
  - intros Hty.
    edestruct (dispatch_exception req (App.error_test req) st en) as (final & en2 & E2 & Hs & Hb).
    { unfold App.error_test. rewrite Hty. cbn. reflexivity. }
    { discriminate. }
    rewrite E2 in T. injection T as <- _ _. rewrite Hb, Hs. repeat split.
Qed.

(** ** /async-task *)







(* ===================================================================== *)
(** * The claims on the delay simulator and on parallel callers           *)
(* ===================================================================== *)




(** ** Parallel callers of create_user *)

(** Two stretches of one caller, run back to back, are [create_user]. *)
Lemma without_inst_advance_twice b st en :
  (c <- AppWithoutInst.advance (AppWithoutInst.Arrived b) ;; AppWithoutInst.advance c) st en =
  (r <- AppWithoutInst.create_user b ;; ret (AppWithoutInst.Answered r)) st en.
Proof.
  unfold AppWithoutInst.create_user, AppWithoutInst.advance at 1, try_except, bind.
  destruct (AppWithoutInst.create_user_prepare b st en) as [[[[early | u] | e] st1] en1]; cbn.
  - reflexivity.
  - unfold try_except, bind.
    destruct (AppWithoutInst.create_user_save u st1 en1) as [[[r | e] st2] en2]; reflexivity.
  - reflexivity.
Qed.

Lemma local_advance_twice b st en :
  (c <- LocalDeployment.advance (LocalDeployment.Arrived b) ;; LocalDeployment.advance c) st en =
  (r <- LocalDeployment.create_user b ;; ret (LocalDeployment.Answered r)) st en.
Proof.
  unfold LocalDeployment.create_user, LocalDeployment.advance at 1, try_except, bind.
  destruct (LocalDeployment.create_user_prepare b st en) as [[[[early | u] | e] st1] en1]; cbn.
  - reflexivity.
  - unfold try_except, bind.
    destruct (LocalDeployment.create_user_save u st1 en1) as [[[r | e] st2] en2]; reflexivity.
  - reflexivity.
Qed.

(** Served one after the other, the hundred callers get the ids 1 to 100. *)

Lemma replicate_not_nodup (n : nat) (z : Z) : ~ NoDup (replicate (S (S n)) z).
Proof.
  cbn. intros H. apply NoDup_cons in H as [H _]. apply H. left.
Qed.

(** C4 fails on the code.  A hundred callers post distinct emails; each one
    builds its user from [len(users)] before any of them has appended.  All are
    answered 201 and the list holds a hundred new users (no write is lost),
    every one with the id 1. *)
Theorem parallel_callers_share_an_id :
  (let run := run_schedule AppWithoutInst.advance all_then_all
                (map AppWithoutInst.Arrived hundred_bodies) AppWithoutInst.initial quiet_env in
   all_created without_inst_created run = true /\
   without_inst_ids run = replicate 100 1%Z /\
   ~ NoDup (without_inst_ids run)) /\
  (let run := run_schedule LocalDeployment.advance all_then_all
                (map LocalDeployment.Arrived hundred_bodies) LocalDeployment.initial quiet_env in
   all_created local_created run = true /\
   local_ids run = replicate 100 1%Z /\
   ~ NoDup (local_ids run)).
Proof.
  assert (E : forall l : list Z, l = replicate 100 1%Z -> l = replicate 100 1%Z /\ ~ NoDup l).
  { intros l ->. split; [reflexivity | apply replicate_not_nodup]. }
  split; cbv zeta; (split; [vm_compute; reflexivity | apply E; vm_compute; reflexivity]).
Qed.

(** Served one after the other, the same callers get the ids 1 to 100. *)
Lemma callers_one_by_one_get_distinct_ids :
  without_inst_ids
    (run_schedule AppWithoutInst.advance one_by_one (map AppWithoutInst.Arrived hundred_bodies)
       AppWithoutInst.initial quiet_env) = map Z.of_nat (seq 1 100) /\
  local_ids
    (run_schedule LocalDeployment.advance one_by_one (map LocalDeployment.Arrived hundred_bodies)
       LocalDeployment.initial quiet_env) = map Z.of_nat (seq 1 100).
Proof. split; vm_compute; reflexivity. Qed.

(* ===================================================================== *)
(** * The theorems at concrete requests                                   *)
(* ===================================================================== *)

Lemma create_order_rejects_and_skips_witness :
  laptop_order !! "user_id" = Some (VInt 1) /\
  laptop_order !! "product_ids" = Some (VList [1; 7]%Z) /\
  (exists resp st' en',
     AppWithoutInst.create_order (Some laptop_order) without_inst_ann quiet_env =
       (Ok resp, st', en') /\
     order_answer (AppWithoutInst.users without_inst_ann)
       (AppWithoutInst.orders without_inst_ann) (AppWithoutInst.products without_inst_ann)
       (VInt 1) [1; 7]%Z resp (AppWithoutInst.orders st')) /\
  (exists resp st' en',
     LocalDeployment.create_order (Some laptop_order) local_ann quiet_env =
       (Ok resp, st', en') /\
     order_answer (LocalDeployment.users local_ann)
       (LocalDeployment.orders local_ann) (LocalDeployment.products local_ann)
       (VInt 1) [1; 7]%Z resp (LocalDeployment.orders st')).
Proof.
  split; [reflexivity |]. split; [reflexivity |].
  apply (create_order_rejects_and_skips laptop_order (VInt 1) [1; 7]%Z
           without_inst_ann local_ann quiet_env); reflexivity.
Defined.



(** With the unlucky generator the payment of the laptop order fails and the
    laptop is taken from the stock all the same. *)
Example failed_payment_takes_stock :
  let '(r, st', _) :=
    AppWithoutInst.create_order (Some laptop_order) without_inst_ann unlucky_env in
  (exists resp, r = Ok resp /\ status resp = 201%Z /\
     field "status" (resp_body resp) = Some (JStr "payment_failed")) /\
  map order_status (AppWithoutInst.orders st') = ["payment_failed"] /\
  map product_stock (AppWithoutInst.products st') = [9; 25; 15; 50]%Z.
Proof.
  vm_compute. split; [eexists; split; [reflexivity | split; reflexivity] |].
  split; reflexivity.
Qed.


(** A run of requests on a fresh application: one user, two orders. *)
Example a_day_of_orders :
  let '(_, st', _) :=
    AppWithoutInst.answer_all
      [AppWithoutInst.PostUser (Some ann); AppWithoutInst.PostOrder (Some laptop_order);
       AppWithoutInst.GetHealth; AppWithoutInst.PostOrder (Some laptop_order);
       AppWithoutInst.PostOrder None; AppWithoutInst.GetUsers]
      AppWithoutInst.initial unlucky_env in
  map order_status (AppWithoutInst.orders st') = ["payment_failed"; "payment_failed"] /\
  map product_stock (AppWithoutInst.products st') = [8; 25; 15; 50]%Z.
Proof. vm_compute. split; reflexivity. Qed.

Lemma cpu_intensive_sums_squares_witness :
  App.method five_iterations = "GET" /\ App.path five_iterations = "/cpu-intensive" /\
  App.int_arg five_iterations "iterations" 100000 = Ok 5%Z /\ (0 <= 5)%Z /\
  exists view resp st' en',
    App.handle five_iterations = Some view /\
    view App.initial quiet_env = (Ok resp, st', en') /\
    status resp = 200%Z /\
    field "result" (resp_body resp) =
      Some (JInt (fold_left (fun acc i => acc + i ^ 2)%Z (range 5) 0%Z)) /\
    field "result" (resp_body resp) = Some (JInt (squares_below 5)) /\
    field "iterations" (resp_body resp) = Some (JInt 5).
Proof.
  assert (H : (0 <= 5)%Z) by discriminate.
  split; [reflexivity |]. split; [reflexivity |]. split; [reflexivity |].
  split; [exact H |].
  exact (cpu_intensive_sums_squares five_iterations 5 App.initial quiet_env
           eq_refl eq_refl eq_refl H).
Defined.

Example five_iterations_give_thirty :
  exists view resp st' en',
    App.handle five_iterations = Some view /\
    view App.initial quiet_env = (Ok resp, st', en') /\
    field "result" (resp_body resp) = Some (JInt 30).
Proof.
  eexists _, _, _, _. split; [reflexivity |]. split; [vm_compute; reflexivity | reflexivity].
Qed.

Lemma fresh_db_has_no_such_table : "non_existent_table" ∉ App.tables App.initial.
Proof. apply (bool_decide_unpack _). reflexivity. Defined.

Lemma error_test_modes_witness :
  App.method (error_request "db_error") = "GET" /\
  App.path (error_request "db_error") = "/error-test" /\
  ("non_existent_table" ∉ App.tables App.initial) /\
  exists view resp st' en',
    App.handle (error_request "db_error") = Some view /\
    view App.initial quiet_env = (Ok resp, st', en') /\
    (App.args (error_request "db_error") !! "type" = Some "http_error" ->
       status resp = 500%Z /\
       field "error_type" (resp_body resp) = Some (JStr "http_error")) /\
    (App.args (error_request "db_error") !! "type" = Some "db_error" ->
       status resp = 500%Z /\
       field "error_type" (resp_body resp) = Some (JStr "database_error")) /\
    (App.args (error_request "db_error") !! "type" = Some "exception" ->
       status resp = 500%Z /\
       field "error_type" (resp_body resp) = None /\
       field "type" (resp_body resp) = Some (JStr "ValueError")).
Proof.
  split; [reflexivity |]. split; [reflexivity |]. split; [exact fresh_db_has_no_such_table |].
  exact (error_test_modes (error_request "db_error") App.initial quiet_env
           eq_refl eq_refl fresh_db_has_no_such_table).
Defined.

(** The three modes on a fresh application. *)
Example error_test_three_modes :
  let answer mode :=
    match App.handle (error_request mode) with
    | Some view =>
        match fst (fst (view App.initial quiet_env)) with
        | Ok resp => Some (status resp, field "error_type" (resp_body resp),
                           field "type" (resp_body resp))
        | Raise _ => None
        end
    | None => None
    end in
  answer "http_error" = Some (500%Z, Some (JStr "http_error"), None) /\
  answer "db_error" = Some (500%Z, Some (JStr "database_error"), None) /\
  answer "exception" = Some (500%Z, None, Some (JStr "ValueError")).
Proof. vm_compute. repeat split. Qed.



(** ** Overlapping callers of create_order *)

Lemma same_refl {St A} (m : M St A) : same m m.
Proof. intros st en. reflexivity. Qed.

Lemma same_sym {St A} (m m' : M St A) : same m m' -> same m' m.
Proof. intros H st en. symmetry. apply H. Qed.

Lemma same_trans {St A} (m1 m2 m3 : M St A) : same m1 m2 -> same m2 m3 -> same m1 m3.
Proof. intros H1 H2 st en. rewrite H1. apply H2. Qed.

Lemma same_bind {St A B} (m m' : M St A) (k k' : A -> M St B) :
  same m m' -> (forall a, same (k a) (k' a)) -> same (bind m k) (bind m' k').
Proof.
  intros Hm Hk st en. unfold bind. rewrite Hm.
  destruct (m' st en) as [[[a | e] st'] en']; [apply Hk | reflexivity].
Qed.

Lemma same_bind_assoc {St A B C} (m : M St A) (f : A -> M St B) (g : B -> M St C) :
  same (bind (bind m f) g) (bind m (fun a => bind (f a) g)).
Proof. intros st en. apply bind_bind. Qed.

Lemma same_try_except {St A} (m m' : M St A) h :
  same m m' -> same (try_except m h) (try_except m' h).
Proof. intros H st en. unfold try_except. rewrite H. reflexivity. Qed.

(** Moves the continuation of a view behind the point where it was cut. *)
Ltac cut_view :=
  repeat first
    [ solve [intros ? ?; reflexivity]
    | match goal with |- same (if ?c then _ else _) _ => destruct c end
    | match goal with |- same (match ?x with _ => _ end) _ => destruct x end
    | eapply same_trans; [| apply same_sym, same_bind_assoc];
      apply same_bind; [apply same_refl | intros ?] ].

(** Run back to back, the two stretches of a caller are the view. *)
Lemma without_inst_place_then_settle b :
  same (AppWithoutInst.create_order b)
    (try_except
       (r <- AppWithoutInst.create_order_place b ;;
        match r with
        | inl early => ret early
        | inr p => AppWithoutInst.create_order_settle p
        end)
       AppWithoutInst.create_order_except).
Proof.
  unfold AppWithoutInst.create_order, AppWithoutInst.create_order_place.
  apply same_try_except. cut_view.
Qed.

Lemma local_place_then_settle b :
  same (LocalDeployment.create_order b)
    (try_except
       (r <- LocalDeployment.create_order_place b ;;
        match r with
        | inl early => ret early
        | inr p => LocalDeployment.create_order_settle p
        end)
       LocalDeployment.create_order_except).
Proof.
  unfold LocalDeployment.create_order, LocalDeployment.create_order_place.
  apply same_try_except. cut_view.
Qed.

Lemma without_inst_buyer_twice b :
  same (c <- AppWithoutInst.advance_buyer (AppWithoutInst.Ordering b) ;;
        AppWithoutInst.advance_buyer c)
       (r <- AppWithoutInst.create_order b ;; ret (AppWithoutInst.Served r)).
Proof.
  eapply same_trans;
    [| apply same_bind; [apply same_sym, without_inst_place_then_settle | intros ?; apply same_refl]].
  intros st en. unfold AppWithoutInst.advance_buyer at 1, try_except, bind.
  destruct (AppWithoutInst.create_order_place b st en) as [[[[early | p] | e] st1] en1]; cbn.
  - reflexivity.
  - unfold try_except, bind.
    destruct (AppWithoutInst.create_order_settle p st1 en1) as [[[r | e] st2] en2]; reflexivity.
  - reflexivity.
Qed.


(* ===================================================================== *)
(** * Further properties of the two shop applications                   *)
(* ===================================================================== *)

(** ** Numbering, listing, catalogue *)

Lemma contract_outcome before b resp after :
  create_user_contract before b resp after -> user_outcome before b resp after.
Proof.
  intros [Hinv Hval]. unfold user_outcome.
  destruct b as [m |]; [| left; apply Hinv; left; exact I].
  destruct (m !! "name") as [name |] eqn:Hn; [| left; apply Hinv; left; exact Hn].
  destruct (m !! "email") as [email |] eqn:He; [| left; apply Hinv; right; exact He].
  destruct (Hval name email) as [Hdup Hnew]; [cbn; rewrite Hn; reflexivity | cbn; rewrite He; reflexivity |].
  destruct (find (email_is email) before) as [u |] eqn:Hf.
  - right; left. apply Hdup. exists u. apply find_email_some, Hf.
  - right; right. pose proof (find_email_none _ _ Hf) as Hnone.
    destruct (Hnew Hnone) as (Hs & t & Ha & Hb). split; [exact Hs |].
    exists name, email, t. cbn. rewrite Hn, He. repeat split; assumption.
Qed.

Lemma numbered_snoc {A} (id : A -> Z) (l : list A) x :
  numbered id l -> id x = (Z.of_nat (length l) + 1)%Z -> numbered id (l ++ [x]).
Proof.
  intros Hl Hx k y Hk. apply lookup_app_Some in Hk as [Hk | [Hlen Hk]].
  - apply Hl, Hk.
  - apply list_lookup_singleton_Some in Hk as [Hk0 Hxy]. subst y.
    rewrite Hx. f_equal. lia.
Qed.

Lemma numbered_alter {A} (id : A -> Z) (f : A -> A) k (l : list A) :
  (forall x, id (f x) = id x) -> numbered id l -> numbered id (alter f k l).
Proof.
  intros Hf Hl j y Hj. destruct (decide (j = k)) as [-> | Hne].
  - rewrite list_lookup_alter_eq in Hj. destruct (l !! k) as [x |] eqn:Hx; [| discriminate].
    injection Hj as <-. rewrite Hf. apply Hl, Hx.
  - rewrite list_lookup_alter_ne in Hj by congruence. apply Hl, Hj.
Qed.

Lemma shop_step_well_kept us os ps us' os' ps' :
  shop_step us os ps us' os' ps' -> well_kept us os -> well_kept us' os'.
Proof.
  intros Hstep (Hu & He & Ho). destruct Hstep as [(b & resp & C & -> & ->) | [(b & resp & -> & C) | (-> & -> & ->)]].
  - apply contract_outcome in C as [[_ ->] | [[_ ->] | (_ & name & email & t & _ & _ & Hfresh & -> & _)]];
      try (repeat split; assumption).
    split; [| split; [| exact Ho]].
    + apply numbered_snoc; [exact Hu | reflexivity].
    + rewrite map_app. cbn. apply NoDup_app. split; [exact He |]. split; [| apply NoDup_singleton].
      intros e Hin Hin'. apply list_elem_of_singleton in Hin'. subst e.
      apply list_elem_of_fmap in Hin as (u & Hue & Hin). exact (Hfresh u Hin (eq_sym Hue)).
  - split; [exact Hu |]. split; [exact He |].
    unfold create_order_contract in C.
    destruct b as [m |]; [| destruct C as (_ & -> & _); exact Ho].
    destruct (m !! "user_id") as [uid |]; [| destruct C as (_ & -> & _); exact Ho].
    destruct (m !! "product_ids") as [pv |]; [| destruct C as (_ & -> & _); exact Ho].
    destruct (find (user_is uid) us) as [u |]; [| destruct C as (_ & -> & _); exact Ho].
    destruct (py_iter pv) as [ids |]; [| destruct C as (_ & -> & _); exact Ho].
    destruct C as (s & t & _ & _ & -> & _).
    apply numbered_alter; [intros x; reflexivity |].
    apply numbered_snoc; [exact Ho | reflexivity].
  - repeat split; assumption.
Qed.

Lemma without_inst_get_users_lists st :
  yields st AppWithoutInst.get_users
    (fun r => r = jsonify (JArr (map json_of_user (AppWithoutInst.users st))) 200).
Proof.
  unfold AppWithoutInst.get_users.
  eapply (yields_bind _ _ _ (fun _ => True)); [apply yields_log | intros _ _].
  eapply (yields_bind _ _ _ (fun _ => True)); [apply without_inst_cache_yields | intros hit _].
  eapply (yields_bind _ _ _ (fun _ => True)).
  { destruct hit; [apply yields_ret; exact I |].
    eapply yields_weaken; [apply without_inst_simulate_yields; reflexivity | intros ? _; exact I]. }
  intros _ _. eapply yields_bind; [apply yields_get |]. intros s ->.
  eapply (yields_bind _ _ _ (fun _ => True)); [apply yields_log | intros _ _].
  apply yields_ret. reflexivity.
Qed.

Lemma local_get_users_lists st :
  yields st LocalDeployment.get_users
    (fun r => r = jsonify (JArr (map json_of_user (LocalDeployment.users st))) 200).
Proof.
  unfold LocalDeployment.get_users.
  eapply (yields_bind _ _ _ (fun _ => True)); [apply local_cache_yields | intros hit _].
  eapply (yields_bind _ _ _ (fun _ => True)).
  { destruct hit; [apply yields_ret; exact I |].
    eapply yields_weaken; [apply local_simulate_yields; reflexivity | intros ? _; exact I]. }
  intros _ _. eapply yields_bind; [apply yields_get |]. intros s ->.
  apply yields_ret. reflexivity.
Qed.

Lemma without_inst_answer_step c st en :
  exists resp st' en',
    AppWithoutInst.answer c st en = (Ok resp, st', en') /\
    shop_step (AppWithoutInst.users st) (AppWithoutInst.orders st) (AppWithoutInst.products st)
      (AppWithoutInst.users st') (AppWithoutInst.orders st') (AppWithoutInst.products st').
Proof.
  destruct c as [b | | b |]; cbn [AppWithoutInst.answer].
  - unfold AppWithoutInst.handle_users. cbn.
    match goal with |- context [AppWithoutInst.create_user b ?s ?e] =>
      destruct (without_inst_create_user b s e) as (resp & st' & en' & E & C & Ho & Hp) end.
    exists resp, st', en'. split; [exact E |]. left. exists b, resp. cbn in C. tauto.
  - unfold AppWithoutInst.handle_users. cbn.
    match goal with |- context [AppWithoutInst.get_users ?s ?e] =>
      destruct (without_inst_get_users s e) as (resp & en' & E & _) end.
    eexists _, _, _. split; [exact E |]. right; right. cbn. tauto.
  - destruct (without_inst_create_order b st en) as (resp & st' & en' & E & Hu & C).
    exists resp, st', en'. split; [exact E |]. right; left. exists b, resp. tauto.
  - destruct (without_inst_health st en) as (resp & en' & E & _).
    eexists _, _, _. split; [exact E |]. right; right. tauto.
Qed.

Lemma local_answer_step c st en :
  exists resp st' en',
    LocalDeployment.answer c st en = (Ok resp, st', en') /\
    shop_step (LocalDeployment.users st) (LocalDeployment.orders st) (LocalDeployment.products st)
      (LocalDeployment.users st') (LocalDeployment.orders st') (LocalDeployment.products st').
Proof.
  destruct c as [b | | b |]; cbn [LocalDeployment.answer].
  - unfold LocalDeployment.handle_users. cbn.
    match goal with |- context [LocalDeployment.create_user b ?s ?e] =>
      destruct (local_create_user b s e) as (resp & st' & en' & E & C & Ho & Hp) end.
    exists resp, st', en'. split; [exact E |]. left. exists b, resp. cbn in C. tauto.
  - unfold LocalDeployment.handle_users. cbn.
    match goal with |- context [LocalDeployment.get_users ?s ?e] =>
      destruct (local_get_users s e) as (resp & en' & E & _) end.
    eexists _, _, _. split; [exact E |]. right; right. cbn. tauto.
  - destruct (local_create_order b st en) as (resp & st' & en' & E & Hu & C).
    exists resp, st', en'. split; [exact E |]. right; left. exists b, resp. tauto.
  - destruct (local_health st en) as (resp & en' & E & _).
    eexists _, _, _. split; [exact E |]. right; right. tauto.
Qed.

(** An invariant of single requests is an invariant of every sequence of
    requests served in turn. *)
Lemma without_inst_in_turn (I : list user -> list order -> list product -> Prop) :
  (forall us os ps us' os' ps', shop_step us os ps us' os' ps' -> I us os ps -> I us' os' ps') ->
  forall cs st en,
    I (AppWithoutInst.users st) (AppWithoutInst.orders st) (AppWithoutInst.products st) ->
    exists rs st' en',
      AppWithoutInst.answer_all cs st en = (Ok rs, st', en') /\ length rs = length cs /\
      I (AppWithoutInst.users st') (AppWithoutInst.orders st') (AppWithoutInst.products st').
Proof.
  intros Hstep. induction cs as [| c cs IH]; intros st en HI; cbn [AppWithoutInst.answer_all].
  - eexists _, _, _. split; [reflexivity |]. split; [reflexivity | exact HI].
  - destruct (without_inst_answer_step c st en) as (r & st1 & en1 & E & S).
    rewrite (bind_run _ _ _ _ _ _ _ E).
    destruct (IH st1 en1 (Hstep _ _ _ _ _ _ S HI)) as (rs & st2 & en2 & E2 & Hl & HI2).
    rewrite (bind_run _ _ _ _ _ _ _ E2). cbn.
    eexists _, _, _. split; [reflexivity |]. split; [cbn; f_equal; exact Hl | exact HI2].
Qed.

Lemma local_in_turn (I : list user -> list order -> list product -> Prop) :
  (forall us os ps us' os' ps', shop_step us os ps us' os' ps' -> I us os ps -> I us' os' ps') ->
  forall cs st en,
    I (LocalDeployment.users st) (LocalDeployment.orders st) (LocalDeployment.products st) ->
    exists rs st' en',
      LocalDeployment.answer_all cs st en = (Ok rs, st', en') /\ length rs = length cs /\
      I (LocalDeployment.users st') (LocalDeployment.orders st') (LocalDeployment.products st').
Proof.
  intros Hstep. induction cs as [| c cs IH]; intros st en HI; cbn [LocalDeployment.answer_all].
  - eexists _, _, _. split; [reflexivity |]. split; [reflexivity | exact HI].
  - destruct (local_answer_step c st en) as (r & st1 & en1 & E & S).
    rewrite (bind_run _ _ _ _ _ _ _ E).
    destruct (IH st1 en1 (Hstep _ _ _ _ _ _ S HI)) as (rs & st2 & en2 & E2 & Hl & HI2).
    rewrite (bind_run _ _ _ _ _ _ _ E2). cbn.
    eexists _, _, _. split; [reflexivity |]. split; [cbn; f_equal; exact Hl | exact HI2].
Qed.

(** X1: requests answered one after the other keep the lists numbered.  When
    the users and the orders carry their position in the list as id (1, 2,
    3, ...) and no two users have the same email, both shop applications
    answer every request of any list of requests, and the users and orders
    they end with again carry their position as id, with no email twice. *)
Theorem requests_in_turn_keep_numbering (cs : list AppWithoutInst.call)
    (cs_local : list LocalDeployment.call) (st : AppWithoutInst.store)
    (st_local : LocalDeployment.store) (en : env) :
  well_kept (AppWithoutInst.users st) (AppWithoutInst.orders st) ->
  well_kept (LocalDeployment.users st_local) (LocalDeployment.orders st_local) ->
  (exists rs st' en',
     AppWithoutInst.answer_all cs st en = (Ok rs, st', en') /\ length rs = length cs /\
     well_kept (AppWithoutInst.users st') (AppWithoutInst.orders st')) /\
  (exists rs st' en',
     LocalDeployment.answer_all cs_local st_local en = (Ok rs, st', en') /\
     length rs = length cs_local /\
     well_kept (LocalDeployment.users st') (LocalDeployment.orders st')).
Proof.
  intros H H'. split.
  - apply (without_inst_in_turn (fun us os _ => well_kept us os)); [| exact H].
    intros. eapply shop_step_well_kept; eassumption.
  - apply (local_in_turn (fun us os _ => well_kept us os)); [| exact H'].
    intros. eapply shop_step_well_kept; eassumption.
Qed.

Lemma same_article_refl p : same_article p p.
Proof. repeat split; reflexivity. Qed.

Lemma sold_from_refl ps : sold_from ps ps.
Proof. apply Forall_Forall2_diag, Forall_forall. intros p _. apply same_article_refl. Qed.

Lemma sold_from_take_stock ps0 ps i : sold_from ps0 ps -> sold_from ps0 (take_stock ps i).
Proof.
  intros H. unfold take_stock.
  destruct (next_index _ ps) as [k |]; [| exact H].
  apply Forall2_alter_r; [exact H |].
  intros p p' _ _ (Hi & Hn & Hp & Hs). repeat split; cbn; try assumption. lia.
Qed.

Lemma sold_from_fold ps0 lines : forall ps,
  sold_from ps0 ps -> sold_from ps0 (fold_left take_stock lines ps).
Proof.
  induction lines as [| i lines IH]; intros ps H; cbn [fold_left]; [exact H |].
  apply IH, sold_from_take_stock, H.
Qed.

Lemma shop_step_sold_from ps0 us os ps us' os' ps' :
  shop_step us os ps us' os' ps' -> sold_from ps0 ps -> sold_from ps0 ps'.
Proof.
  intros [(b & resp & _ & _ & ->) | [(b & resp & _ & C) | (_ & _ & ->)]] H; try exact H.
  unfold create_order_contract in C.
  destruct b as [m |]; [| destruct C as (_ & _ & ->); exact H].
  destruct (m !! "user_id") as [uid |]; [| destruct C as (_ & _ & ->); exact H].
  destruct (m !! "product_ids") as [pv |]; [| destruct C as (_ & _ & ->); exact H].
  destruct (find (user_is uid) us) as [u |]; [| destruct C as (_ & _ & ->); exact H].
  destruct (py_iter pv) as [ids |]; [| destruct C as (_ & _ & ->); exact H].
  destruct C as (s & t & _ & _ & _ & ->). apply sold_from_fold, H.
Qed.

(** X3: whatever requests the shop applications answer, the catalogue keeps
    its products, in the same order and with the same ids, names and prices;
    the stock of a product never goes up. *)
Theorem catalogue_only_loses_stock (cs : list AppWithoutInst.call)
    (cs_local : list LocalDeployment.call) (st : AppWithoutInst.store)
    (st_local : LocalDeployment.store) (en : env) :
  (exists rs st' en',
     AppWithoutInst.answer_all cs st en = (Ok rs, st', en') /\
     sold_from (AppWithoutInst.products st) (AppWithoutInst.products st')) /\
  (exists rs st' en',
     LocalDeployment.answer_all cs_local st_local en = (Ok rs, st', en') /\
     sold_from (LocalDeployment.products st_local) (LocalDeployment.products st')).
Proof.
  split.
  - destruct (without_inst_in_turn (fun _ _ ps => sold_from (AppWithoutInst.products st) ps))
      with (cs := cs) (st := st) (en := en) as (rs & st' & en' & E & _ & H).
    + intros. eapply shop_step_sold_from; eassumption.
    + apply sold_from_refl.
    + exists rs, st', en'. split; assumption.
  - destruct (local_in_turn (fun _ _ ps => sold_from (LocalDeployment.products st_local) ps))
      with (cs := cs_local) (st := st_local) (en := en) as (rs & st' & en' & E & _ & H).
    + intros. eapply shop_step_sold_from; eassumption.
    + apply sold_from_refl.
    + exists rs, st', en'. split; assumption.
Qed.

(** X2: a user that POST /api/users created is listed.  After an answer 201,
    GET /api/users answers 200 with the users listed before, followed by the
    body of the 201 answer, and leaves the list as it is; in both shop
    applications. *)
Theorem created_user_is_listed :
  (forall b st en resp st' en' en2,
     AppWithoutInst.handle_users "POST" b st en = (Ok resp, st', en') ->
     status resp = 201%Z ->
     exists listing st'' en'',
       AppWithoutInst.handle_users "GET" None st' en2 = (Ok listing, st'', en'') /\
       status listing = 200%Z /\
       resp_body listing =
         JArr (map json_of_user (AppWithoutInst.users st) ++ [resp_body resp]) /\
       AppWithoutInst.users st'' = AppWithoutInst.users st') /\
  (forall b st en resp st' en' en2,
     LocalDeployment.handle_users "POST" b st en = (Ok resp, st', en') ->
     status resp = 201%Z ->
     exists listing st'' en'',
       LocalDeployment.handle_users "GET" None st' en2 = (Ok listing, st'', en'') /\
       status listing = 200%Z /\
       resp_body listing =
         JArr (map json_of_user (LocalDeployment.users st) ++ [resp_body resp]) /\
       LocalDeployment.users st'' = LocalDeployment.users st').
Proof.
  split.
  - intros b st en resp st' en' en2 E Hs.
    unfold AppWithoutInst.handle_users in E. cbn in E.
    match type of E with context [AppWithoutInst.create_user b ?s ?e] =>
      destruct (without_inst_create_user b s e) as (resp1 & st1 & en1 & E1 & C & _) end.
    rewrite E1 in E. injection E as -> -> ->.
    apply contract_outcome in C as [[H _] | [[H _] | (_ & name & email & t & _ & _ & _ & Ha & Hb)]];
      try (rewrite H in Hs; discriminate).
    cbn in Ha. unfold AppWithoutInst.handle_users. cbn.
    match goal with |- context [AppWithoutInst.get_users ?s ?e] =>
      destruct (without_inst_get_users_lists s e) as (r & en3 & E3 & ->) end.
    eexists _, _, _. split; [exact E3 |]. cbn. split; [reflexivity |].
    rewrite Ha, map_app, Hb. split; reflexivity.
  - intros b st en resp st' en' en2 E Hs.
    unfold LocalDeployment.handle_users in E. cbn in E.
    match type of E with context [LocalDeployment.create_user b ?s ?e] =>
      destruct (local_create_user b s e) as (resp1 & st1 & en1 & E1 & C & _) end.
    rewrite E1 in E. injection E as -> -> ->.
    apply contract_outcome in C as [[H _] | [[H _] | (_ & name & email & t & _ & _ & _ & Ha & Hb)]];
      try (rewrite H in Hs; discriminate).
    cbn in Ha. unfold LocalDeployment.handle_users. cbn.
    match goal with |- context [LocalDeployment.get_users ?s ?e] =>
      destruct (local_get_users_lists s e) as (r & en3 & E3 & ->) end.
    eexists _, _, _. split; [exact E3 |]. cbn. split; [reflexivity |].
    rewrite Ha, map_app, Hb. split; reflexivity.
Qed.

(** ** Orders of the wrong shape, of many units, and what an order bills *)

Lemma no_product_is_text s ps : find (product_is (VStr s)) ps = None.
Proof. induction ps as [| p ps IH]; [reflexivity | exact IH]. Qed.

Lemma order_lines_text {A} ps (f : A -> string) (l : list A) :
  order_lines ps (map (fun c => VStr (f c)) l) = [].
Proof.
  induction l as [| s l IH]; [reflexivity |].
  cbn [map]. rewrite order_lines_cons, IH. unfold line_of. rewrite no_product_is_text. reflexivity.
Qed.

Lemma last_snoc_alter {A} (f : A -> A) (l : list A) x :
  last (alter f (length l) (l ++ [x])) = Some (f x).
Proof. rewrite alter_last. apply last_snoc. Qed.

Lemma malformed_of_contract us os ps b resp os' ps' :
  create_order_contract us os ps b resp os' ps' ->
  malformed_order_answer us os ps b resp os' ps'.
Proof.
  intros C. unfold create_order_contract in C. split; [| split].
  - intros ->. exact C.
  - intros m -> [H | H]; rewrite H in C; [exact C |].
    destruct (m !! "user_id"); exact C.
  - intros m uid pv -> Hu Hp (u & Hin & Hid). rewrite Hu, Hp in C.
    destruct (find (user_is uid) us) as [u' |] eqn:Hf.
    2:{ exfalso. exact (find_user_none us uid Hf u Hin Hid). }
    split.
    + intros [-> | [z ->]]; exact C.
    + intros s ->. cbn [py_iter] in C. destruct C as (st & t & _ & -> & -> & ->).
      rewrite order_lines_text. cbn.
      split; [reflexivity |]. split; [reflexivity |].
      rewrite alter_last. eexists. split; [reflexivity |]. cbn. repeat split.
Qed.

Lemma order_lines_replicate ps pid p n :
  find (product_is (VInt pid)) ps = Some p -> (0 < product_stock p)%Z ->
  order_lines ps (map VInt (replicate n pid)) =
    replicate n {| item_product_id := VInt pid; item_name := product_name p;
                   item_price := product_price p |}.
Proof.
  intros Hf Hs. induction n as [| n IH]; [reflexivity |].
  cbn [replicate map]. rewrite order_lines_cons, IH. unfold line_of. rewrite Hf.
  destruct (Z.leb_spec (product_stock p) 0); [lia | reflexivity].
Qed.

Lemma find_take_stock v ps i p :
  item_product_id i = v -> find (product_is v) ps = Some p ->
  find (product_is v) (take_stock ps i) = Some (take_one p).
Proof.
  intros <- Hf. unfold take_stock.
  induction ps as [| q ps IH]; [discriminate |]. cbn in *.
  destruct (product_is (item_product_id i) q) eqn:Hq.
  - injection Hf as ->. cbn. rewrite take_one_same_id, Hq. reflexivity.
  - specialize (IH Hf). destruct (next_index _ ps) as [k |]; cbn.
    + rewrite Hq. exact IH.
    + rewrite Hq. exact IH.
Qed.

Lemma find_fold_take_stock v i n : forall ps p,
  item_product_id i = v -> find (product_is v) ps = Some p ->
  exists p', find (product_is v) (fold_left take_stock (replicate n i) ps) = Some p' /\
             product_stock p' = (product_stock p - Z.of_nat n)%Z.
Proof.
  induction n as [| n IH]; intros ps p Hi Hf.
  - exists p. split; [exact Hf | cbn; lia].
  - cbn [replicate fold_left].
    destruct (IH (take_stock ps i) (take_one p) Hi (find_take_stock v ps i p Hi Hf))
      as (p' & Hf' & Hs).
    exists p'. split; [exact Hf' |]. rewrite Hs. cbn. lia.
Qed.

Lemma took_units_of_contract us os ps (m : gmap string value) uid pid p n resp os' ps' :
  m !! "user_id" = Some uid -> m !! "product_ids" = Some (VList (replicate n pid)) ->
  can_order us ps uid pid p ->
  create_order_contract us os ps (Some m) resp os' ps' ->
  took_units n pid p resp os' ps'.
Proof.
  intros Hu Hp ((u & Hin & Hid) & Hf & Hs) C. unfold create_order_contract in C.
  rewrite Hu, Hp in C. cbn [py_iter] in C.
  destruct (find (user_is uid) us) as [u' |] eqn:Hfu.
  2:{ exfalso. exact (find_user_none us uid Hfu u Hin Hid). }
  destruct C as (s & t & _ & -> & -> & ->).
  rewrite (order_lines_replicate ps pid p n Hf Hs). cbn [order_items pending_order].
  split; [reflexivity |]. split.
  - eexists. split; [apply last_snoc_alter |]. split; [reflexivity |].
    cbn. apply length_replicate.
  - apply find_fold_take_stock; [reflexivity | exact Hf].
Qed.


(** X4: /api/orders on bodies of the wrong shape, in both shop applications.
    The body [null] is answered 500, since the handler reads [user_id] before
    it validates; an object without [user_id] or without [product_ids] is
    answered 400; for an existing user, [product_ids] that is [null] or a
    number is answered 500; all of these store nothing.  [product_ids] that is
    a string is answered 201: the order is stored without a line and with the
    total 0.  The users are never changed. *)
Theorem create_order_on_malformed_bodies (b : body) (st : AppWithoutInst.store)
    (st_local : LocalDeployment.store) (en : env) :
  (exists resp st' en',
     AppWithoutInst.create_order b st en = (Ok resp, st', en') /\
     AppWithoutInst.users st' = AppWithoutInst.users st /\
     malformed_order_answer (AppWithoutInst.users st) (AppWithoutInst.orders st)
       (AppWithoutInst.products st) b resp
       (AppWithoutInst.orders st') (AppWithoutInst.products st')) /\
  (exists resp st' en',
     LocalDeployment.create_order b st_local en = (Ok resp, st', en') /\
     LocalDeployment.users st' = LocalDeployment.users st_local /\
     malformed_order_answer (LocalDeployment.users st_local) (LocalDeployment.orders st_local)
       (LocalDeployment.products st_local) b resp
       (LocalDeployment.orders st') (LocalDeployment.products st')).
Proof.
  split.
  - destruct (without_inst_create_order b st en) as (resp & st' & en' & E & Hu & C).
    exists resp, st', en'. split; [exact E |]. split; [exact Hu |].
    apply malformed_of_contract, C.
  - destruct (local_create_order b st_local en) as (resp & st' & en' & E & Hu & C).
    exists resp, st', en'. split; [exact E |]. split; [exact Hu |].
    apply malformed_of_contract, C.
Qed.

(** X5: one order can take more units than the stock holds.  An order of an
    existing user that names [n] times a product with stock left is accepted
    with [n] lines, and the stock of the product goes down by [n], below zero
    when [n] is larger than the stock: every line is checked against the stock
    as it was before the order. *)
Theorem one_order_can_exceed_the_stock (m : gmap string value) (uid : value) (pid : Z)
    (n : nat) (p p_local : product) (st : AppWithoutInst.store)
    (st_local : LocalDeployment.store) (en : env) :
  m !! "user_id" = Some uid -> m !! "product_ids" = Some (VList (replicate n pid)) ->
  can_order (AppWithoutInst.users st) (AppWithoutInst.products st) uid pid p ->
  can_order (LocalDeployment.users st_local) (LocalDeployment.products st_local) uid pid p_local ->
  (exists resp st' en',
     AppWithoutInst.create_order (Some m) st en = (Ok resp, st', en') /\
     took_units n pid p resp (AppWithoutInst.orders st') (AppWithoutInst.products st')) /\
  (exists resp st' en',
     LocalDeployment.create_order (Some m) st_local en = (Ok resp, st', en') /\
     took_units n pid p_local resp (LocalDeployment.orders st') (LocalDeployment.products st')).
Proof.
  intros Hu Hp Hc Hc'. split.
  - destruct (without_inst_create_order (Some m) st en) as (resp & st' & en' & E & _ & C).
    exists resp, st', en'. split; [exact E |].
    exact (took_units_of_contract _ _ _ m uid pid p n resp _ _ Hu Hp Hc C).
  - destruct (local_create_order (Some m) st_local en) as (resp & st' & en' & E & _ & C).
    exists resp, st', en'. split; [exact E |].
    exact (took_units_of_contract _ _ _ m uid pid p_local n resp _ _ Hu Hp Hc' C).
Qed.


(** ** How long the helpers sleep *)

Section Naps.
Context {St : Type}.

Lemma naps_ret {A} (st : St) (a : A) (P : A -> Prop) : P a -> naps st (ret a) 0 0 P.
Proof. intros HP en. exists a, en. split; [reflexivity |]. split; [cbn; lra | exact HP]. Qed.

Lemma naps_bind {A B} (st : St) (m : M St A) (k : A -> M St B) lo1 hi1 lo2 hi2 P Q :
  naps st m lo1 hi1 P -> (forall a, P a -> naps st (k a) lo2 hi2 Q) ->
  naps st (bind m k) (lo1 + lo2) (hi1 + hi2) Q.
Proof.
  intros Hm Hk en. destruct (Hm en) as (a & en1 & E & Hc & HP).
  destruct (Hk a HP en1) as (b & en2 & E' & Hc' & HQ).
  exists b, en2. unfold bind. rewrite E. split; [exact E' |]. split; [lra | exact HQ].
Qed.

Lemma naps_weaken {A} (st : St) (m : M St A) lo hi lo' hi' (P Q : A -> Prop) :
  naps st m lo hi P -> (lo' <= lo)%Q -> (hi <= hi')%Q -> (forall a, P a -> Q a) ->
  naps st m lo' hi' Q.
Proof.
  intros Hm Hlo Hhi HPQ en. destruct (Hm en) as (a & en' & E & Hc & HP).
  exists a, en'. split; [exact E |]. split; [lra | apply HPQ, HP].
Qed.

Lemma naps_emit (st : St) ev : naps st (emit ev) 0 0 (fun _ => True).
Proof. intros en. eexists _, _. split; [reflexivity |]. split; [cbn; lra | exact I]. Qed.

(** [time.sleep(random.uniform(a, b))] with [0 <= a <= b]. *)
Lemma naps_nap (st : St) (a b : Q) :
  (0 <= a)%Q -> (a <= b)%Q -> naps st (d <- uniform a b ;; sleep d) a b (fun _ => True).
Proof.
  intros H0 Hab en. destruct (sample_bounds (entropy en (cursor en))) as [Hr0 Hr1].
  destruct (between_ends a b _ Hab Hr0 Hr1) as [Hlo Hhi].
  unfold uniform, bind, random, ret, sleep. cbn [clock entropy cursor trace].
  assert (Hs : Qle_bool 0 (a + (b - a) * sample_val (entropy en (cursor en))) = true)
    by (apply Qle_bool_iff; lra).
  rewrite Hs. eexists _, _. split; [reflexivity |]. cbn [clock]. split; [lra | exact I].
Qed.

End Naps.

(** Sequences a quiet step whose bounds are known. *)
Ltac naps_step lemma :=
  eapply naps_weaken;
    [ eapply naps_bind; [lemma | intros ? _] | | | intros ? HP; exact HP ].

Ltac naps_chain :=
  repeat first
    [ apply naps_emit
    | apply naps_nap; discriminate
    | apply naps_ret; exact I
    | eapply naps_bind; [| intros ? _] ].

(** X10: how long [process_business_logic] takes.  It returns normally,
    leaves the store as it is, and has slept between 0.07 and 0.18 seconds in
    all; with the complexity "high", between 0.15 and 0.43 seconds.  Any other
    complexity, "low" included, is as "medium". *)
Theorem process_business_logic_takes {St : Type} (operation_name complexity : string)
    (st : St) :
  let high := String.eqb complexity "high" in
  let lo := (if high then 0.15 else 0.07)%Q in
  let hi := (if high then 0.43 else 0.18)%Q in
  naps st (AppWithoutInst.process_business_logic operation_name complexity) lo hi
    (fun _ => True) /\
  naps st (LocalDeployment.process_business_logic operation_name complexity) lo hi
    (fun _ => True).
Proof.
  cbv zeta. split.
  - unfold AppWithoutInst.process_business_logic, for_each. cbn [for_fold].
    change (String.eqb "initialize" "process") with false.
    change (String.eqb "finalize" "process") with false.
    change (String.eqb "process" "process") with true. cbn [andb].
    destruct (String.eqb complexity "high").
    + eapply naps_weaken; [naps_chain | discriminate | discriminate | intros ? _; exact I].
    + eapply naps_weaken; [naps_chain | discriminate | discriminate | intros ? _; exact I].
  - unfold LocalDeployment.process_business_logic, for_each. cbn [for_fold].
    change (String.eqb "initialize" "process") with false.
    change (String.eqb "finalize" "process") with false.
    change (String.eqb "process" "process") with true. cbn [andb].
    destruct (String.eqb complexity "high").
    + eapply naps_weaken; [naps_chain | discriminate | discriminate | intros ? _; exact I].
    + eapply naps_weaken; [naps_chain | discriminate | discriminate | intros ? _; exact I].
Qed.

Lemma nap_run {St} (a b : Q) (st : St) en :
  (0 <= a)%Q -> (a <= b)%Q ->
  exists en', (d <- uniform a b ;; sleep d) st en = (Ok tt, st, en') /\
              (clock en + a <= clock en' /\ clock en' <= clock en + b)%Q.
Proof.
  intros H0 Hab. destruct (naps_nap st a b H0 Hab en) as ([] & en' & E & Hc & _).
  exists en'. split; assumption.
Qed.

Lemma hit_iff_below (rate r : Q) : negb (Qle_bool rate r) = true <-> (r < rate)%Q.
Proof.
  rewrite negb_true_iff. split.
  - intros H. apply Qnot_le_lt. intros Hle. apply Qle_bool_iff in Hle. congruence.
  - intros H. apply not_true_is_false. intros Hle. apply Qle_bool_iff in Hle. lra.
Qed.

(** X11: [simulate_cache_operation] reports a hit exactly when the number
    drawn is below the hit rate; it sleeps between 1 and 5 milliseconds on a
    hit, between 10 and 30 on a miss, and leaves the store as it is. *)
Theorem simulate_cache_operation_hits_below_rate {St : Type} (cache_key : string)
    (hit_rate : Q) (st : St) (en : env) :
  (exists hit en',
     AppWithoutInst.simulate_cache_operation cache_key hit_rate st en = (Ok hit, st, en') /\
     cache_lookup hit_rate en hit en') /\
  (exists hit en',
     LocalDeployment.simulate_cache_operation cache_key hit_rate st en = (Ok hit, st, en') /\
     cache_lookup hit_rate en hit en').
Proof.
  split.
  - unfold AppWithoutInst.simulate_cache_operation. rewrite bind_log.
    unfold bind at 1, random. cbn [clock entropy cursor trace].
    fold (next_draw en).
    pose proof (hit_iff_below hit_rate (next_draw en)) as Hhit.
    destruct (negb (Qle_bool hit_rate (next_draw en))).
    + match goal with |- context [bind (bind (uniform ?a ?b) ?k) ?k' ?s ?e] =>
        destruct (nap_run a b s e) as (en1 & E & Hc); [discriminate | discriminate |] end.
      rewrite (bind_run _ _ _ _ _ _ _ E). cbn.
      eexists _, _. split; [reflexivity |]. split; [exact Hhit |]. cbn in Hc |- *. exact Hc.
    + match goal with |- context [bind (bind (uniform ?a ?b) ?k) ?k' ?s ?e] =>
        destruct (nap_run a b s e) as (en1 & E & Hc); [discriminate | discriminate |] end.
      rewrite (bind_run _ _ _ _ _ _ _ E). cbn.
      eexists _, _. split; [reflexivity |]. split; [exact Hhit |]. cbn in Hc |- *. exact Hc.
  - unfold LocalDeployment.simulate_cache_operation.
    unfold bind at 1, random. cbn [clock entropy cursor trace].
    fold (next_draw en).
    pose proof (hit_iff_below hit_rate (next_draw en)) as Hhit.
    destruct (negb (Qle_bool hit_rate (next_draw en))).
    + match goal with |- context [bind (bind (uniform ?a ?b) ?k) ?k' ?s ?e] =>
        destruct (nap_run a b s e) as (en1 & E & Hc); [discriminate | discriminate |] end.
      rewrite (bind_run _ _ _ _ _ _ _ E). cbn.
      eexists _, _. split; [reflexivity |]. split; [exact Hhit |]. cbn in Hc |- *. exact Hc.
    + match goal with |- context [bind (bind (uniform ?a ?b) ?k) ?k' ?s ?e] =>
        destruct (nap_run a b s e) as (en1 & E & Hc); [discriminate | discriminate |] end.
      rewrite (bind_run _ _ _ _ _ _ _ E). cbn.
      eexists _, _. split; [reflexivity |]. split; [exact Hhit |]. cbn in Hc |- *. exact Hc.
Qed.

(** ** Counters and sizes *)









Lemma local_create_user_mirrors b st en :
  mirrored st ->
  exists resp st' en',
    LocalDeployment.create_user b st en = (Ok resp, st', en') /\ mirrored st'.
Proof.
  intros Hm. unfold LocalDeployment.create_user, try_except.
  assert (Hinv : forall b', lacks "name" b' \/ lacks "email" b' ->
    exists resp st' en',
      match (r <- LocalDeployment.create_user_prepare b' ;;
             match r with
             | inl early => ret early
             | inr user => LocalDeployment.create_user_save user
             end) st en with
      | (Ok a, st', en') => (Ok a, st', en')
      | (Raise e, st', en') => LocalDeployment.create_user_except e st' en'
      end = (Ok resp, st', en') /\ mirrored st').
  { intros b' Hl. destruct (local_prepare_invalid b' st en Hl) as (en1 & E).
    rewrite (bind_run _ _ _ _ _ _ _ E). cbn. eexists _, _, _. split; [reflexivity | exact Hm]. }
  destruct b as [m |]; [| apply Hinv; left; exact I].
  destruct (m !! "name") as [name |] eqn:Hn; [| apply Hinv; left; exact Hn].
  destruct (m !! "email") as [email |] eqn:He; [| apply Hinv; right; exact He].
  clear Hinv.
  destruct (local_prepare_valid m name email st en Hn He) as (en1 & E).
  revert E. destruct (find (email_is email) (LocalDeployment.users st)) as [u |];
    intros E; rewrite (bind_run _ _ _ _ _ _ _ E).
  - cbn. eexists _, _, _. split; [reflexivity | exact Hm].
  - cbv beta iota.
    match goal with |- context [LocalDeployment.create_user_save ?u ?s ?e] =>
      destruct (local_save u s e) as (en3 & E3) end.
    rewrite E3. eexists _, _, _. split; [reflexivity |].
    destruct Hm as [_ Ho]. split; [reflexivity | exact Ho].
Qed.

Lemma local_record_exact uid u total lines st en :
  exists en',
    LocalDeployment.create_order_record uid u total lines st en =
      (Ok (length (LocalDeployment.orders st)),
       LocalDeployment.count_orders (LocalDeployment.set_orders (fun l => l ++
         [{| order_id := Z.of_nat (length (LocalDeployment.orders st)) + 1;
             order_user_id := uid; order_user_name := user_name u;
             order_items := lines; order_total_amount := total;
             order_status := "pending"; order_created_at := clock en |}]) st), en').
Proof.
  unfold LocalDeployment.create_order_record. cbn. quiet_step. cbn.
  eexists. reflexivity.
Qed.

Lemma local_payment_exact ref total st en :
  exists s en',
    LocalDeployment.process_payment ref total st en =
      (Ok tt, LocalDeployment.set_orders (alter (set_status s) ref) st, en').
Proof.
  unfold LocalDeployment.process_payment. cbn. quiet_step. cbn.
  destruct (Qle_bool _ _); cbn; eexists _, _; reflexivity.
Qed.

Lemma local_inventory_exact lines : forall st en,
  Forall (resolves (LocalDeployment.products st)) lines ->
  exists en',
    for_each lines (fun item =>
      st <- get ;;
      match next_index (product_is (item_product_id item)) (LocalDeployment.products st) with
      | None => raise StopIteration
      | Some product => modify (LocalDeployment.set_products (alter take_one product))
      end) st en =
    (Ok tt, LocalDeployment.set_products (fun ps => fold_left take_stock lines ps) st, en').
Proof.
  induction lines as [| i lines IH]; intros st en Hres.
  - exists en. destruct st. reflexivity.
  - inversion Hres as [| ? ? Hi Hrest]; subst.
    rewrite for_each_cons, bind_bind, bind_get. destruct Hi as [k Hk]. rewrite Hk, bind_modify.
    match goal with |- context [for_each lines _ ?s ?e] =>
      destruct (IH s e) as (en' & E) end.
    { cbn. eapply Forall_impl; [exact Hrest |]. intros j Hj.
      pose proof (resolves_take_stock (LocalDeployment.products st) i j Hj) as R.
      unfold take_stock in R. rewrite Hk in R. exact R. }
    assert (T : take_stock (LocalDeployment.products st) i =
                alter take_one k (LocalDeployment.products st))
      by (unfold take_stock; rewrite Hk; reflexivity).
    rewrite E. exists en'. cbn [fold_left]. unfold LocalDeployment.set_products.
    cbn [LocalDeployment.users LocalDeployment.orders LocalDeployment.products
         LocalDeployment.app_metrics].
    rewrite T. reflexivity.
Qed.

Lemma local_update_inventory_exact lines st en :
  Forall (resolves (LocalDeployment.products st)) lines ->
  exists en',
    LocalDeployment.update_inventory lines st en =
      (Ok tt, LocalDeployment.set_products (fun ps => fold_left take_stock lines ps) st, en').
Proof.
  intros Hres. unfold LocalDeployment.update_inventory.
  destruct (local_inventory_exact lines st en Hres) as (en' & E).
  rewrite (bind_run _ _ _ _ _ _ _ E). quiet_step. cbn. eexists. reflexivity.
Qed.

Lemma local_create_order_mirrors (b : body) st en :
  mirrored st ->
  exists resp st' en',
    LocalDeployment.create_order b st en = (Ok resp, st', en') /\ mirrored st'.
Proof.
  intros Hm. unfold LocalDeployment.create_order, try_except.
  destruct b as [m |]; cbn [dict_get of_result].
  2:{ cbn. eexists _, _, _. split; [reflexivity | exact Hm]. }
  destruct (m !! "user_id") as [uid |] eqn:Hu.
  2:{ rewrite invalid_order_data by (left; exact Hu). cbn.
      eexists _, _, _. split; [reflexivity | exact Hm]. }
  destruct (m !! "product_ids") as [pv |] eqn:Hp.
  2:{ rewrite invalid_order_data by (right; exact Hp). cbn.
      eexists _, _, _. split; [reflexivity | exact Hm]. }
  rewrite (valid_order_data m uid pv Hu Hp). cbn. quiet_step. cbn. rewrite Hu. cbn.
  destruct (find (user_is uid) (LocalDeployment.users st)) as [u |] eqn:Hf.
  2:{ cbn. eexists _, _, _. split; [reflexivity | exact Hm]. }
  rewrite Hp. cbn.
  destruct (py_iter pv) as [ids | e] eqn:Hi.
  2:{ cbn. eexists _, _, _. split; [reflexivity | exact Hm]. }
  cbn.
  set (lines := order_lines (LocalDeployment.products st) ids).
  quiet_step_by ltac:(apply local_process_products).
  match goal with H : ?x = add_lines _ _ |- _ => subst x end.
  fold lines. cbn [add_lines fst snd app]. fold (order_total lines).
  match goal with
  | |- context [bind (LocalDeployment.create_order_record _ _ _ _) _ _ ?e] =>
      destruct (local_record_exact uid u (order_total lines) lines st e) as (en2 & E)
  end.
  rewrite (bind_run _ _ _ _ _ _ _ E). clear E.
  match goal with
  | |- context [bind (LocalDeployment.process_payment ?r ?t) _ ?s ?e] =>
      destruct (local_payment_exact r t s e) as (s' & en3 & E)
  end.
  rewrite (bind_run _ _ _ _ _ _ _ E). clear E.
  match goal with
  | |- context [bind (LocalDeployment.update_inventory lines) _ ?s ?e] =>
      destruct (local_update_inventory_exact lines s e) as (en4 & E)
  end.
  { cbn. apply order_lines_resolve. }
  rewrite (bind_run _ _ _ _ _ _ _ E). clear E.
  unfold deref. rewrite ?bind_now, bind_bind, bind_get.
  cbn [LocalDeployment.orders LocalDeployment.set_products LocalDeployment.set_orders
       LocalDeployment.count_orders].
  rewrite alter_last, lookup_app_r, Nat.sub_diag by lia. cbn.
  eexists _, _, _. split; [reflexivity |]. destruct Hm as [Hmu _].
  split; cbn; [exact Hmu |]. rewrite alter_last, !length_app. reflexivity.
Qed.

Lemma local_answer_mirrors c st en :
  mirrored st ->
  exists resp st' en', LocalDeployment.answer c st en = (Ok resp, st', en') /\ mirrored st'.
Proof.
  intros Hm. destruct c as [b | | b |]; cbn [LocalDeployment.answer].
  - unfold LocalDeployment.handle_users. cbn.
    match goal with |- context [LocalDeployment.create_user b ?s ?e] =>
      destruct (local_create_user_mirrors b s e Hm) as (resp & st' & en' & E & H) end.
    exists resp, st', en'. split; assumption.
  - unfold LocalDeployment.handle_users. cbn.
    match goal with |- context [LocalDeployment.get_users ?s ?e] =>
      destruct (local_get_users s e) as (resp & en' & E & _) end.
    eexists _, _, _. split; [exact E | exact Hm].
  - apply local_create_order_mirrors, Hm.
  - destruct (local_health st en) as (resp & en' & E & _).
    eexists _, _, _. split; [exact E | exact Hm].
Qed.

(** X9: in the local deployment the counters [total_users] and
    [total_orders] of [app_metrics] are the lengths of the lists [users] and
    [orders]: when they are before a list of requests, every request is
    answered and they are after it. *)
Theorem local_totals_mirror_the_lists (cs : list LocalDeployment.call)
    (st : LocalDeployment.store) (en : env) :
  mirrored st ->
  exists rs st' en',
    LocalDeployment.answer_all cs st en = (Ok rs, st', en') /\ mirrored st'.
Proof.
  revert st en. induction cs as [| c cs IH]; intros st en Hm; cbn [LocalDeployment.answer_all].
  - eexists _, _, _. split; [reflexivity | exact Hm].
  - destruct (local_answer_mirrors c st en Hm) as (r & st1 & en1 & E & Hm1).
    rewrite (bind_run _ _ _ _ _ _ _ E).
    destruct (IH st1 en1 Hm1) as (rs & st2 & en2 & E2 & Hm2).
    rewrite (bind_run _ _ _ _ _ _ _ E2). cbn.
    eexists _, _, _. split; [reflexivity | exact Hm2].
Qed.

Lemma user_outcome_length before b resp after :
  user_outcome before b resp after ->
  length after = (length before + if (status resp =? 201)%Z then 1 else 0)%nat.
Proof.
  intros [[Hs ->] | [[Hs ->] | (Hs & name & email & t & _ & _ & _ & -> & _)]]; rewrite Hs; cbn.
  - lia.
  - lia.
  - rewrite length_app. reflexivity.
Qed.

Lemma take_stock_length ps i : length (take_stock ps i) = length ps.
Proof. unfold take_stock. destruct (next_index _ ps); [apply length_alter | reflexivity]. Qed.

Lemma fold_take_stock_length lines : forall ps, length (fold_left take_stock lines ps) = length ps.
Proof.
  induction lines as [| i lines IH]; intros ps; cbn [fold_left]; [reflexivity |].
  rewrite IH. apply take_stock_length.
Qed.

Lemma order_contract_length us os ps b resp os' ps' :
  create_order_contract us os ps b resp os' ps' ->
  length os' = (length os + if (status resp =? 201)%Z then 1 else 0)%nat /\
  length ps' = length ps.
Proof.
  intros C. unfold create_order_contract in C.
  assert (Hkeep : forall code, code <> 201%Z ->
            status resp = code /\ os' = os /\ ps' = ps ->
            length os' = (length os + if (status resp =? 201)%Z then 1 else 0)%nat /\
            length ps' = length ps).
  { intros code Hc (Hs & -> & ->). rewrite Hs.
    destruct (Z.eqb_spec code 201); [contradiction |]. split; [lia | reflexivity]. }
  destruct b as [m |]; [| apply (Hkeep 500%Z); [discriminate | exact C]].
  destruct (m !! "user_id") as [uid |]; [| apply (Hkeep 400%Z); [discriminate | exact C]].
  destruct (m !! "product_ids") as [pv |]; [| apply (Hkeep 400%Z); [discriminate | exact C]].
  destruct (find (user_is uid) us) as [u |]; [| apply (Hkeep 404%Z); [discriminate | exact C]].
  destruct (py_iter pv) as [ids |]; [| apply (Hkeep 500%Z); [discriminate | exact C]].
  destruct C as (s & t & _ & -> & -> & ->). cbn.
  rewrite length_alter, length_app, fold_take_stock_length. split; reflexivity.
Qed.

Lemma without_inst_metrics_run st en :
  AppWithoutInst.get_metrics st en =
    (Ok (jsonify
       (JObj [("application_metrics",
               AppWithoutInst.json_of_metrics (AppWithoutInst.app_metrics st));
              ("system_info", system_info (without_inst_sizes st))]) 200), st, en).
Proof. reflexivity. Qed.

Lemma local_metrics_run st en :
  LocalDeployment.get_metrics st en =
    (Ok (jsonify
       (JObj [("application_metrics",
               LocalDeployment.json_of_metrics (LocalDeployment.app_metrics st));
              ("system_info", system_info (local_sizes st))]) 200), st, en).
Proof. reflexivity. Qed.

(** X7: a record is stored exactly when the answer is 201.  In both shop
    applications a request makes the list of users one longer when it posts a
    user and is answered 201, the list of orders one longer when it posts an
    order and is answered 201, and leaves the three lengths as they are
    otherwise; the number of products never changes.  /metrics then answers 200
    with these three lengths as [system_info], and changes nothing. *)
Theorem a_record_is_stored_exactly_when_201 :
  (forall c st en, exists resp st' en',
     AppWithoutInst.answer c st en = (Ok resp, st', en') /\
     grown (without_inst_posted c) resp (without_inst_sizes st) (without_inst_sizes st') /\
     forall en2, exists report,
       AppWithoutInst.get_metrics st' en2 = (Ok report, st', en2) /\
       status report = 200%Z /\
       field "system_info" (resp_body report) = Some (system_info (without_inst_sizes st'))) /\
  (forall c st en, exists resp st' en',
     LocalDeployment.answer c st en = (Ok resp, st', en') /\
     grown (local_posted c) resp (local_sizes st) (local_sizes st') /\
     forall en2, exists report,
       LocalDeployment.get_metrics st' en2 = (Ok report, st', en2) /\
       status report = 200%Z /\
       field "system_info" (resp_body report) = Some (system_info (local_sizes st'))).
Proof.
  split.
  - intros c st en. destruct c as [b | | b |]; cbn [AppWithoutInst.answer without_inst_posted].
    + unfold AppWithoutInst.handle_users. cbn.
      match goal with |- context [AppWithoutInst.create_user b ?s ?e] =>
        destruct (without_inst_create_user b s e) as (resp & st' & en' & E & C & Ho & Hp) end.
      exists resp, st', en'. split; [exact E |]. split.
      * apply contract_outcome, user_outcome_length in C. cbn in C, Ho, Hp.
        unfold grown, without_inst_sizes. rewrite C, Ho, Hp. reflexivity.
      * intros en2. eexists. split; [apply without_inst_metrics_run |]. split; reflexivity.
    + unfold AppWithoutInst.handle_users. cbn.
      match goal with |- context [AppWithoutInst.get_users ?s ?e] =>
        destruct (without_inst_get_users s e) as (resp & en' & E & _) end.
      eexists _, _, _. split; [exact E |]. split; [reflexivity |].
      intros en2. eexists. split; [apply without_inst_metrics_run |]. split; reflexivity.
    + destruct (without_inst_create_order b st en) as (resp & st' & en' & E & Hu & C).
      exists resp, st', en'. split; [exact E |]. split.
      * apply order_contract_length in C as [Ho Hp].
        unfold grown, without_inst_sizes. rewrite Hu, Ho, Hp. reflexivity.
      * intros en2. eexists. split; [apply without_inst_metrics_run |]. split; reflexivity.
    + destruct (without_inst_health st en) as (resp & en' & E & _).
      eexists _, _, _. split; [exact E |]. split; [reflexivity |].
      intros en2. eexists. split; [apply without_inst_metrics_run |]. split; reflexivity.
  - intros c st en. destruct c as [b | | b |]; cbn [LocalDeployment.answer local_posted].
    + unfold LocalDeployment.handle_users. cbn.
      match goal with |- context [LocalDeployment.create_user b ?s ?e] =>
        destruct (local_create_user b s e) as (resp & st' & en' & E & C & Ho & Hp) end.
      exists resp, st', en'. split; [exact E |]. split.
      * apply contract_outcome, user_outcome_length in C. cbn in C, Ho, Hp.
        unfold grown, local_sizes. rewrite C, Ho, Hp. reflexivity.
      * intros en2. eexists. split; [apply local_metrics_run |]. split; reflexivity.
    + unfold LocalDeployment.handle_users. cbn.
      match goal with |- context [LocalDeployment.get_users ?s ?e] =>
        destruct (local_get_users s e) as (resp & en' & E & _) end.
      eexists _, _, _. split; [exact E |]. split; [reflexivity |].
      intros en2. eexists. split; [apply local_metrics_run |]. split; reflexivity.
    + destruct (local_create_order b st en) as (resp & st' & en' & E & Hu & C).
      exists resp, st', en'. split; [exact E |]. split.
      * apply order_contract_length in C as [Ho Hp].
        unfold grown, local_sizes. rewrite Hu, Ho, Hp. reflexivity.
      * intros en2. eexists. split; [apply local_metrics_run |]. split; reflexivity.
    + destruct (local_health st en) as (resp & en' & E & _).
      eexists _, _, _. split; [exact E |]. split; [reflexivity |].
      intros en2. eexists. split; [apply local_metrics_run |]. split; reflexivity.
Qed.

(* ===================================================================== *)
(** * src/app.py: routing, error handlers and hooks                     *)
(* ===================================================================== *)

Lemma find_eqb_none {A} (f : A -> string) (p : string) (l : list A) :
  find (fun r => String.eqb (f r) p) l = None <-> p ∉ map f l.
Proof.
  induction l as [| x l IH]; cbn.
  - split; [intros _; apply not_elem_of_nil | reflexivity].
  - rewrite not_elem_of_cons. destruct (String.eqb_spec (f x) p) as [H | H].
    + split; [discriminate | intros [Hne _]; congruence].
    + rewrite IH. split; [intros Hl; split; [congruence | exact Hl] | intros [_ Hl]; exact Hl].
Qed.

Lemma routed_paths (p : string) :
  p ∈ map (fun r : string * string * App.endpoint => fst (fst r)) App.url_map <->
  p ∈ App.available_endpoints.
Proof.
  unfold App.url_map, App.available_endpoints. cbn [map fst].
  rewrite !elem_of_cons, !elem_of_nil. tauto.
Qed.

Lemma url_match_not_found req :
  App.url_match req = Raise NotFound <-> App.path req ∉ App.available_endpoints.
Proof.
  rewrite <- routed_paths, <- find_eqb_none. unfold App.url_match.
  destruct (find _ App.url_map) as [[[p m] e] |]; [| tauto].
  destruct (String.eqb m (App.method req)); split; discriminate.
Qed.

Lemma not_found_run req st en :
  exists resp en',
    App.full_dispatch_request req (raise NotFound) st en = (Ok resp, st, en') /\
    lists_endpoints (App.path req) resp.
Proof.
  unfold App.full_dispatch_request. rewrite bind_now, bind_log. cbn.
  eexists _, _. split; [reflexivity |]. repeat split.
Qed.

(** X12: the 404 handler of src/app.py advertises exactly the paths that have
    a rule.  A request on any other path, whatever its method, is answered 404
    with the error "Not found", the path asked for and that list, and changes
    nothing in the store.  (Paths under /static/ and paths with a doubled slash
    are left to Flask.) *)
Theorem unknown_paths_get_the_list_of_endpoints (req : App.request) :
  (forall p, (exists m e, (p, m, e) ∈ App.url_map) <-> p ∈ App.available_endpoints) /\
  (plain_path (App.path req) -> App.path req ∉ App.available_endpoints ->
   exists view, App.handle req = Some view /\
     forall st en, exists resp en',
       view st en = (Ok resp, st, en') /\ lists_endpoints (App.path req) resp).
Proof.
  split.
  - intros p. rewrite <- routed_paths. split.
    + intros (m & e & H). apply list_elem_of_fmap. exists (p, m, e). split; [reflexivity | exact H].
    + intros H. apply list_elem_of_fmap in H as ([[p' m] e] & -> & H). exists m, e. exact H.
  - intros _ H. apply url_match_not_found in H. unfold App.handle. rewrite H.
    eexists. split; [reflexivity |]. intros st en. apply not_found_run.
Qed.

Lemma find_rule (l : list (string * string * App.endpoint)) p m e :
  NoDup (map (fun r => fst (fst r)) l) -> (p, m, e) ∈ l ->
  find (fun r => String.eqb (fst (fst r)) p) l = Some (p, m, e).
Proof.
  induction l as [| [[p' m'] e'] l IH]; intros Hnd Hin; [inversion Hin |].
  cbn [map fst] in Hnd. apply NoDup_cons in Hnd as [Hp Hnd]. cbn [find fst].
  apply elem_of_cons in Hin as [[= <- <- <-] | Hin].
  - rewrite String.eqb_refl. reflexivity.
  - destruct (String.eqb_spec p' p) as [-> | _]; [| apply IH; assumption].
    exfalso. apply Hp. apply list_elem_of_fmap. exists (p, m, e). split; [reflexivity | exact Hin].
Qed.

Lemma one_rule_per_path :
  NoDup (map (fun r : string * string * App.endpoint => fst (fst r)) App.url_map).
Proof. apply (bool_decide_unpack _). vm_compute. reflexivity. Qed.

Lemma url_match_wrong_method req m e :
  (App.path req, m, e) ∈ App.url_map -> App.method req <> m ->
  App.url_match req = Raise MethodNotAllowed.
Proof.
  intros H Hm. unfold App.url_match. rewrite (find_rule _ _ m e one_rule_per_path H).
  destruct (String.eqb_spec m (App.method req)) as [Heq | _]; [| reflexivity].
  exfalso. apply Hm. symmetry. exact Heq.
Qed.

Lemma method_not_allowed_run req st en :
  exists resp en',
    App.full_dispatch_request req (raise MethodNotAllowed) st en = (Ok resp, st, en') /\
    application_error "MethodNotAllowed" resp.
Proof.
  unfold App.full_dispatch_request. rewrite bind_now, bind_log. cbn.
  eexists _, _. split; [reflexivity |]. repeat split.
Qed.

(** X13: a wrong method is not answered 405.  When a path has a rule and the
    request comes with GET, POST, PUT, PATCH or DELETE but not with the method
    of the rule, the handler registered for [Exception] catches
    [MethodNotAllowed]: the answer is 500, "Application error", with the type
    "MethodNotAllowed"; the store is left as it is. *)
Theorem wrong_method_is_answered_500 (req : App.request) (m : string) (e : App.endpoint)
    (st : App.store) (en : env) :
  (App.path req, m, e) ∈ App.url_map ->
  App.method req ∈ tried_methods -> App.method req <> m ->
  exists view resp en',
    App.handle req = Some view /\ view st en = (Ok resp, st, en') /\
    application_error "MethodNotAllowed" resp.
Proof.
  intros Hr _ Hm. unfold App.handle. rewrite (url_match_wrong_method req m e Hr Hm).
  destruct (method_not_allowed_run req st en) as (resp & en' & E & H).
  eexists _, resp, en'. split; [reflexivity |]. split; [exact E | exact H].
Qed.







(** X16: /error-test without the parameter [type] behaves as [http_error]
    and answers 500 with the error type "http_error"; with a [type] other than
    http_error, exception and db_error it answers 400, "Unknown error type",
    and lists these three as the valid types.  The store is left as it is. *)
Theorem error_test_default_and_unknown_modes (req : App.request) (st : App.store) (en : env) :
  App.method req = "GET" -> App.path req = "/error-test" ->
  (App.args req !! "type" = None ->
   exists view resp en',
     App.handle req = Some view /\ view st en = (Ok resp, st, en') /\
     status resp = 500%Z /\ field "error_type" (resp_body resp) = Some (JStr "http_error")) /\
  (forall mode, App.args req !! "type" = Some mode -> mode ∉ error_modes ->
   exists view resp en',
     App.handle req = Some view /\ view st en = (Ok resp, st, en') /\
     status resp = 400%Z /\
     field "error" (resp_body resp) = Some (JStr "Unknown error type") /\
     field "valid_types" (resp_body resp) = Some (JArr (map JStr error_modes))).
Proof.
  intros Hm Hp. unfold App.handle, App.url_match. rewrite Hp, Hm. cbn. split.
  - intros Hty.
    edestruct (dispatch_answer req (App.error_test req) st en) as (final & en2 & E2 & Hb & Hs & _).
    { unfold App.error_test. rewrite Hty. cbn. reflexivity. }
    eexists _, final, en2. split; [reflexivity |]. split; [exact E2 |].
    rewrite Hb, Hs. split; reflexivity.
  - intros mode Hty Hno. unfold error_modes in Hno.
    rewrite !not_elem_of_cons in Hno. destruct Hno as (H1 & H2 & H3 & _).
    edestruct (dispatch_answer req (App.error_test req) st en) as (final & en2 & E2 & Hb & Hs & _).
    { unfold App.error_test. rewrite Hty.
      change (default "http_error" (Some mode)) with mode. rewrite bind_log.
      destruct (String.eqb_spec mode "http_error"); [contradiction |].
      destruct (String.eqb_spec mode "exception"); [contradiction |].
      destruct (String.eqb_spec mode "db_error"); [contradiction |].
      reflexivity. }
    eexists _, final, en2. split; [reflexivity |]. split; [exact E2 |].
    rewrite Hb, Hs. repeat split.
Qed.

(** ** The pauses of /cpu-intensive *)

Lemma sleeps_app tr tr' : sleeps (tr ++ tr') = sleeps tr ++ sleeps tr'.
Proof. unfold sleeps. apply omap_app. Qed.

Lemma sleep_run {St} (d : Q) (st : St) en :
  Qle_bool 0 d = true ->
  sleep d st en =
    (Ok tt, st, {| clock := clock en + d; entropy := entropy en; cursor := cursor en;
                   trace := trace en ++ [Slept d] |}).
Proof. intros H. unfold sleep. rewrite H. reflexivity. Qed.

Lemma cpu_loop_sleeps (st : App.store) (l : list Z) : forall acc en,
  exists r en',
    for_fold l acc (fun result i =>
       let result := (result + i ^ 2)%Z in
       (if (i mod 10000 =? 0)%Z then sleep 0.001 else ret tt) ;;
       ret result) st en = (Ok r, st, en') /\
    sleeps (trace en') =
      sleeps (trace en) ++
      replicate (length (List.filter (fun i => (i mod 10000 =? 0)%Z) l)) 0.001%Q.
Proof.
  induction l as [| i l IH]; intros acc en; cbn [for_fold List.filter].
  - eexists _, _. split; [reflexivity |]. cbn. rewrite app_nil_r. reflexivity.
  - cbv zeta. rewrite bind_bind. destruct (i mod 10000 =? 0)%Z.
    + rewrite (bind_run _ _ _ _ _ _ _ (sleep_run 0.001 st en eq_refl)).
      unfold bind at 1, ret at 1. cbv beta iota.
      match goal with |- context [for_fold l ?a _ st ?e] =>
        destruct (IH a e) as (r & en' & E & Hs) end.
      exists r, en'. split; [exact E |].
      rewrite Hs. cbn [trace]. rewrite sleeps_app. cbn. rewrite <- app_assoc. reflexivity.
    + unfold bind at 1, ret at 1. unfold bind at 1, ret at 1. cbv beta iota.
      match goal with |- context [for_fold l ?a _ st ?e] =>
        destruct (IH a e) as (r & en' & E & Hs) end.
      exists r, en'. split; [exact E | exact Hs].
Qed.

Lemma pauses_succ (k : nat) :
  pauses (Z.of_nat (S k)) =
    (pauses (Z.of_nat k) + (if (Z.of_nat k mod 10000 =? 0)%Z then 1 else 0))%nat.
Proof.
  unfold pauses. rewrite Nat2Z.inj_succ.
  destruct (Z.eqb_spec (Z.of_nat k mod 10000) 0) as [H | H].
  - replace ((Z.succ (Z.of_nat k) + 9999) / 10000)%Z with ((Z.of_nat k + 9999) / 10000 + 1)%Z.
    + rewrite Z2Nat.inj_add; [reflexivity | | lia].
      apply Z.div_pos; lia.
    + pose proof (Z.div_mod (Z.of_nat k) 10000 ltac:(lia)).
      apply Z.div_unique with (r := 0%Z); [lia |].
      assert ((Z.of_nat k + 9999) / 10000 = Z.of_nat k / 10000)%Z.
      { symmetry. apply Z.div_unique with (r := 9999%Z); lia. }
      lia.
  - rewrite Nat.add_0_r. f_equal.
    pose proof (Z.div_mod (Z.of_nat k) 10000 ltac:(lia)).
    pose proof (Z.mod_pos_bound (Z.of_nat k) 10000 ltac:(lia)).
    assert ((Z.of_nat k + 9999) / 10000 = Z.of_nat k / 10000 + 1)%Z.
    { symmetry. apply Z.div_unique with (r := (Z.of_nat k mod 10000 - 1)%Z); lia. }
    symmetry. apply Z.div_unique with (r := (Z.of_nat k mod 10000)%Z); lia.
Qed.

Lemma count_pauses (n : Z) :
  length (List.filter (fun i => (i mod 10000 =? 0)%Z) (range n)) = pauses n.
Proof.
  destruct (Z.le_gt_cases n 0) as [Hn | Hn].
  - unfold range, pauses. replace (Z.to_nat n) with 0%nat by lia. cbn.
    symmetry. apply Z2Nat.inj_0 || idtac.
    assert ((n + 9999) / 10000 <= 0)%Z.
    { apply Z.lt_succ_r. apply Z.div_lt_upper_bound; lia. }
    lia.
  - rewrite <- (Z2Nat.id n) by lia. generalize (Z.to_nat n) as k. clear n Hn.
    induction k as [| k IH]; [reflexivity |].
    rewrite range_succ, List.filter_app, length_app, IH, pauses_succ. cbn.
    destruct (Z.of_nat k mod 10000 =? 0)%Z; reflexivity.
Qed.

Lemma cpu_intensive_sleeps req n (st : App.store) en :
  App.int_arg req "iterations" 100000 = Ok n ->
  exists resp en',
    App.cpu_intensive req st en = (Ok (Some resp), st, en') /\
    status resp = 200%Z /\
    field "result" (resp_body resp) =
      Some (JInt (fold_left (fun acc i => acc + i ^ 2)%Z (range n) 0%Z)) /\
    sleeps (trace en') = sleeps (trace en) ++ replicate (pauses n) 0.001%Q.
Proof.
  intros Hn.
  destruct (cpu_intensive_run req n st en Hn) as (resp & en' & E & Hs & Hr & _).
  exists resp, en'. split; [exact E |]. split; [exact Hs |]. split; [exact Hr |].
  revert E. unfold App.cpu_intensive. rewrite bind_now, Hn. cbn [of_result].
  unfold bind at 1. cbn [ret]. rewrite bind_log.
  match goal with |- context [bind (for_fold ?l ?a ?f) ?k st ?e] =>
    destruct (cpu_loop_sleeps st l a e) as (r & en1 & E1 & Hsl) end.
  rewrite (bind_run _ _ _ _ _ _ _ E1). cbn. intros [= _ <-]. cbn [trace].
  rewrite sleeps_app, Hsl. cbn [trace]. rewrite sleeps_app. cbn.
  rewrite !app_nil_r, count_pauses. reflexivity.
Qed.

(** X17: /cpu-intensive with [iterations] = n answers 200 and sleeps one
    millisecond once for every multiple of 10000 among 0 .. n-1, and never
    otherwise; so it sleeps once as soon as n is 1.  With n zero or negative
    the loop does not run: the result is 0 and nothing sleeps. *)
Theorem cpu_intensive_pauses_every_10000 (req : App.request) (n : Z) (st : App.store)
    (en : env) :
  App.method req = "GET" -> App.path req = "/cpu-intensive" ->
  App.int_arg req "iterations" 100000 = Ok n ->
  exists view resp en',
    App.handle req = Some view /\ view st en = (Ok resp, st, en') /\
    status resp = 200%Z /\
    sleeps (trace en') = sleeps (trace en) ++ replicate (pauses n) 0.001%Q /\
    ((n <= 0)%Z ->
     field "result" (resp_body resp) = Some (JInt 0) /\ sleeps (trace en') = sleeps (trace en)).
Proof.
  intros Hm Hp Hi. unfold App.handle, App.url_match. rewrite Hp, Hm. cbn.
  destruct (cpu_intensive_sleeps req n st
              {| clock := clock en; entropy := entropy en; cursor := cursor en;
                 trace := trace en ++
                   [Logged INFO [Lit "Request: "; Lit (App.method req); Lit " ";
                                 Lit (App.path req); Lit " from ";
                                 Lit (App.remote_addr req)]] |} Hi)
    as (resp & en1 & E & Hs & Hr & Hsl).
  destruct (dispatch_answer req _ st en resp st en1 E)
    as (final & en2 & E2 & Hb & Hs2 & _ & line & Ht).
  assert (Hall : sleeps (trace en2) = sleeps (trace en) ++ replicate (pauses n) 0.001%Q).
  { rewrite Ht, sleeps_app, Hsl. cbn [trace]. rewrite sleeps_app. cbn.
    rewrite !app_nil_r. reflexivity. }
  eexists _, final, en2. split; [reflexivity |]. split; [exact E2 |].
  split; [rewrite Hs2; exact Hs |]. split; [exact Hall |].
  intros Hle. split.
  - rewrite Hb, Hr. unfold range. replace (Z.to_nat n) with 0%nat by lia. reflexivity.
  - rewrite Hall. replace (pauses n) with 0%nat; [apply app_nil_r |].
    unfold pauses. assert ((n + 9999) / 10000 <= 0)%Z; [| lia].
    apply Z.lt_succ_r. apply Z.div_lt_upper_bound; lia.
Qed.

(* ===================================================================== *)
(** * src/app.py: /database-ops and /custom-metrics                     *)
(* ===================================================================== *)

Lemma drawn_range a b en : (a <= b)%Z -> (a <= drawn a b en <= b)%Z.
Proof.
  intros Hab. unfold drawn. destruct (sample_bounds (entropy en (cursor en))) as [H0 H1].
  set (r := sample_val (entropy en (cursor en))) in *.
  assert (Hn : (0 < inject_Z (b - a + 1))%Q).
  { change 0%Q with (inject_Z 0). rewrite <- Zlt_Qlt. lia. }
  assert (L : (0 <= Qfloor (r * inject_Z (b - a + 1)))%Z).
  { change 0%Z with (Qfloor 0). apply Qfloor_resp_le. nra. }
  assert (U : (Qfloor (r * inject_Z (b - a + 1)) < b - a + 1)%Z).
  { rewrite Zlt_Qlt. eapply Qle_lt_trans; [apply Qfloor_le |]. nra. }
  lia.
Qed.

Lemma randint_run {St} a b (st : St) en :
  randint a b st en = (Ok (drawn a b en), st, after_draw en).
Proof. reflexivity. Qed.

Lemma next_rowid_above ids i : i ∈ ids -> (i < AppDb.next_rowid ids)%Z.
Proof.
  assert (H : forall i, i ∈ ids -> (i <= fold_right Z.max 0 ids)%Z).
  { induction ids as [| j ids IH]; intros k Hk; [inversion Hk |].
    cbn. apply elem_of_cons in Hk as [-> | Hk]; [lia |]. specialize (IH k Hk). lia. }
  intros Hin. specialize (H _ Hin). unfold AppDb.next_rowid. lia.
Qed.

Lemma next_rowid_fresh ids : AppDb.next_rowid ids ∉ ids.
Proof. intros Hin. apply next_rowid_above in Hin. lia. Qed.

Lemma increasing_NoDup ids : increasing ids -> NoDup ids.
Proof.
  intros H. apply NoDup_alt. intros i j x Hi Hj.
  destruct (Nat.lt_trichotomy i j) as [L | [E | L]]; [| exact E |].
  - specialize (H i j x x Hi Hj L). lia.
  - specialize (H j i x x Hj Hi L). lia.
Qed.

Lemma increasing_snoc ids x :
  increasing ids -> (forall i, i ∈ ids -> (i < x)%Z) -> increasing (ids ++ [x]).
Proof.
  intros H Hx i j a b Hi Hj L.
  assert (Li : (i < length ids)%nat).
  { apply lookup_lt_Some in Hj. rewrite length_app in Hj. cbn in Hj. lia. }
  rewrite lookup_app_l in Hi by exact Li.
  destruct (Nat.lt_ge_cases j (length ids)) as [Lj | Lj].
  - rewrite lookup_app_l in Hj by exact Lj. exact (H i j a b Hi Hj L).
  - rewrite lookup_app_r in Hj by exact Lj.
    apply list_lookup_singleton_Some in Hj as [_ <-].
    apply Hx. eapply list_elem_of_lookup_2, Hi.
Qed.

Lemma insert_user_run name email db en :
  AppDb.insert_user name email db en =
    (Ok tt,
     {| AppDb.db_users := AppDb.db_users db ++
          [{| AppDb.user_row_id := AppDb.next_rowid (map AppDb.user_row_id (AppDb.db_users db));
              AppDb.user_row_name := name; AppDb.user_row_email := email;
              AppDb.user_row_created_at := clock en |}];
        AppDb.db_orders := AppDb.db_orders db |}, en).
Proof. reflexivity. Qed.

Lemma sound_insert db u :
  sound db ->
  AppDb.user_row_id u = AppDb.next_rowid (map AppDb.user_row_id (AppDb.db_users db)) ->
  sound {| AppDb.db_users := AppDb.db_users db ++ [u]; AppDb.db_orders := AppDb.db_orders db |}.
Proof.
  intros [Hnd Hl] Hu. split; cbn.
  - rewrite map_app. cbn. apply increasing_snoc; [exact Hnd |].
    intros i Hi. rewrite Hu. apply next_rowid_above, Hi.
  - intros o Ho. destruct (Hl o Ho) as (v & Hv & Hid).
    exists v. split; [apply elem_of_app; left; exact Hv | exact Hid].
Qed.

Lemma sound_update db new_name uid : sound db -> sound (AppDb.update_name new_name uid db).
Proof.
  intros [Hnd Hl]. split; cbn.
  - rewrite map_map. erewrite map_ext; [exact Hnd |].
    intros u. cbn. destruct (AppDb.user_row_id u =? uid)%Z; reflexivity.
  - intros o Ho. destruct (Hl o Ho) as (v & Hv & Hid).
    eexists. split; [apply list_elem_of_fmap; eexists; split; [reflexivity | exact Hv] |].
    cbn. destruct (AppDb.user_row_id v =? uid)%Z; exact Hid.
Qed.

(** The environment in which the operation of /database-ops starts: the
    request was logged. *)
Lemma database_operations_select req db en :
  asked req = "select" ->
  exists resp en',
    AppDb.database_operations req db en = (Ok resp, db, en') /\
    operation_done "select" (map AppDb.json_of_spending (AppDb.select_spending db)) resp.
Proof.
  unfold asked. intros Hop. unfold AppDb.database_operations. rewrite Hop. cbn.
  eexists _, _. split; [reflexivity |]. repeat split.
Qed.

Lemma database_operations_insert req db en :
  asked req = "insert" ->
  let en0 := {| clock := clock en; entropy := entropy en; cursor := cursor en;
                trace := trace en ++
                  [Logged INFO [Lit "Performing database operation: "; Lit "insert"]] |} in
  let u := {| AppDb.user_row_id := AppDb.next_rowid (map AppDb.user_row_id (AppDb.db_users db));
              AppDb.user_row_name := inserted_name en0;
              AppDb.user_row_email := inserted_email en0;
              AppDb.user_row_created_at := clock en |} in
  exists resp en',
    AppDb.database_operations req db en =
      (Ok resp,
       {| AppDb.db_users := AppDb.db_users db ++ [u]; AppDb.db_orders := AppDb.db_orders db |},
       en') /\
    operation_done "insert"
      [JObj [("inserted_user", JStr (inserted_name en0));
             ("email", JStr (inserted_email en0))]] resp.
Proof.
  unfold asked. intros Hop. unfold AppDb.database_operations. rewrite Hop. cbn.
  eexists _, _. split; [reflexivity |]. repeat split.
Qed.

Lemma database_operations_update req db en :
  asked req = "update" ->
  let en0 := {| clock := clock en; entropy := entropy en; cursor := cursor en;
                trace := trace en ++
                  [Logged INFO [Lit "Performing database operation: "; Lit "update"]] |} in
  let uid := drawn 1 3 en0 in
  let new_name := ("Updated_" ++ pretty (drawn 1000 9999 (after_draw en0)))%string in
  exists resp en',
    AppDb.database_operations req db en =
      (Ok resp, AppDb.update_name new_name uid db, en') /\
    operation_done "update"
      [JObj [("updated_user_id", JInt uid); ("new_name", JStr new_name);
             ("changes", JInt (AppDb.total_changes uid (AppDb.update_name new_name uid db)))]]
      resp.
Proof.
  unfold asked. intros Hop. unfold AppDb.database_operations. rewrite Hop. cbn.
  eexists _, _. split; [reflexivity |]. repeat split.
Qed.

Lemma database_operations_other req db en :
  asked req ∉ ["select"; "insert"; "update"] ->
  exists resp en',
    AppDb.database_operations req db en = (Ok resp, db, en') /\
    operation_done (asked req)
      [JObj [("error", JStr "Invalid operation. Use: select, insert, or update")]] resp.
Proof.
  rewrite !not_elem_of_cons. intros (H1 & H2 & H3 & _).
  unfold AppDb.database_operations. fold (asked req). rewrite bind_log, bind_now.
  unfold try_except.
  destruct (String.eqb_spec (asked req) "select"); [contradiction |].
  destruct (String.eqb_spec (asked req) "insert"); [contradiction |].
  destruct (String.eqb_spec (asked req) "update"); [contradiction |].
  cbn. eexists _, _. split; [reflexivity |]. repeat split.
Qed.

Lemma asked_cases req :
  asked req = "select" \/ asked req = "insert" \/ asked req = "update" \/
  asked req ∉ ["select"; "insert"; "update"].
Proof.
  destruct (String.eqb_spec (asked req) "select"); [tauto |].
  destruct (String.eqb_spec (asked req) "insert"); [tauto |].
  destruct (String.eqb_spec (asked req) "update"); [tauto |].
  right; right; right. rewrite !not_elem_of_cons. repeat split; try assumption.
  apply not_elem_of_nil.
Qed.

(** X20: /database-ops on sound tables (users in the order of their id, every
    order owned by a user) always answers 200 and leaves the tables sound.  It
    never touches the orders; unless the operation is [insert] the ids and the
    emails of the users stay as they are; unless it is [insert] or [update]
    nothing changes at all.  An operation other than select, insert and update
    is also answered 200, "Database <operation> completed successfully", with
    the error "Invalid operation. Use: select, insert, or update" as result. *)
Theorem database_operations_keep_the_tables_sound (req : App.request)
    (db : AppDb.database) (en : env) :
  sound db ->
  exists resp db' en',
    AppDb.database_operations req db en = (Ok resp, db', en') /\
    status resp = 200%Z /\ sound db' /\
    AppDb.db_orders db' = AppDb.db_orders db /\
    (asked req <> "insert" ->
     map AppDb.user_row_id (AppDb.db_users db') = map AppDb.user_row_id (AppDb.db_users db) /\
     map AppDb.user_row_email (AppDb.db_users db') =
       map AppDb.user_row_email (AppDb.db_users db)) /\
    (asked req <> "insert" -> asked req <> "update" -> db' = db) /\
    (asked req ∉ ["select"; "insert"; "update"] ->
     operation_done (asked req)
       [JObj [("error", JStr "Invalid operation. Use: select, insert, or update")]] resp).
Proof.
  intros Hs. destruct (asked_cases req) as [H | [H | [H | H]]].
  - destruct (database_operations_select req db en H) as (resp & en' & E & (Hst & _)).
    exists resp, db, en'. split; [exact E |]. split; [exact Hst |]. split; [exact Hs |].
    split; [reflexivity |]. split; [intros _; split; reflexivity |].
    split; [reflexivity |]. intros Hno. exfalso. apply Hno. rewrite H. set_solver.
  - destruct (database_operations_insert req db en H) as (resp & en' & E & (Hst & _)).
    eexists resp, _, en'. split; [exact E |]. split; [exact Hst |].
    split; [apply sound_insert; [exact Hs | reflexivity] |]. split; [reflexivity |].
    split; [intros Hne; contradiction |]. split; [intros Hne; contradiction |].
    intros Hno. exfalso. apply Hno. rewrite H. set_solver.
  - destruct (database_operations_update req db en H) as (resp & en' & E & (Hst & _)).
    eexists resp, _, en'. split; [exact E |]. split; [exact Hst |].
    split; [apply sound_update, Hs |]. split; [reflexivity |].
    split.
    { intros _. cbn. rewrite !map_map. split; apply map_ext; intros u; cbn;
        destruct (AppDb.user_row_id u =? _)%Z; reflexivity. }
    split; [intros _ Hne; contradiction |].
    intros Hno. exfalso. apply Hno. rewrite H. set_solver.
  - destruct (database_operations_other req db en H) as (resp & en' & E & Hd).
    exists resp, db, en'. split; [exact E |]. split; [apply Hd |]. split; [exact Hs |].
    split; [reflexivity |]. split; [intros _; split; reflexivity |].
    split; [reflexivity |]. intros _. exact Hd.
Qed.

Lemma orders_of_new_user db u :
  sound db ->
  AppDb.user_row_id u = AppDb.next_rowid (map AppDb.user_row_id (AppDb.db_users db)) ->
  AppDb.orders_of db u = [].
Proof.
  intros [_ Hl] Hu. unfold AppDb.orders_of.
  induction (AppDb.db_orders db) as [| o os IH]; [reflexivity |]. cbn.
  destruct (Z.eqb_spec (AppDb.order_row_user_id o) (AppDb.user_row_id u)) as [He | _].
  - exfalso. destruct (Hl o) as (v & Hv & Hid); [left |].
    apply (next_rowid_fresh (map AppDb.user_row_id (AppDb.db_users db))).
    rewrite <- Hu, <- He, <- Hid. apply list_elem_of_fmap. exists v. split; [reflexivity | exact Hv].
  - apply IH. intros o' Ho'. apply Hl. right. exact Ho'.
Qed.

Lemma select_spending_insert db u :
  sound db ->
  AppDb.user_row_id u = AppDb.next_rowid (map AppDb.user_row_id (AppDb.db_users db)) ->
  AppDb.select_spending
    {| AppDb.db_users := AppDb.db_users db ++ [u]; AppDb.db_orders := AppDb.db_orders db |} =
  AppDb.select_spending db ++
    [(AppDb.user_row_name u, AppDb.user_row_email u, 0%Z, None)].
Proof.
  intros Hs Hu. unfold AppDb.select_spending. cbn [AppDb.db_users].
  rewrite map_app. cbn [map]. f_equal. f_equal.
  change (AppDb.orders_of {| AppDb.db_users := AppDb.db_users db ++ [u];
                             AppDb.db_orders := AppDb.db_orders db |} u)
    with (AppDb.orders_of db u).
  rewrite (orders_of_new_user db u Hs Hu). reflexivity.
Qed.

(** X21: a user inserted by /database-ops is selected.  The operation
    [insert] reports a user named User_<n> with the email
    user<n'>@example.com, n and n' drawn one after the other in 1000..9999; a
    [select] that follows returns the rows that [select] gave before the
    insertion, followed by the new user with 0 orders and the total [null], and
    changes nothing. *)
Theorem inserted_user_is_selected (insert select : App.request) (db : AppDb.database)
    (en en2 : env) :
  sound db -> asked insert = "insert" -> asked select = "select" ->
  exists resp db' en' name email resp2 en3,
    AppDb.database_operations insert db en = (Ok resp, db', en') /\
    operation_done "insert"
      [JObj [("inserted_user", JStr name); ("email", JStr email)]] resp /\
    (exists n n', (1000 <= n <= 9999)%Z /\ (1000 <= n' <= 9999)%Z /\
       name = ("User_" ++ pretty n)%string /\
       email = ("user" ++ pretty n' ++ "@example.com")%string) /\
    AppDb.database_operations select db' en2 = (Ok resp2, db', en3) /\
    operation_done "select"
      (map AppDb.json_of_spending (AppDb.select_spending db) ++
       [JObj [("name", JStr name); ("email", JStr email);
              ("orders", JInt 0); ("total", JNull)]]) resp2.
Proof.
  intros Hs Hi Hsel.
  destruct (database_operations_insert insert db en Hi) as (resp & en' & E & Hd).
  cbv zeta in E, Hd.
  match type of E with _ = (_, ?d, _) =>
    destruct (database_operations_select select d en2 Hsel) as (resp2 & en3 & E2 & Hd2) end.
  eexists resp, _, en', _, _, resp2, en3. split; [exact E |]. split; [exact Hd |].
  split.
  { eexists _, _. split; [apply drawn_range; lia |]. split; [apply drawn_range; lia |].
    split; reflexivity. }
  split; [exact E2 |].
  rewrite select_spending_insert in Hd2 by (first [exact Hs | reflexivity]).
  rewrite map_app in Hd2. exact Hd2.
Qed.

Lemma count_key (uid : Z) (l : list AppDb.user_row) :
  NoDup (map AppDb.user_row_id l) -> uid ∈ map AppDb.user_row_id l ->
  length (List.filter (fun u => (AppDb.user_row_id u =? uid)%Z) l) = 1%nat.
Proof.
  induction l as [| u l IH]; intros Hnd Hin; [inversion Hin |].
  cbn in Hnd. apply NoDup_cons in Hnd as [Hu Hnd]. cbn.
  destruct (Z.eqb_spec (AppDb.user_row_id u) uid) as [He | Hne].
  - cbn. f_equal. subst uid.
    assert (H : forall v, v ∈ l -> (AppDb.user_row_id v =? AppDb.user_row_id u)%Z = false).
    { intros v Hv. apply Z.eqb_neq. intros Hid. apply Hu. rewrite <- Hid.
      apply list_elem_of_fmap. exists v. split; [reflexivity | exact Hv]. }
    clear -H. induction l as [| v l IH]; [reflexivity |]. cbn.
    rewrite H by left. apply IH. intros w Hw. apply H. right. exact Hw.
  - apply IH; [exact Hnd |]. cbn in Hin. apply elem_of_cons in Hin as [Hin | Hin]; [congruence | exact Hin].
Qed.

(** X22: [update] renames one user.  On sound tables that hold the users 1,
    2 and 3, the operation [update] of /database-ops draws one of these ids and
    a name Updated_<n>, n in 1000..9999, gives this name to the user of that
    id and to no other row, reports 1 change, and leaves ids, emails and orders
    as they are. *)
Theorem update_renames_one_sample_user (req : App.request) (db : AppDb.database)
    (en : env) :
  sound db -> asked req = "update" ->
  (forall i, (1 <= i <= 3)%Z -> i ∈ map AppDb.user_row_id (AppDb.db_users db)) ->
  exists resp db' en' uid n,
    AppDb.database_operations req db en = (Ok resp, db', en') /\
    (1 <= uid <= 3)%Z /\ (1000 <= n <= 9999)%Z /\
    let new_name := ("Updated_" ++ pretty n)%string in
    operation_done "update"
      [JObj [("updated_user_id", JInt uid); ("new_name", JStr new_name);
             ("changes", JInt 1)]] resp /\
    AppDb.db_users db' =
      map (fun u => if (AppDb.user_row_id u =? uid)%Z then renamed new_name u else u)
          (AppDb.db_users db) /\
    AppDb.db_orders db' = AppDb.db_orders db.
Proof.
  intros [Hnd Hl] Hop Hids.
  destruct (database_operations_update req db en Hop) as (resp & en' & E & Hd).
  cbv zeta in E, Hd.
  eexists resp, _, en', _, _. split; [exact E |].
  split; [apply drawn_range; lia |]. split; [apply drawn_range; lia |].
  cbv zeta. split; [| split; reflexivity].
  match type of Hd with context [AppDb.total_changes ?u ?d] =>
    replace (AppDb.total_changes u d) with 1%Z in Hd; [exact Hd |] end.
  apply increasing_NoDup in Hnd.
  unfold AppDb.total_changes. rewrite count_key; [reflexivity | |].
  - cbn. rewrite map_map. erewrite map_ext; [exact Hnd |].
    intros u. cbn. destruct (AppDb.user_row_id u =? _)%Z; reflexivity.
  - cbn. rewrite map_map. erewrite map_ext; [apply Hids, drawn_range; lia |].
    intros u. cbn. destruct (AppDb.user_row_id u =? _)%Z; reflexivity.
Qed.

Lemma three_increasing : increasing [1%Z; 2%Z; 3%Z].
Proof.
  intros i j x y Hi Hj L.
  destruct i as [| [| [| i]]]; destruct j as [| [| [| j]]]; cbn in Hi, Hj;
    try discriminate; try lia; injection Hi as <-; injection Hj as <-; lia.
Qed.

Lemma linked_by_lookup (l : list AppDb.user_row) (k : nat) u uid :
  l !! k = Some u -> AppDb.user_row_id u = uid ->
  exists v, v ∈ l /\ AppDb.user_row_id v = uid.
Proof. intros Hk Hu. exists u. split; [eapply list_elem_of_lookup_2, Hk | exact Hu]. Qed.

Lemma init_db_skips db en :
  AppDb.db_users db <> [] -> AppDb.init_db db en = (Ok tt, db, en).
Proof.
  intros Hne. unfold AppDb.init_db. rewrite bind_get.
  destruct (AppDb.db_users db) as [| u l]; [contradiction | reflexivity].
Qed.

Lemma init_db_seeds orders en :
  let db := {| AppDb.db_users := []; AppDb.db_orders := orders |} in
  exists db', AppDb.init_db db en = (Ok tt, db', en) /\
    users_columns db' =
      [(1%Z, "John Doe", "john@example.com"); (2%Z, "Jane Smith", "jane@example.com");
       (3%Z, "Bob Johnson", "bob@example.com")] /\
    exists added, AppDb.db_orders db' = orders ++ added /\
      map (fun o => (AppDb.order_row_user_id o, AppDb.order_row_product o,
                     AppDb.order_row_amount o)) added =
        [(1%Z, "Laptop", 999.99%Q); (2%Z, "Mouse", 29.99%Q); (3%Z, "Keyboard", 79.99%Q)].
Proof.
  cbv zeta. unfold AppDb.init_db. rewrite bind_get. cbn [AppDb.db_users length].
  change (Z.of_nat 0 =? 0)%Z with true. cbv iota.
  unfold for_each. cbn [AppDb.sample_users AppDb.sample_orders for_fold fst snd].
  unfold bind, AppDb.insert_user, AppDb.insert_order, bind, now, modify, ret.
  cbn [AppDb.db_users AppDb.db_orders app].
  eexists. split; [reflexivity |]. cbn [AppDb.db_users AppDb.db_orders].
  split; [reflexivity |]. rewrite <- !app_assoc. cbn [app].
  eexists. split; [reflexivity |]. reflexivity.
Qed.

(** X19: [init_db] seeds once.  On empty tables it inserts the three sample
    users under the ids 1, 2, 3 and the three sample orders under the ids 1,
    2, 3, each order for the user of the same id, and the tables are sound; on
    tables with at least one user it changes nothing; so running it again
    after any run changes nothing. *)
Theorem init_db_seeds_once :
  (forall en, exists db',
     AppDb.init_db empty_db en = (Ok tt, db', en) /\ sound db' /\
     users_columns db' =
       [(1%Z, "John Doe", "john@example.com"); (2%Z, "Jane Smith", "jane@example.com");
        (3%Z, "Bob Johnson", "bob@example.com")] /\
     orders_columns db' =
       [(1%Z, 1%Z, "Laptop", 999.99%Q); (2%Z, 2%Z, "Mouse", 29.99%Q);
        (3%Z, 3%Z, "Keyboard", 79.99%Q)]) /\
  (forall db en, AppDb.db_users db <> [] -> AppDb.init_db db en = (Ok tt, db, en)) /\
  (forall db en, exists db' en',
     AppDb.init_db db en = (Ok tt, db', en') /\
     forall en2, AppDb.init_db db' en2 = (Ok tt, db', en2)).
Proof.
  split; [| split].
  - intros en. eexists. split; [reflexivity |]. split; [| split; reflexivity].
    split.
    + apply three_increasing.
    + cbn. intros o Ho. rewrite !elem_of_cons, elem_of_nil in Ho.
      destruct Ho as [-> | [-> | [-> | []]]];
        first [ eapply (linked_by_lookup _ 0); reflexivity
              | eapply (linked_by_lookup _ 1); reflexivity
              | eapply (linked_by_lookup _ 2); reflexivity ].
  - apply init_db_skips.
  - intros db en. destruct (AppDb.db_users db) as [| u l] eqn:Hu.
    + destruct db as [us os]. cbn in Hu. subst us.
      destruct (init_db_seeds os en) as (db' & E & Hc & _).
      exists db', en. split; [exact E |]. intros en2. apply init_db_skips.
      intros Hnil. unfold users_columns in Hc. rewrite Hnil in Hc. discriminate.
    + exists db, en. assert (Hne : AppDb.db_users db <> []) by (rewrite Hu; discriminate).
      split; [apply init_db_skips, Hne |]. intros en2. apply init_db_skips, Hne.
Qed.

(** ** /custom-metrics *)

Lemma py_round_between (digits : nat) (x : Q) (L H : Z) :
  let scale := inject_Z (10 ^ Z.of_nat digits) in
  (inject_Z L <= x * scale)%Q -> (x * scale <= inject_Z H)%Q ->
  (inject_Z L / scale <= App.py_round digits x /\ App.py_round digits x <= inject_Z H / scale)%Q.
Proof.
  cbv zeta. intros HL HH. unfold App.py_round.
  set (scale := inject_Z (10 ^ Z.of_nat digits)) in *.
  set (y := (x * scale)%Q) in *.
  assert (Hs : (0 < scale)%Q).
  { unfold scale. change 0%Q with (inject_Z 0). rewrite <- Zlt_Qlt. apply Z.pow_pos_nonneg; lia. }
  assert (Hinv : (0 < / scale)%Q) by (apply Qinv_lt_0_compat, Hs).
  assert (Hfl : (L <= Qfloor y)%Z).
  { rewrite <- (Qfloor_Z L). apply Qfloor_resp_le, HL. }
  assert (Hfh : (Qfloor y <= H)%Z).
  { rewrite <- (Qfloor_Z H). apply Qfloor_resp_le, HH. }
  assert (Hup : (1 # 2 <= y - inject_Z (Qfloor y))%Q -> (Qfloor y + 1 <= H)%Z).
  { intros Hr. assert (Hlt : (inject_Z (Qfloor y) < inject_Z H)%Q) by lra.
    rewrite <- Zlt_Qlt in Hlt. lia. }
  assert (Hn : forall n : Z, (L <= n <= H)%Z ->
            (inject_Z L / scale <= inject_Z n / scale /\ inject_Z n / scale <= inject_Z H / scale)%Q).
  { intros n [Hln Hnh]. unfold Qdiv. split; apply Qmult_le_compat_r;
      try (rewrite <- Zle_Qle; assumption); apply Qlt_le_weak, Hinv. }
  apply Hn.
  destruct (Qle_bool (y - inject_Z (Qfloor y)) (1 # 2)) eqn:E1.
  - destruct (Qle_bool (1 # 2) (y - inject_Z (Qfloor y))) eqn:E2.
    + apply Qle_bool_iff in E2. specialize (Hup E2).
      destruct (Z.even (Qfloor y)); lia.
    + lia.
  - assert (E2 : (1 # 2 <= y - inject_Z (Qfloor y))%Q).
    { apply Qlt_le_weak, Qnot_le_lt. intros Hle. apply Qle_bool_iff in Hle. congruence. }
    specialize (Hup E2). lia.
Qed.

Lemma uniform_run {St} (a b : Q) (st : St) en :
  uniform a b st en = (Ok (a + (b - a) * next_draw en)%Q, st, after_draw en).
Proof. reflexivity. Qed.

Lemma next_draw_bounds en : (0 <= next_draw en /\ next_draw en < 1)%Q.
Proof. apply sample_bounds. Qed.

Arguments App.py_round : simpl never.

Lemma rounded_within (digits : nat) (a b x : Q) :
  let scale := inject_Z (10 ^ Z.of_nat digits) in
  (inject_Z (Qfloor (a * scale)) == a * scale)%Q ->
  (inject_Z (Qfloor (b * scale)) == b * scale)%Q ->
  (a <= x /\ x <= b)%Q ->
  (a <= App.py_round digits x /\ App.py_round digits x <= b)%Q.
Proof.
  cbv zeta. intros HL HH [Ha Hb].
  set (scale := inject_Z (10 ^ Z.of_nat digits)) in *.
  assert (Hs : (0 < scale)%Q).
  { unfold scale. change 0%Q with (inject_Z 0). rewrite <- Zlt_Qlt. apply Z.pow_pos_nonneg; lia. }
  destruct (py_round_between digits x (Qfloor (a * scale)) (Qfloor (b * scale))) as [Hlo Hhi];
    fold scale.
  - rewrite HL. apply Qmult_le_compat_r; [exact Ha | apply Qlt_le_weak, Hs].
  - rewrite HH. apply Qmult_le_compat_r; [exact Hb | apply Qlt_le_weak, Hs].
  - fold scale in Hlo, Hhi.
    assert (Ea : (inject_Z (Qfloor (a * scale)) / scale == a)%Q).
    { rewrite HL. field. intros Hz. rewrite Hz in Hs. apply (Qlt_irrefl 0), Hs. }
    assert (Eb : (inject_Z (Qfloor (b * scale)) / scale == b)%Q).
    { rewrite HH. field. intros Hz. rewrite Hz in Hs. apply (Qlt_irrefl 0), Hs. }
    rewrite Ea in Hlo. rewrite Eb in Hhi. split; assumption.
Qed.

Lemma uniform_value_between (a b : Q) en :
  (a <= b)%Q -> (a <= a + (b - a) * next_draw en /\ a + (b - a) * next_draw en <= b)%Q.
Proof.
  intros Hab. destruct (next_draw_bounds en) as [H0 H1]. apply between_ends; assumption.
Qed.

Ltac metric_in_range :=
  first
    [ eexists; split; [reflexivity | apply drawn_range; lia]
    | eexists; split; [reflexivity |];
      apply rounded_within;
        [ vm_compute; reflexivity
        | vm_compute; reflexivity
        | apply uniform_value_between; discriminate ] ].

(** Runs the first draw of the handler in the goal. *)
Ltac draw_step :=
  rewrite ?bind_bind;
  first [ rewrite (bind_run _ _ _ _ _ _ _ (randint_run _ _ _ _))
        | rewrite (bind_run _ _ _ _ _ _ _ (uniform_run _ _ _ _)) ];
  cbv beta.

(** X18: /custom-metrics answers 200 with five metrics and changes nothing.
    Without the parameter [type], or with "business", they are the business
    metrics; any other type gives the technical ones.  Every metric lies in the
    range it is drawn from, rounding included: active_users in 100..1000,
    revenue in 1000..10000, conversion_rate in 0.1..0.3, avg_order_value in
    50..200, customer_satisfaction in 4..5; cache_hit_rate in 0.8..0.99,
    queue_depth in 0..100, processing_time_ms in 10..500, throughput_rps in
    100..1000, error_rate in 0.001..0.05. *)
Theorem custom_metrics_stay_in_range (req : App.request) (st : App.store) (en : env) :
  exists resp en',
    App.custom_metrics req st en = (Ok (Some resp), st, en') /\
    status resp = 200%Z /\
    field "metric_type" (resp_body resp) = Some (JStr (metric_kind req)) /\
    field "message" (resp_body resp) =
      Some (JText [Lit "Generated "; FInt 5; Lit " "; Lit (metric_kind req); Lit " metrics"]) /\
    if String.eqb (metric_kind req) "business"
    then counted_within "active_users" 100 1000 resp /\
         measured_within "revenue" 1000 10000 resp /\
         measured_within "conversion_rate" 0.1 0.3 resp /\
         measured_within "avg_order_value" 50 200 resp /\
         measured_within "customer_satisfaction" 4.0 5.0 resp
    else measured_within "cache_hit_rate" 0.8 0.99 resp /\
         counted_within "queue_depth" 0 100 resp /\
         counted_within "processing_time_ms" 10 500 resp /\
         counted_within "throughput_rps" 100 1000 resp /\
         measured_within "error_rate" 0.001 0.05 resp.
Proof.
  unfold App.custom_metrics. fold (metric_kind req).
  destruct (String.eqb (metric_kind req) "business").
  - rewrite !bind_bind.
    do 5 draw_step.
    rewrite ?bind_bind, bind_log. unfold bind at 1, ret at 1. rewrite bind_now.
    eexists _, _. split; [reflexivity |]. split; [reflexivity |]. split; [reflexivity |].
    split; [reflexivity |].
    unfold counted_within, measured_within. cbn [resp_body jsonify field assoc map fst snd].
    repeat split; metric_in_range.
  - rewrite !bind_bind.
    do 5 draw_step.
    rewrite ?bind_bind, bind_log. unfold bind at 1, ret at 1. rewrite bind_now.
    eexists _, _. split; [reflexivity |]. split; [reflexivity |]. split; [reflexivity |].
    split; [reflexivity |].
    unfold counted_within, measured_within. cbn [resp_body jsonify field assoc map fst snd].
    repeat split; metric_in_range.
Qed.

(* ===================================================================== *)
(** * The demos with SQLite and with hand-written spans                 *)
(* ===================================================================== *)

(** X23: POST /api/users of the SQLite demo stores nothing of a body that it
    refuses.  The body [null] is answered 500; a name or an email that is
    missing, [null], empty or 0 is answered 400 with "Name and email required";
    a name or an email that is a list, with both non-empty, is answered 500
    since SQLite cannot bind it.  In all these cases the table is left as it
    is. *)
Theorem app_demo_stores_nothing_it_refuses (data : body) (st : AppDemo.store) (en : env) :
  refused data ->
  exists resp en',
    serve (AppDemo.create_user data) st en = (Ok resp, st, en') /\ demo_refusal data resp.
Proof.
  intros Hr. unfold serve, try_except, AppDemo.create_user, AppDemo.get_or_none, dict_get.
  destruct data as [m |]; [| cbn; eexists _, _; split; reflexivity].
  unfold refused, demo_refusal, given in *.
  set (name := default VNone (m !! "name")) in *.
  set (email := default VNone (m !! "email")) in *.
  assert (En : match m !! "name" with Some v => Ok v | None => Ok VNone end = Ok name)
    by (unfold name; destruct (m !! "name"); reflexivity).
  assert (Ee : match m !! "email" with Some v => Ok v | None => Ok VNone end = Ok email)
    by (unfold email; destruct (m !! "email"); reflexivity).
  rewrite En, Ee. clearbody name email. cbn [of_result].
  unfold bind at 1, ret at 1. unfold bind at 1, ret at 1.
  destruct (truthy name) eqn:Tn; cbn [negb orb].
  2:{ cbn. eexists _, _. split; [reflexivity |]. split; [intros _; split; reflexivity |].
      intros H. discriminate. }
  destruct (truthy email) eqn:Te; cbn [negb].
  2:{ cbn. eexists _, _. split; [reflexivity |]. split; [intros _; split; reflexivity |].
      intros _ H. discriminate. }
  destruct Hr as [H | [H | Hl]]; try discriminate.
  rewrite bind_log. unfold AppDemo.insert_user.
  destruct Hl as [[l ->] | [l ->]].
  - cbn. eexists _, _. split; [reflexivity |]. split; [intros [? | ?]; discriminate |].
    intros _ _ _. reflexivity.
  - destruct name; cbn; eexists _, _; (split; [reflexivity |]);
      (split; [intros [? | ?]; discriminate | intros _ _ _; reflexivity]).
Qed.

(** Runs the first [time.sleep(random.uniform(a, b))] of the handler in the
    goal. *)
Ltac nap_step :=
  match goal with
  | |- context [bind (bind (uniform ?a ?b) ?k) ?k' ?s ?e] =>
      let en1 := fresh "en" in
      let E := fresh "E" in
      let Hc := fresh "Hc" in
      destruct (nap_run a b s e) as (en1 & E & Hc); [discriminate | discriminate |];
      rewrite (bind_run _ _ _ _ _ _ _ E); clear E Hc
  end.

Lemma bind_add_event {St B} span msg (k : unit -> M St B) (st : St) en :
  bind (add_event span msg) k st en =
    k tt st {| clock := clock en; entropy := entropy en; cursor := cursor en;
               trace := trace en ++ [SpanEvent span msg] |}.
Proof. reflexivity. Qed.

Lemma traced_create_user (b : body) st en :
  exists resp st' en',
    AppWithInstrumentation.handle_users "POST" b st en = (Ok resp, st', en') /\
    traced_contract st b resp st'.
Proof.
  unfold AppWithInstrumentation.handle_users. rewrite bind_log, bind_modify.
  change (String.eqb "POST" "POST") with true. cbv iota.
  unfold AppWithInstrumentation.create_user, try_except.
  nap_step. rewrite bind_add_event.
  destruct b as [m |].
  2:{ cbn. eexists _, _, _. split; [reflexivity |]. unfold traced_contract. cbn.
      split; [reflexivity |]. split; [intros _; repeat split |].
      intros name email [=]. }
  cbn [dict_get of_result]. unfold bind at 1, ret at 1. rewrite bind_add_event.
  nap_step. rewrite bind_get. cbn [getitem].
  destruct (m !! "name") as [name |] eqn:Hn.
  2:{ cbn. eexists _, _, _. split; [reflexivity |]. unfold traced_contract. cbn.
      rewrite Hn. split; [reflexivity |]. split; [intros _; repeat split |].
      intros name email [=]. }
  destruct (m !! "email") as [email |] eqn:He.
  2:{ cbn. eexists _, _, _. split; [reflexivity |]. unfold traced_contract. cbn.
      rewrite Hn, He. split; [reflexivity |]. split; [intros _; repeat split |].
      intros name' email' _ [=]. }
  cbn [of_result]. unfold bind at 1, ret at 1. unfold bind at 1, ret at 1.
  rewrite bind_now, bind_modify, bind_add_event.
  nap_step. cbn.
  eexists _, _, _. split; [reflexivity |]. unfold traced_contract. cbn.
  rewrite Hn, He. split; [reflexivity |]. split; [intros [? | ?]; discriminate |].
  intros name' email' [= <-] [= <-]. split; [reflexivity |]. split; [reflexivity |].
  eexists. split; reflexivity.
Qed.

Lemma traced_get_all_users st en :
  exists en',
    AppWithInstrumentation.handle_users "GET" None st en =
      (Ok (jsonify (JArr (map AppWithInstrumentation.json_of_row
                            (AppWithInstrumentation.users st))) 200),
       AppWithInstrumentation.count_request st, en').
Proof.
  unfold AppWithInstrumentation.handle_users. rewrite bind_log, bind_modify.
  change (String.eqb "GET" "POST") with false. cbv iota.
  unfold AppWithInstrumentation.get_all_users. rewrite bind_add_event.
  nap_step. cbn. eexists. reflexivity.
Qed.

(** X24: /api/users of the demo with hand-written spans.  Every request adds
    one to [requests_count].  A POST whose body is [null] or lacks the name or
    the email is answered 400 with "Failed to create user", adds one to
    [errors_count] and stores nothing.  A POST with a name and an email is
    answered 201 with the stored row, whose id is the length of the list plus
    one, and counts no error.  GET answers 200 with all the rows and changes
    nothing but [requests_count]. *)
Theorem traced_users_api_counts_and_appends (b : body) (st : AppWithInstrumentation.store)
    (en : env) :
  (exists resp st' en',
     AppWithInstrumentation.handle_users "POST" b st en = (Ok resp, st', en') /\
     traced_contract st b resp st') /\
  (exists listing st' en',
     AppWithInstrumentation.handle_users "GET" None st en = (Ok listing, st', en') /\
     status listing = 200%Z /\
     resp_body listing =
       JArr (map AppWithInstrumentation.json_of_row (AppWithInstrumentation.users st)) /\
     st' = AppWithInstrumentation.count_request st).
Proof.
  split; [apply traced_create_user |].
  destruct (traced_get_all_users st en) as (en' & E).
  eexists _, _, en'. split; [exact E |]. repeat split.
Qed.

(** X25: the demo with hand-written spans does not look for the email in the
    list.  The same body with a name and an email, posted twice, is answered
    201 twice; GET then returns the rows held before followed by two rows with
    this name and this email, under consecutive ids. *)
Theorem traced_demo_stores_the_same_email_twice (m : gmap string value)
    (name email : value) (st : AppWithInstrumentation.store) (en en2 en3 : env) :
  m !! "name" = Some name -> m !! "email" = Some email ->
  exists first st1 en1 second st2 en2' listing st3 en3' t1 t2,
    AppWithInstrumentation.handle_users "POST" (Some m) st en = (Ok first, st1, en1) /\
    AppWithInstrumentation.handle_users "POST" (Some m) st1 en2 = (Ok second, st2, en2') /\
    AppWithInstrumentation.handle_users "GET" None st2 en3 = (Ok listing, st3, en3') /\
    status first = 201%Z /\ status second = 201%Z /\ status listing = 200%Z /\
    let before := AppWithInstrumentation.users st in
    let u1 := traced_row before name email t1 in
    let u2 := traced_row (before ++ [u1]) name email t2 in
    AppWithInstrumentation.users st3 = before ++ [u1; u2] /\
    resp_body listing =
      JArr (map AppWithInstrumentation.json_of_row (before ++ [u1; u2])).
Proof.
  intros Hn He.
  assert (Hgn : getitem (Some m) "name" = Ok name) by (cbn; rewrite Hn; reflexivity).
  assert (Hge : getitem (Some m) "email" = Ok email) by (cbn; rewrite He; reflexivity).
  destruct (traced_create_user (Some m) st en) as (r1 & st1 & en1 & E1 & _ & _ & C1).
  destruct (C1 name email Hgn Hge) as (Hs1 & _ & t1 & Hu1 & _).
  destruct (traced_create_user (Some m) st1 en2) as (r2 & st2 & en2' & E2 & _ & _ & C2).
  destruct (C2 name email Hgn Hge) as (Hs2 & _ & t2 & Hu2 & _).
  destruct (traced_get_all_users st2 en3) as (en3' & E3).
  cbv zeta in Hu1, Hu2.
  eexists r1, st1, en1, r2, st2, en2', _, _, en3', t1, t2.
  split; [exact E1 |]. split; [exact E2 |]. split; [exact E3 |].
  split; [exact Hs1 |]. split; [exact Hs2 |]. split; [reflexivity |].
  cbv zeta. cbn [AppWithInstrumentation.users AppWithInstrumentation.count_request resp_body jsonify].
  rewrite Hu2, Hu1, <- app_assoc. split; reflexivity.
Qed.

(* ===================================================================== *)
(** * The further properties at concrete requests                       *)
(* ===================================================================== *)

Lemma fresh_lists_are_well_kept : well_kept [] [].
Proof.
  split; [| split].
  - intros k x H. destruct k; discriminate H.
  - apply NoDup_nil_2.
  - intros k x H. destruct k; discriminate H.
Defined.

Lemma requests_in_turn_keep_numbering_witness :
  well_kept (AppWithoutInst.users AppWithoutInst.initial)
    (AppWithoutInst.orders AppWithoutInst.initial) /\
  well_kept (LocalDeployment.users LocalDeployment.initial)
    (LocalDeployment.orders LocalDeployment.initial) /\
  (exists rs st' en',
     AppWithoutInst.answer_all ann_then_laptop AppWithoutInst.initial quiet_env =
       (Ok rs, st', en') /\
     length rs = length ann_then_laptop /\
     well_kept (AppWithoutInst.users st') (AppWithoutInst.orders st')) /\
  (exists rs st' en',
     LocalDeployment.answer_all ann_then_laptop_local LocalDeployment.initial quiet_env =
       (Ok rs, st', en') /\
     length rs = length ann_then_laptop_local /\
     well_kept (LocalDeployment.users st') (LocalDeployment.orders st')).
Proof.
  split; [exact fresh_lists_are_well_kept |]. split; [exact fresh_lists_are_well_kept |].
  exact (requests_in_turn_keep_numbering ann_then_laptop ann_then_laptop_local
           AppWithoutInst.initial LocalDeployment.initial quiet_env
           fresh_lists_are_well_kept fresh_lists_are_well_kept).
Defined.

Lemma created_user_is_listed_witness :
  exists resp st' en' listing st'' en'',
    AppWithoutInst.handle_users "POST" (Some ann) AppWithoutInst.initial quiet_env =
      (Ok resp, st', en') /\
    status resp = 201%Z /\
    AppWithoutInst.handle_users "GET" None st' quiet_env = (Ok listing, st'', en'') /\
    status listing = 200%Z /\
    resp_body listing =
      JArr (map json_of_user (AppWithoutInst.users AppWithoutInst.initial) ++ [resp_body resp]) /\
    AppWithoutInst.users st'' = AppWithoutInst.users st'.
Proof.
  destruct (AppWithoutInst.handle_users "POST" (Some ann) AppWithoutInst.initial quiet_env)
    as [[[resp | e] st'] en'] eqn:E.
  - assert (Hs : status resp = 201%Z).
    { revert E. vm_compute. intros [= <- _ _]. reflexivity. }
    destruct (proj1 created_user_is_listed (Some ann) AppWithoutInst.initial quiet_env
                resp st' en' quiet_env E Hs) as (listing & st'' & en'' & E2 & H).
    exists resp, st', en', listing, st'', en''.
    split; [reflexivity |]. split; [exact Hs |]. split; [exact E2 | exact H].
  - exfalso. revert E. vm_compute. discriminate.
Defined.

Lemma ann_can_order_a_laptop :
  can_order [ann_user] seed_products (VInt 1) 1 laptop.
Proof.
  split; [| split; [reflexivity | reflexivity]].
  exists ann_user. split; [left | reflexivity].
Defined.

Lemma one_order_can_exceed_the_stock_witness :
  eleven_laptops !! "user_id" = Some (VInt 1) /\
  eleven_laptops !! "product_ids" = Some (VList (replicate 11 1%Z)) /\
  can_order (AppWithoutInst.users without_inst_ann) (AppWithoutInst.products without_inst_ann)
    (VInt 1) 1 laptop /\
  can_order (LocalDeployment.users local_ann) (LocalDeployment.products local_ann)
    (VInt 1) 1 laptop /\
  (product_stock laptop - Z.of_nat 11 = -1)%Z /\
  (exists resp st' en',
     AppWithoutInst.create_order (Some eleven_laptops) without_inst_ann quiet_env =
       (Ok resp, st', en') /\
     took_units 11 1 laptop resp (AppWithoutInst.orders st') (AppWithoutInst.products st')) /\
  (exists resp st' en',
     LocalDeployment.create_order (Some eleven_laptops) local_ann quiet_env =
       (Ok resp, st', en') /\
     took_units 11 1 laptop resp (LocalDeployment.orders st') (LocalDeployment.products st')).
Proof.
  split; [reflexivity |]. split; [reflexivity |].
  split; [exact ann_can_order_a_laptop |]. split; [exact ann_can_order_a_laptop |].
  split; [reflexivity |].
  exact (one_order_can_exceed_the_stock eleven_laptops (VInt 1) 1 11 laptop laptop
           without_inst_ann local_ann quiet_env eq_refl eq_refl
           ann_can_order_a_laptop ann_can_order_a_laptop).
Defined.

Lemma fresh_local_is_mirrored : mirrored LocalDeployment.initial.
Proof. split; reflexivity. Defined.

Lemma local_totals_mirror_the_lists_witness :
  mirrored LocalDeployment.initial /\
  exists rs st' en',
    LocalDeployment.answer_all ann_then_laptop_local LocalDeployment.initial quiet_env =
      (Ok rs, st', en') /\ mirrored st'.
Proof.
  split; [exact fresh_local_is_mirrored |].
  exact (local_totals_mirror_the_lists ann_then_laptop_local LocalDeployment.initial quiet_env
           fresh_local_is_mirrored).
Defined.

Lemma nowhere_is_not_an_endpoint : "/nowhere" ∉ App.available_endpoints.
Proof. apply (bool_decide_unpack _). vm_compute. reflexivity. Defined.

Lemma nowhere_is_a_plain_path : plain_path "/nowhere".
Proof. split; reflexivity. Defined.

Lemma unknown_paths_get_the_list_of_endpoints_witness :
  plain_path (App.path (get_request "/nowhere" ∅)) /\
  (App.path (get_request "/nowhere" ∅) ∉ App.available_endpoints) /\
  exists view, App.handle (get_request "/nowhere" ∅) = Some view /\
    forall st en, exists resp en',
      view st en = (Ok resp, st, en') /\ lists_endpoints "/nowhere" resp.
Proof.
  split; [exact nowhere_is_a_plain_path |]. split; [exact nowhere_is_not_an_endpoint |].
  exact (proj2 (unknown_paths_get_the_list_of_endpoints (get_request "/nowhere" ∅))
           nowhere_is_a_plain_path nowhere_is_not_an_endpoint).
Defined.

Lemma health_is_a_get_rule : ("/health", "GET", App.HealthCheck) ∈ App.url_map.
Proof. apply list_elem_of_In. simpl. tauto. Defined.

Lemma post_is_tried : "POST" ∈ tried_methods.
Proof. apply list_elem_of_In. simpl. tauto. Defined.

Lemma post_is_not_get : "POST" <> "GET".
Proof. discriminate. Defined.

Lemma wrong_method_is_answered_500_witness :
  ("/health", "GET", App.HealthCheck) ∈ App.url_map /\
  "POST" ∈ tried_methods /\ "POST" <> "GET" /\
  exists view resp en',
    App.handle (post_request "/health" ∅) = Some view /\
    view App.initial quiet_env = (Ok resp, App.initial, en') /\
    application_error "MethodNotAllowed" resp.
Proof.
  split; [exact health_is_a_get_rule |]. split; [exact post_is_tried |].
  split; [exact post_is_not_get |].
  exact (wrong_method_is_answered_500 (post_request "/health" ∅) "GET" App.HealthCheck
           App.initial quiet_env health_is_a_get_rule post_is_tried post_is_not_get).
Defined.


Lemma verbose_is_no_mode : "verbose" ∉ error_modes.
Proof. apply (bool_decide_unpack _). vm_compute. reflexivity. Defined.

Lemma error_test_default_and_unknown_modes_witness :
  (exists view resp en',
     App.handle (get_request "/error-test" ∅) = Some view /\
     view App.initial quiet_env = (Ok resp, App.initial, en') /\
     status resp = 500%Z /\
     field "error_type" (resp_body resp) = Some (JStr "http_error")) /\
  (exists view resp en',
     App.handle (error_request "verbose") = Some view /\
     view App.initial quiet_env = (Ok resp, App.initial, en') /\
     status resp = 400%Z /\
     field "error" (resp_body resp) = Some (JStr "Unknown error type") /\
     field "valid_types" (resp_body resp) = Some (JArr (map JStr error_modes))).
Proof.
  split.
  - exact (proj1 (error_test_default_and_unknown_modes (get_request "/error-test" ∅)
                    App.initial quiet_env eq_refl eq_refl) eq_refl).
  - exact (proj2 (error_test_default_and_unknown_modes (error_request "verbose")
                    App.initial quiet_env eq_refl eq_refl) "verbose" eq_refl verbose_is_no_mode).
Defined.

Lemma cpu_intensive_pauses_every_10000_witness :
  let req := get_request "/cpu-intensive" {[ "iterations" := "20001" ]} in
  App.int_arg req "iterations" 100000 = Ok 20001%Z /\ pauses 20001 = 3%nat /\
  exists view resp en',
    App.handle req = Some view /\ view App.initial quiet_env = (Ok resp, App.initial, en') /\
    status resp = 200%Z /\
    sleeps (trace en') = sleeps (trace quiet_env) ++ replicate (pauses 20001) 0.001%Q /\
    ((20001 <= 0)%Z ->
     field "result" (resp_body resp) = Some (JInt 0) /\
     sleeps (trace en') = sleeps (trace quiet_env)).
Proof.
  cbv zeta. split; [reflexivity |]. split; [reflexivity |].
  exact (cpu_intensive_pauses_every_10000
           (get_request "/cpu-intensive" {[ "iterations" := "20001" ]}) 20001
           App.initial quiet_env eq_refl eq_refl eq_refl).
Defined.

Lemma seeded_db_is_sound : sound seeded_db.
Proof.
  split.
  - apply three_increasing.
  - let d := eval vm_compute in seeded_db in change seeded_db with d.
    cbn [AppDb.db_orders AppDb.db_users].
    intros o Ho. rewrite !elem_of_cons, elem_of_nil in Ho.
    destruct Ho as [-> | [-> | [-> | []]]];
      first [ eapply (linked_by_lookup _ 0); reflexivity
            | eapply (linked_by_lookup _ 1); reflexivity
            | eapply (linked_by_lookup _ 2); reflexivity ].
Qed.

Lemma seeded_db_has_the_sample_users (i : Z) :
  (1 <= i <= 3)%Z -> i ∈ map AppDb.user_row_id (AppDb.db_users seeded_db).
Proof.
  intros H. apply list_elem_of_In.
  let d := eval vm_compute in seeded_db in change seeded_db with d. simpl.
  destruct (Z.eq_dec i 1%Z) as [-> | H1]; [tauto |].
  destruct (Z.eq_dec i 2%Z) as [-> | H2]; [tauto |].
  destruct (Z.eq_dec i 3%Z) as [-> | H3]; [tauto |]. lia.
Qed.

Lemma database_operations_keep_the_tables_sound_witness :
  let req := get_request "/database-ops" {[ "operation" := "delete" ]} in
  sound seeded_db /\
  exists resp db' en',
    AppDb.database_operations req seeded_db quiet_env = (Ok resp, db', en') /\
    status resp = 200%Z /\ sound db' /\
    AppDb.db_orders db' = AppDb.db_orders seeded_db /\
    (asked req <> "insert" ->
     map AppDb.user_row_id (AppDb.db_users db') =
       map AppDb.user_row_id (AppDb.db_users seeded_db) /\
     map AppDb.user_row_email (AppDb.db_users db') =
       map AppDb.user_row_email (AppDb.db_users seeded_db)) /\
    (asked req <> "insert" -> asked req <> "update" -> db' = seeded_db) /\
    (asked req ∉ ["select"; "insert"; "update"] ->
     operation_done (asked req)
       [JObj [("error", JStr "Invalid operation. Use: select, insert, or update")]] resp).
Proof.
  cbv zeta. split; [exact seeded_db_is_sound |].
  exact (database_operations_keep_the_tables_sound
           (get_request "/database-ops" {[ "operation" := "delete" ]})
           seeded_db quiet_env seeded_db_is_sound).
Defined.

Lemma inserted_user_is_selected_witness :
  let insert := get_request "/database-ops" {[ "operation" := "insert" ]} in
  let select := get_request "/database-ops" ∅ in
  sound seeded_db /\ asked insert = "insert" /\ asked select = "select" /\
  exists resp db' en' name email resp2 en3,
    AppDb.database_operations insert seeded_db quiet_env = (Ok resp, db', en') /\
    operation_done "insert"
      [JObj [("inserted_user", JStr name); ("email", JStr email)]] resp /\
    (exists n n', (1000 <= n <= 9999)%Z /\ (1000 <= n' <= 9999)%Z /\
       name = ("User_" ++ pretty n)%string /\
       email = ("user" ++ pretty n' ++ "@example.com")%string) /\
    AppDb.database_operations select db' quiet_env = (Ok resp2, db', en3) /\
    operation_done "select"
      (map AppDb.json_of_spending (AppDb.select_spending seeded_db) ++
       [JObj [("name", JStr name); ("email", JStr email);
              ("orders", JInt 0); ("total", JNull)]]) resp2.
Proof.
  cbv zeta. split; [exact seeded_db_is_sound |]. split; [reflexivity |]. split; [reflexivity |].
  exact (inserted_user_is_selected
           (get_request "/database-ops" {[ "operation" := "insert" ]})
           (get_request "/database-ops" ∅)
           seeded_db quiet_env quiet_env seeded_db_is_sound eq_refl eq_refl).
Defined.

Lemma update_renames_one_sample_user_witness :
  let req := get_request "/database-ops" {[ "operation" := "update" ]} in
  sound seeded_db /\ asked req = "update" /\
  (forall i, (1 <= i <= 3)%Z -> i ∈ map AppDb.user_row_id (AppDb.db_users seeded_db)) /\
  exists resp db' en' uid n,
    AppDb.database_operations req seeded_db quiet_env = (Ok resp, db', en') /\
    (1 <= uid <= 3)%Z /\ (1000 <= n <= 9999)%Z /\
    let new_name := ("Updated_" ++ pretty n)%string in
    operation_done "update"
      [JObj [("updated_user_id", JInt uid); ("new_name", JStr new_name);
             ("changes", JInt 1)]] resp /\
    AppDb.db_users db' =
      map (fun u => if (AppDb.user_row_id u =? uid)%Z then renamed new_name u else u)
          (AppDb.db_users seeded_db) /\
    AppDb.db_orders db' = AppDb.db_orders seeded_db.
Proof.
  cbv zeta. split; [exact seeded_db_is_sound |]. split; [reflexivity |].
  split; [exact seeded_db_has_the_sample_users |].
  exact (update_renames_one_sample_user
           (get_request "/database-ops" {[ "operation" := "update" ]})
           seeded_db quiet_env seeded_db_is_sound eq_refl seeded_db_has_the_sample_users).
Defined.

Lemma app_demo_stores_nothing_it_refuses_witness :
  let data : body := Some {[ "name" := VStr "Ann"; "email" := VStr "" ]} in
  refused data /\
  exists resp en',
    serve (AppDemo.create_user data) ann_registered quiet_env = (Ok resp, ann_registered, en') /\
    demo_refusal data resp.
Proof.
  cbv zeta.
  assert (H : refused (Some {[ "name" := VStr "Ann"; "email" := VStr "" ]}))
    by (right; left; reflexivity).
  split; [exact H |].
  exact (app_demo_stores_nothing_it_refuses _ ann_registered quiet_env H).
Defined.

Lemma traced_demo_stores_the_same_email_twice_witness :
  ann !! "name" = Some (VStr "Ann") /\ ann !! "email" = Some (VStr "ann@example.com") /\
  exists first st1 en1 second st2 en2' listing st3 en3' t1 t2,
    AppWithInstrumentation.handle_users "POST" (Some ann) AppWithInstrumentation.initial
      quiet_env = (Ok first, st1, en1) /\
    AppWithInstrumentation.handle_users "POST" (Some ann) st1 quiet_env =
      (Ok second, st2, en2') /\
    AppWithInstrumentation.handle_users "GET" None st2 quiet_env = (Ok listing, st3, en3') /\
    status first = 201%Z /\ status second = 201%Z /\ status listing = 200%Z /\
    let before := AppWithInstrumentation.users AppWithInstrumentation.initial in
    let u1 := traced_row before (VStr "Ann") (VStr "ann@example.com") t1 in
    let u2 := traced_row (before ++ [u1]) (VStr "Ann") (VStr "ann@example.com") t2 in
    AppWithInstrumentation.users st3 = before ++ [u1; u2] /\
    resp_body listing =
      JArr (map AppWithInstrumentation.json_of_row (before ++ [u1; u2])).
Proof.
  split; [reflexivity |]. split; [reflexivity |].
  exact (traced_demo_stores_the_same_email_twice ann (VStr "Ann") (VStr "ann@example.com")
           AppWithInstrumentation.initial quiet_env quiet_env quiet_env eq_refl eq_refl).
Defined.
